(** * Roku playlist generator: a shallow embedding of [generator.py]

    The development follows the layout of the source file:
    - [PyStr]: the Python [str] methods the generator calls
      ([isdigit], [lower], [replace], the substring test [in]) and the
      conversions [str(...)] and [int(...)];
    - [Effects]: exceptions, the log and the file system, as a small
      writer/error monad;
    - [Generator]: [format_extinf], [fetch_url], [write_m3u_file],
      [get_roku_stream_url] and [generate_roku_playlist];
    - [PyObj] and [Dynamic]: the same five functions over JSON of any
      shape.

    Modelling conventions.
    - A Python [str] is a [string]; a character stands for the code point
      with the same number, so the text of the model is the text whose code
      points are below 256.  The character classes below are Python's on that
      range.
    - The generator is given twice.  [Generator] reads catalogs of the
      documented shape: a JSON scalar is a [pyval] ([None], a [bool], an
      [int] or a [str]); the document is [null] or an object; its
      [channels] entry is an association list in document order (a Python
      [dict] iterates in insertion order), and a channel is a record of
      optional fields.  [chno] and [logo] are only ever rendered with
      [str(...)] or converted with [int(...)], so they hold any scalar;
      [name] and the entries of [groups] receive [str] methods, so they
      hold [None] or a [str].  The [url] of a playback answer is a scalar.
    - [Dynamic] reads any JSON ([PyObj.obj]): every method call, subscript,
      membership test and concatenation of the source raises there what
      Python raises on a value of another type.  [Embed] puts the typed
      catalogs into JSON, and [EmbedFacts] shows that the two generators
      run alike on them.  A floating point number is kept by what the
      generator can observe of it.  The interpreter's limit on the length of
      decimal conversions (4300 digits, where it is set) is not part of
      the model: [int_of_str] converts a decimal text of any length.
    - The network and the disk are parameters ([env]): every request is
      answered by a value or by an exception.
    - [sorted] is an insertion sort; it is stable, as Python's is, and a
      stable sort by a total preorder has one possible result. *)

From Stdlib Require Import ZArith NArith List String Ascii Bool Lia.
From Stdlib Require Import Permutation Sorted DecimalString.
Import ListNotations.
Local Open Scope string_scope.

(* ===================================================================== *)
(** * Python strings *)
(* ===================================================================== *)

Module PyStr.

Definition code (c : ascii) : N := N_of_ascii c.

(** ['0'..'9']: the characters of category Nd below 256. *)
Definition is_decimal_char (c : ascii) : bool :=
  ((48 <=? code c) && (code c <=? 57))%N.

(** [str.isdigit] on one character: the decimal digits and the three
    superscript digits U+00B2, U+00B3, U+00B9. *)
Definition isdigit_char (c : ascii) : bool :=
  is_decimal_char c
  || (code c =? 178)%N || (code c =? 179)%N || (code c =? 185)%N.

Fixpoint all_chars (p : ascii -> bool) (s : string) : bool :=
  match s with
  | EmptyString => true
  | String c s' => p c && all_chars p s'
  end.

Fixpoint has_char (p : ascii -> bool) (s : string) : bool :=
  match s with
  | EmptyString => false
  | String c s' => p c || has_char p s'
  end.

(** [s.isdigit()]: at least one character, and all of them digits. *)
Definition isdigit (s : string) : bool :=
  match s with
  | EmptyString => false
  | String _ _ => all_chars isdigit_char s
  end.

(** [str.lower] on one character: A-Z, and U+00C0..U+00DE except the
    multiplication sign U+00D7, move up by 32. *)
Definition lower_char (c : ascii) : ascii :=
  let n := code c in
  if ((65 <=? n) && (n <=? 90))%N
     || ((192 <=? n) && (n <=? 222) && negb (n =? 215))%N
  then ascii_of_N (n + 32)
  else c.

Fixpoint map_chars (f : ascii -> ascii) (s : string) : string :=
  match s with
  | EmptyString => EmptyString
  | String c s' => String (f c) (map_chars f s')
  end.

Fixpoint filter_chars (p : ascii -> bool) (s : string) : string :=
  match s with
  | EmptyString => EmptyString
  | String c s' => if p c then String c (filter_chars p s') else filter_chars p s'
  end.

Definition lower (s : string) : string := map_chars lower_char s.

(** [needle in s] for two strings: [needle] starts at some position of [s]. *)
Fixpoint contains (needle s : string) : bool :=
  prefix needle s
  || match s with
     | EmptyString => false
     | String _ s' => contains needle s'
     end.

(** [s.replace(old, new)] for a non-empty [old]: scan from the left; where
    [old] starts, emit [new] and skip the rest of the occurrence ([skip]
    counts the characters still to drop), otherwise copy the character. *)
Fixpoint replace_from (old new s : string) (skip : nat) : string :=
  match s with
  | EmptyString => EmptyString
  | String c s' =>
      match skip with
      | S k => replace_from old new s' k
      | O =>
          if prefix old s
          then new ++ replace_from old new s' (String.length old - 1)
          else String c (replace_from old new s' 0)
      end
  end.

(** With an empty [old], Python puts [new] before every character and at
    the end. *)
Fixpoint replace_empty (new s : string) : string :=
  match s with
  | EmptyString => new
  | String c s' => new ++ String c (replace_empty new s')
  end.

Definition replace (s old new : string) : string :=
  match old with
  | EmptyString => replace_empty new s
  | String _ _ => replace_from old new s 0
  end.

(** [str(n)] for an [int]. *)
Definition str_of_int (z : Z) : string := NilZero.string_of_int (Z.to_int z).

(** The white space [int(...)] strips from a [str]: the C white space, and
    the two separators U+0085 and U+00A0 above 127. *)
Definition is_int_space (c : ascii) : bool :=
  let n := code c in
  (((9 <=? n) && (n <=? 13)) || (n =? 32) || (n =? 133) || (n =? 160))%N.

Fixpoint lstrip_space (l : list ascii) : list ascii :=
  match l with
  | c :: l' => if is_int_space c then lstrip_space l' else l
  | [] => []
  end.

Definition strip_space (l : list ascii) : list ascii :=
  rev (lstrip_space (rev (lstrip_space l))).

Definition digit_value (c : ascii) : Z := Z.of_N (code c) - 48.

(** Decimal digits, with single underscores allowed between digits. *)
Fixpoint digits_value (acc : Z) (after_underscore : bool) (l : list ascii)
  : option Z :=
  match l with
  | [] => if after_underscore then None else Some acc
  | c :: l' =>
      if is_decimal_char c
      then digits_value (10 * acc + digit_value c) false l'
      else if Ascii.eqb c "_"
           then if after_underscore then None else digits_value acc true l'
           else None
  end.

Definition unsigned_value (l : list ascii) : option Z :=
  match l with
  | c :: _ => if is_decimal_char c then digits_value 0 false l else None
  | [] => None
  end.

(** [int(s)] for a [str]: optional white space, an optional sign, digits.
    [None] stands for [ValueError]. *)
Definition int_of_str (s : string) : option Z :=
  match strip_space (list_ascii_of_string s) with
  | "+"%char :: l => unsigned_value l
  | "-"%char :: l => option_map Z.opp (unsigned_value l)
  | l => unsigned_value l
  end.

End PyStr.

(* ===================================================================== *)
(** * Exceptions, values and effects *)
(* ===================================================================== *)

Module Effects.

Inductive exn : Type :=
  | ConnectionError   (* requests: the transport failed *)
  | HTTPError         (* requests: raise_for_status *)
  | JSONDecodeError   (* response.json() *)
  | TypeError
  | ValueError
  | AttributeError
  | KeyError
  | OSError           (* open / write *)
  | OverflowError.    (* int() of an infinite float *)

Inductive res (A : Type) : Type :=
  | Ret (a : A)
  | Raise (e : exn).
Arguments Ret {A} a.
Arguments Raise {A} e.

(** JSON scalars as Python objects. *)
Inductive pyval : Type :=
  | PNone
  | PBool (b : bool)
  | PInt (z : Z)
  | PStr (s : string).

(** [str(v)], also what an f-string field renders. *)
Definition py_str (v : pyval) : string :=
  match v with
  | PNone => "None"
  | PBool true => "True"
  | PBool false => "False"
  | PInt z => PyStr.str_of_int z
  | PStr s => s
  end.

(** [int(v)]. *)
Definition py_int (v : pyval) : res Z :=
  match v with
  | PNone => Raise TypeError
  | PBool b => Ret (if b then 1 else 0)%Z
  | PInt z => Ret z
  | PStr s =>
      match PyStr.int_of_str s with
      | Some z => Ret z
      | None => Raise ValueError
      end
  end.

(** Truth value of [None]-or-[str]. *)
Definition truthy (t : option string) : bool :=
  match t with
  | None => false
  | Some EmptyString => false
  | Some (String _ _) => true
  end.

Inductive level : Type := INFO | WARNING | ERROR.

(** What the program does to the outside world.  [Log lvl msg cause] is a
    call of [logging.info/warning/error]: [msg] is the text before the
    exception, [cause] the exception the message ends with, if any.
    [FileWrite f c] opens [f] for writing and writes [c]. *)
Inductive event : Type :=
  | Log (lvl : level) (msg : string) (cause : option exn)
  | FileWrite (filename content : string).

(** A computation: the events it emitted, then its value or exception. *)
Definition io (A : Type) : Type := (list event * res A)%type.

Definition ret {A} (a : A) : io A := ([], Ret a).
Definition raise {A} (e : exn) : io A := ([], Raise e).
Definition lift {A} (r : res A) : io A := ([], r).
Definition emit (ev : event) : io unit := ([ev], Ret tt).

Definition bind {A B} (m : io A) (f : A -> io B) : io B :=
  match m with
  | (t, Ret a) => let (t', r) := f a in ((t ++ t')%list, r)
  | (t, Raise e) => (t, Raise e)
  end.

(** [try: m  except Exception as e: h e]. *)
Definition try_except {A} (m : io A) (h : exn -> io A) : io A :=
  match m with
  | (t, Ret a) => (t, Ret a)
  | (t, Raise e) => let (t', r) := h e in ((t ++ t')%list, r)
  end.

Definition trace {A} (m : io A) : list event := fst m.
Definition result {A} (m : io A) : res A := snd m.

End Effects.

Declare Scope io_scope.
Delimit Scope io_scope with io.
Notation "x <- m ;; k" := (Effects.bind m (fun x => k))
  (at level 61, m at next level, right associativity) : io_scope.
Notation "m ;;; k" := (Effects.bind m (fun _ => k))
  (at level 61, right associativity) : io_scope.

(* ===================================================================== *)
(** * [sorted(iterable, key=...)] *)
(* ===================================================================== *)

Module PySorted.
Import Effects.

Section Sorted.
Context {K A : Type}.
Variable leb : K -> K -> bool.

(** Insertion from the right, the new element going before the elements
    that compare equal: a stable sort, as [sorted] is. *)
Fixpoint insert (x : K * A) (l : list (K * A)) : list (K * A) :=
  match l with
  | [] => [x]
  | y :: l' => if leb (fst x) (fst y) then x :: y :: l' else y :: insert x l'
  end.

Fixpoint sort_keyed (l : list (K * A)) : list (K * A) :=
  match l with
  | [] => []
  | x :: l' => insert x (sort_keyed l')
  end.

(** The keys are computed first, for every element, from left to right;
    the first exception ends the call. *)
Fixpoint decorate (key : A -> res K) (l : list A) : res (list (K * A)) :=
  match l with
  | [] => Ret []
  | a :: l' =>
      match key a with
      | Raise e => Raise e
      | Ret k =>
          match decorate key l' with
          | Raise e => Raise e
          | Ret kl => Ret ((k, a) :: kl)
          end
      end
  end.

Definition sorted (key : A -> res K) (l : list A) : res (list A) :=
  match decorate key l with
  | Raise e => Raise e
  | Ret kl => Ret (map snd (sort_keyed kl))
  end.
End Sorted.

End PySorted.

(* ===================================================================== *)
(** * The generator *)
(* ===================================================================== *)

Module Generator.
Import PyStr Effects PySorted.
Local Open Scope io_scope.

(** ** Text constants *)

Definition dquote : string := String "034" EmptyString.
Definition squote : string := String "039" EmptyString.
Definition comma : string := ",".
Definition newline : string := String "010" EmptyString.

(** [key="value"] inside an f-string. *)
Definition attr (key value : string) : string :=
  key ++ "=" ++ dquote ++ value ++ dquote.

(** ** The catalog *)

(** One entry of the [channels] mapping.  The outer [option] of a field is
    [None] when the key is missing from the entry. *)
Record channel : Type := mkChannel {
  chno : option pyval;
  name : option (option string);
  logo : option pyval;
  groups : option (option (list (option string)))
}.

(** A [dict] keyed by channel identifier, in iteration order. *)
Definition catalog : Type := list (string * channel).

(** The parsed catalog document: its [channels] entry, when there is one,
    and the other keys it has. *)
Record document : Type := mkDocument {
  channels : option catalog;
  other_keys : list string
}.

Definition keys {V} (d : list (string * V)) : list string := map fst d.

(** [d[k]]. *)
Fixpoint getitem {V} (d : list (string * V)) (k : string) : res V :=
  match d with
  | [] => Raise KeyError
  | (k', v) :: d' => if String.eqb k' k then Ret v else getitem d' k
  end.

(** [d.get(k, default)] on a field of a channel. *)
Definition get {V} (field : option V) (default : V) : V :=
  match field with
  | Some v => v
  | None => default
  end.

(** ** The environment *)

Record response (B : Type) : Type := mkResponse {
  status_code : Z;
  headers : list (string * string);
  json : res B;        (* response.json() *)
  text : string
}.
Arguments mkResponse {B}.
Arguments status_code {B}.
Arguments headers {B}.
Arguments json {B}.
Arguments text {B}.

(** The body of a playback answer: a JSON object, of which the generator
    reads the [url] entry, or JSON that is not an object. *)
Inductive playback_info : Type :=
  | NotAnObject
  | Object (url : option pyval).

Record playback_data : Type := mkPlaybackData {
  rokuId : string;
  playId : string;
  mediaFormat : string;
  drmType : string;
  quality : string;
  bifUrl : pyval;
  adPolicyId : string;
  providerId : string
}.

(** One [requests.Session()]. *)
Record session : Type := mkSession {
  session_get : string -> res (response unit);
  session_post :
    string -> playback_data -> list (string * string) ->
    res (response playback_info)
}.

Record env : Type := mkEnv {
  (** [requests.get(url, headers=...)]; the body is the catalog document,
      [None] for JSON [null]. *)
  requests_get : string -> list (string * string) ->
                 res (response (option document));
  (** The session opened while the given channel is resolved. *)
  requests_Session : string -> session;
  (** [open(filename, 'w')] followed by [f.write(content)]. *)
  fs_write : string -> string -> res unit
}.

(** [response.raise_for_status()]. *)
Definition raise_for_status {B} (r : response B) : res unit :=
  if ((400 <=? status_code r) && (status_code r <? 600))%Z
  then Raise HTTPError else Ret tt.

(** [key in response.headers] and [response.headers[key]]: the header names
    of [requests] compare without case. *)
Fixpoint header_lookup (hs : list (string * string)) (key : string)
  : option string :=
  match hs with
  | [] => None
  | (k, v) :: hs' =>
      if String.eqb (lower k) (lower key) then Some v else header_lookup hs' key
  end.

(** ** [format_extinf] *)

Definition is_none (v : pyval) : bool :=
  match v with PNone => true | _ => false end.

Definition chno_str (tvg_chno : pyval) : string :=
  if negb (is_none tvg_chno) && isdigit (py_str tvg_chno)
  then py_str tvg_chno else "".

(** [t.replace(old, new) if t else ""]. *)
Definition replace_if (t : option string) (old new : string) : string :=
  match t with
  | Some s => if truthy t then replace s old new else ""
  | None => ""
  end.

Definition format_extinf
    (channel_id tvg_id : string) (tvg_chno : pyval) (tvg_name : option string)
    (tvg_logo : pyval) (group_title display_name : option string) : string :=
  let sanitized_tvg_name := replace_if tvg_name dquote squote in
  let sanitized_group_title := replace_if group_title dquote squote in
  let sanitized_display_name := replace_if display_name comma "" in
  "#EXTINF:-1 "
  ++ attr "channel-id" channel_id ++ " "
  ++ attr "tvg-id" tvg_id ++ " "
  ++ attr "tvg-chno" (chno_str tvg_chno) ++ " "
  ++ attr "tvg-name" sanitized_tvg_name ++ " "
  ++ attr "tvg-logo" (py_str tvg_logo) ++ " "
  ++ attr "group-title" sanitized_group_title ++ ","
  ++ sanitized_display_name ++ newline.

(** ** [fetch_url] *)

Inductive fetched : Type :=
  | FNone
  | FJson (d : document)
  | FText (s : string).

Definition fetch_url (e : env) (url : string) (is_json is_gzipped : bool)
  : io fetched :=
  try_except
    (let headers :=
       if is_gzipped then [("Accept-Encoding", "gzip")] else [] in
     response <- lift (requests_get e url headers) ;;
     lift (raise_for_status response) ;;;
     if is_json
     then d <- lift (json response) ;;
          ret (match d with Some d => FJson d | None => FNone end)
     else ret (FText (text response)))
    (fun ex =>
       emit (Log ERROR ("Failed to fetch " ++ url ++ ": ") (Some ex)) ;;;
       ret FNone).

(** ** [write_m3u_file] *)

Definition write_m3u_file (e : env) (filename content : string) : io unit :=
  try_except
    (emit (FileWrite filename content) ;;;
     lift (fs_write e filename content) ;;;
     emit (Log INFO ("Successfully wrote " ++ filename) None))
    (fun ex =>
       emit (Log ERROR ("Failed to write " ++ filename ++ ": ") (Some ex))).

(** ** [get_roku_stream_url] *)

(** Line 53 builds the address of the content API; no request is made
    to it. *)
Definition content_url (channel_id : string) : string :=
  "https://therokuchannel.roku.com/api/v2/homescreen/content/"
  ++ "https%3A%2F%2Fcontent.sr.roku.com%2Fcontent%2Fv1%2Froku-trc%2F"
  ++ channel_id
  ++ "%3Fexpand%3DviewOptions.channelId%252CviewOptions.playId"
  ++ "%252Cnext.viewOptions.channelId%252Cnext.viewOptions.playId"
  ++ "%26featureInclude%3Dbookmark%252Cwatchlist%252ClinearSchedule".

Definition root_url : string := "https://therokuchannel.roku.com/".
Definition playback_url : string :=
  "https://therokuchannel.roku.com/api/v3/playback".

Definition origin_domain : string := "osm.sr.roku.com".
Definition origin_prefix : string := "https://osm.sr.roku.com/".
Definition edge_prefix : string := "https://aka-live491.delivery.roku.com/".
Definition origin_suffix : string := "/live.m3u8".
Definition edge_suffix : string := "/t2-origin/out/v1/live.m3u8".

Definition fallback_url (channel_id : string) : string :=
  "https://aka-live491.delivery.roku.com/" ++ channel_id
  ++ "/t2-origin/out/v1/live.m3u8".

(** Lines 88-91: the transformation of a [str] the negotiation returned. *)
Definition transform_url (stream_url : string) : string :=
  if contains origin_domain stream_url
  then replace (replace stream_url origin_prefix edge_prefix)
               origin_suffix edge_suffix
  else stream_url.

(** The [headers] dictionary of the playback request (lines 58-70): the
    anti-forgery token is added when the root page carried a non-empty one. *)
Definition playback_headers (csrf_response : response unit)
  : list (string * string) :=
  let csrf_token := header_lookup (headers csrf_response) "csrf-token" in
  ([("content-type", "application/json")]
   ++ (if truthy csrf_token then [("csrf-token", get csrf_token "")] else [])
  )%list.

(** The JSON body of the playback request (lines 72-81). *)
Definition playback_body (channel_id : string) : playback_data :=
  {| rokuId := channel_id; playId := "live"; mediaFormat := "m3u";
     drmType := "widevine"; quality := "fhd"; bifUrl := PNone;
     adPolicyId := ""; providerId := "rokuavod" |}.

(** The body of the [try].  [Some url] is [return stream_url]; [None] is
    control leaving the [try] block when the status is not 200. *)
Definition negotiate (e : env) (channel_id : string) : io (option string) :=
  let _content_url := content_url channel_id in
  let session := requests_Session e channel_id in
  csrf_response <- lift (session_get session root_url) ;;
  let headers := playback_headers csrf_response in
  let playback_data := playback_body channel_id in
  playback_response <-
    lift (session_post session playback_url playback_data headers) ;;
  if (status_code playback_response =? 200)%Z
  then
    playback_info <- lift (json playback_response) ;;
    match playback_info with
    | NotAnObject => raise AttributeError            (* no [.get] *)
    | Object url =>
        match get url (PStr "") with
        | PStr stream_url => ret (Some (transform_url stream_url))
        | _ => raise TypeError                       (* [in] on a non-str *)
        end
    end
  else ret None.

Definition get_roku_stream_url (e : env) (channel_id : string) : io string :=
  r <- try_except (negotiate e channel_id)
         (fun ex =>
            emit (Log ERROR
                    ("Failed to get stream URL for channel "
                     ++ channel_id ++ ": ") (Some ex)) ;;;
            ret None) ;;
  match r with
  | Some stream_url => ret stream_url
  | None => ret (fallback_url channel_id)
  end.

(** ** [generate_roku_playlist] *)

Definition ROKU_URL : string := "https://i.mjh.nz/Roku/.channels.json".
Definition EPG_URL : string :=
  "https://github.com/matthuisman/i.mjh.nz/raw/master/Roku/all.xml.gz".
Definition header_line : string :=
  "#EXTM3U " ++ attr "url-tvg" EPG_URL ++ newline.

(** [int(channels_to_process[k].get('chno', 99999))]. *)
Definition chno_key (channels_to_process : catalog) (k : string) : res Z :=
  match getitem channels_to_process k with
  | Raise ex => Raise ex
  | Ret channel => py_int (get (chno channel) (PInt 99999))
  end.

(** [channels_to_process[k].get('name', '').lower()]. *)
Definition name_key (channels_to_process : catalog) (k : string)
  : res string :=
  match getitem channels_to_process k with
  | Raise ex => Raise ex
  | Ret channel =>
      match get (name channel) (Some "") with
      | Some s => Ret (lower s)
      | None => Raise AttributeError
      end
  end.

(** Lines 116-125. *)
Definition sort_channel_ids (sort : string) (channels_to_process : catalog)
  : io (list string) :=
  try_except
    (if String.eqb sort "chno"
     then lift (sorted Z.leb (chno_key channels_to_process)
                  (keys channels_to_process))
     else lift (sorted String.leb (name_key channels_to_process)
                  (keys channels_to_process)))
    (fun ex =>
       emit (Log WARNING
               "Sorting failed for Roku, using default order. Error: "
               (Some ex)) ;;;
       ret (keys channels_to_process)).

(** [groups_list[0] if groups_list else 'Uncategorized']. *)
Definition first_group (groups_list : option (list (option string)))
  : option string :=
  match groups_list with
  | Some (g :: _) => g
  | Some [] | None => Some "Uncategorized"
  end.

(** The metadata line of one channel (lines 129-137). *)
Definition channel_extinf (channel_id : string) (channel : channel) : string :=
  let chno := get (chno channel) PNone in
  let name := get (name channel) (Some "Unknown Channel") in
  let logo := get (logo channel) (PStr "") in
  let groups_list := get (groups channel) (Some []) in
  let group_title := first_group groups_list in
  let tvg_id := channel_id in
  format_extinf channel_id tvg_id chno name logo group_title name.

(** The loop of lines 128-141, [output_lines] being the list it appends to. *)
Fixpoint build_entries (e : env) (channels_to_process : catalog)
    (sorted_channel_ids : list string) (output_lines : list string)
  : io (list string) :=
  match sorted_channel_ids with
  | [] => ret output_lines
  | channel_id :: rest =>
      channel <- lift (getitem channels_to_process channel_id) ;;
      let extinf := channel_extinf channel_id channel in
      stream_url <- get_roku_stream_url e channel_id ;;
      build_entries e channels_to_process rest
        (output_lines ++ [extinf; (stream_url ++ newline)%string])%list
  end.

(** [not data]: an empty [dict] is false. *)
Definition document_falsy (d : document) : bool :=
  match channels d, other_keys d with
  | None, [] => true
  | _, _ => false
  end.

(** ['channels' in data]. *)
Definition has_channels (d : document) : bool :=
  match channels d with
  | Some _ => true
  | None => false
  end.

Definition default_sort : string := "chno".

(** [sort = None] is the call without the argument. *)
Definition generate_roku_playlist (e : env) (sort : option string) : io unit :=
  let sort := get sort default_sort in
  emit (Log INFO "--- Generating Roku playlist ---" None) ;;;
  data <- fetch_url e ROKU_URL true true ;;
  let abort :=
    emit (Log ERROR "Failed to fetch or parse Roku data." None) in
  match data with
  | FNone => abort
  | FText s =>
      if negb (truthy (Some s)) || negb (contains "channels" s)
      then abort
      else raise AttributeError                      (* [str] has no [.get] *)
  | FJson d =>
      if document_falsy d || negb (has_channels d)
      then abort
      else
        let output_lines := [header_line] in
        let channels_to_process := get (channels d) [] in
        sorted_channel_ids <- sort_channel_ids sort channels_to_process ;;
        output_lines <-
          build_entries e channels_to_process sorted_channel_ids
            output_lines ;;
        write_m3u_file e "roku_all.m3u" (String.concat "" output_lines)
  end.

End Generator.

(* ===================================================================== *)
(** * Observations used in the statements *)
(* ===================================================================== *)

Module Spec.
Import PyStr Effects PySorted Generator.

(** The files a run wrote, in order. *)
Fixpoint file_writes (t : list event) : list (string * string) :=
  match t with
  | [] => []
  | FileWrite f c :: t' => (f, c) :: file_writes t'
  | Log _ _ _ :: t' => file_writes t'
  end.

(** The log lines of a run, in order. *)
Fixpoint log_lines (t : list event) : list (level * string) :=
  match t with
  | [] => []
  | Log lvl msg _ :: t' => (lvl, msg) :: log_lines t'
  | FileWrite _ _ :: t' => log_lines t'
  end.

Definition is_char (a c : ascii) : bool := Ascii.eqb a c.

(** Every double quote turned into a single quote. *)
Definition quotes_to_single (s : string) : string :=
  map_chars (fun c => if is_char "034" c then "039"%char else c) s.

(** Every comma dropped. *)
Definition without_commas (s : string) : string :=
  filter_chars (fun c => negb (is_char "," c)) s.

(** The text after the last comma of a line (the whole line when it has
    no comma). *)
Fixpoint after_last_comma (s : string) : string :=
  match s with
  | EmptyString => EmptyString
  | String c s' =>
      if has_char (is_char ",") s' then after_last_comma s'
      else if is_char "," c then s' else s
  end.

(** The host of a URL, read the usual way: what stands between the [://]
    of the scheme and the next [/], [?] or [#]. *)
Fixpoint after_scheme (s : string) : string :=
  match s with
  | EmptyString => EmptyString
  | String _ s' => if prefix "://" s then substring 3 (String.length s) s
                   else after_scheme s'
  end.

Fixpoint take_until (p : ascii -> bool) (s : string) : string :=
  match s with
  | EmptyString => EmptyString
  | String c s' => if p c then EmptyString else String c (take_until p s')
  end.

Definition url_host (u : string) : string :=
  take_until (fun c => is_char "/" c || is_char "?" c || is_char "#" c)
    (after_scheme u).

(** The negotiation of lines 56-86 went through and produced [url]. *)
Definition negotiated (e : env) (channel_id url : string) : Prop :=
  exists r p u,
    session_get (requests_Session e channel_id) root_url = Ret r
    /\ session_post (requests_Session e channel_id) playback_url
         (playback_body channel_id) (playback_headers r) = Ret p
    /\ status_code p = 200%Z
    /\ json p = Ret (Object u)
    /\ get u (PStr "") = PStr url.

(** The ways a resolution fails: an exception while the session is set up,
    while the playback request is made or while its answer is parsed, an
    answer that is not the expected object, or a status other than 200. *)
Inductive resolution_fails (e : env) (channel_id : string) : Prop :=
  | session_failed ex :
      session_get (requests_Session e channel_id) root_url = Raise ex ->
      resolution_fails e channel_id
  | request_failed r ex :
      session_get (requests_Session e channel_id) root_url = Ret r ->
      session_post (requests_Session e channel_id) playback_url
        (playback_body channel_id) (playback_headers r) = Raise ex ->
      resolution_fails e channel_id
  | status_failed r p :
      session_get (requests_Session e channel_id) root_url = Ret r ->
      session_post (requests_Session e channel_id) playback_url
        (playback_body channel_id) (playback_headers r) = Ret p ->
      status_code p <> 200%Z ->
      resolution_fails e channel_id
  | parsing_failed r p ex :
      session_get (requests_Session e channel_id) root_url = Ret r ->
      session_post (requests_Session e channel_id) playback_url
        (playback_body channel_id) (playback_headers r) = Ret p ->
      status_code p = 200%Z ->
      json p = Raise ex ->
      resolution_fails e channel_id
  | answer_malformed r p :
      session_get (requests_Session e channel_id) root_url = Ret r ->
      session_post (requests_Session e channel_id) playback_url
        (playback_body channel_id) (playback_headers r) = Ret p ->
      status_code p = 200%Z ->
      (json p = Ret NotAnObject
       \/ exists v, json p = Ret (Object (Some v))
                    /\ forall s, v <> PStr s) ->
      resolution_fails e channel_id.

(** The URL the resolver hands back for a channel. *)
Definition resolved_url (e : env) (channel_id : string) : string :=
  match result (get_roku_stream_url e channel_id) with
  | Ret u => u
  | Raise _ => EmptyString
  end.

(** The two lines of one channel. *)
Definition entry_lines (e : env) (c : catalog) (channel_id : string)
  : list string :=
  match getitem c channel_id with
  | Ret ch => [channel_extinf channel_id ch; resolved_url e channel_id ++ newline]
  | Raise _ => []
  end.

(** The lines of the document for the channels [ids], in that order. *)
Definition playlist_lines (e : env) (c : catalog) (ids : list string)
  : list string :=
  header_line :: flat_map (entry_lines e c) ids.

(** A metadata line with the given attribute values and display text: the
    marker, the duration, the six attributes in their order, a comma, the
    display text and the end of line. *)
Definition extinf_of
    (channel_id tvg_id tvg_chno tvg_name tvg_logo group_title display : string)
  : string :=
  "#EXTINF:-1 "
  ++ attr "channel-id" channel_id ++ " "
  ++ attr "tvg-id" tvg_id ++ " "
  ++ attr "tvg-chno" tvg_chno ++ " "
  ++ attr "tvg-name" tvg_name ++ " "
  ++ attr "tvg-logo" tvg_logo ++ " "
  ++ attr "group-title" group_title ++ ","
  ++ display ++ newline.

(** A substring of a string. *)
Definition occurs (needle s : string) : Prop :=
  exists pre post, s = pre ++ needle ++ post.

(** The sort key the channel-number mode gives a channel. *)
Definition chno_number (ch : channel) : res Z :=
  py_int (get (chno ch) (PInt 99999)).

(** The sort key the name mode gives a channel. *)
Definition name_text (ch : channel) : res string :=
  match get (name ch) (Some "") with
  | Some s => Ret (lower s)
  | None => Raise AttributeError
  end.

(** The order of two identifiers by a key that may fail. *)
Definition key_le {K} (le : K -> K -> Prop) (key : string -> res K)
    (a b : string) : Prop :=
  exists ka kb, key a = Ret ka /\ key b = Ret kb /\ le ka kb.

Definition string_le (a b : string) : Prop := String.leb a b = true.

(** The call [sorted(...)] of the given mode, without its [try]. *)
Definition sorted_ids (sort : string) (c : catalog) : res (list string) :=
  if String.eqb sort "chno"
  then sorted Z.leb (chno_key c) (keys c)
  else sorted String.leb (name_key c) (keys c).

End Spec.

(* ===================================================================== *)
(** * Concrete environments and catalogs *)
(* ===================================================================== *)

Module Examples.
Import PyStr Effects PySorted Generator Spec.

(** No network: every request ends in a transport error. *)
Definition dead_session : session :=
  mkSession (fun _ => Raise ConnectionError)
            (fun _ _ _ => Raise ConnectionError).

(** A provider that answers every playback request with status 200 and the
    given URL. *)
Definition answering_session (url : string) : session :=
  mkSession
    (fun _ => Ret (mkResponse 200 [("Content-Type", "text/html")]
                     (Raise JSONDecodeError) "<html></html>"))
    (fun _ _ _ => Ret (mkResponse 200 [] (Ret (Object (Some (PStr url)))) "")).

Definition offline : env :=
  mkEnv (fun _ _ => Raise ConnectionError) (fun _ => dead_session)
        (fun _ _ => Ret tt).

Definition answering (url : string) : env :=
  mkEnv (fun _ _ => Raise ConnectionError) (fun _ => answering_session url)
        (fun _ _ => Ret tt).

(** The catalog endpoint serves [doc]; the provider is unreachable, so
    every channel gets the fallback URL. *)
Definition serving (doc : option document) : env :=
  mkEnv (fun _ _ => Ret (mkResponse 200 [] (Ret doc) ""))
        (fun _ => dead_session) (fun _ _ => Ret tt).

Definition with_channels (c : catalog) : option document :=
  Some (mkDocument (Some c) []).

Definition numbered (n : pyval) (nm : string) : channel :=
  mkChannel (Some n) (Some (Some nm)) None None.

Definition unnumbered (nm : string) : channel :=
  mkChannel None (Some (Some nm)) None None.

(** [{A: chno=5, B: chno=None, C: chno=1}], [None] being a value. *)
Definition abc_with_none : catalog :=
  [("A", numbered (PInt 5) "a"); ("B", numbered PNone "b");
   ("C", numbered (PInt 1) "c")].

(** The same three channels, [B] carrying no [chno] entry. *)
Definition abc_with_gap : catalog :=
  [("A", numbered (PInt 5) "a"); ("B", unnumbered "b");
   ("C", numbered (PInt 1) "c")].

Definition gap_before_large : catalog :=
  [("A", unnumbered "a"); ("B", numbered (PInt 100000) "b")].

Definition same_number : catalog :=
  [("A", numbered (PInt 5) "a"); ("B", numbered (PInt 5) "b")].

(** Channel numbers and names that order the two channels differently. *)
Definition crossed : catalog :=
  [("A", numbered (PInt 2) "a"); ("B", numbered (PInt 1) "b")].

Definition zeta_alpha : catalog :=
  [("Z", unnumbered "zeta"); ("A", unnumbered "Alpha")].

(** One channel with all its fields, one with only a name. *)
Definition complete_and_bare : catalog :=
  [("c1", mkChannel (Some (PInt 7)) (Some (Some "News, 24/7"))
            (Some (PStr "https://img.example/1.png"))
            (Some (Some [Some "News"; Some "Live"])));
   ("c2", mkChannel None (Some (Some "Bare")) None None)].

Definition off_host_url : string :=
  "https://cdn.example.com/osm.sr.roku.com/live.m3u8".

Definition origin_url : string := "https://osm.sr.roku.com/abc/live.m3u8".

End Examples.

(* ===================================================================== *)
(** * Further notions: counting, ties, environments that misbehave *)
(* ===================================================================== *)

Module Notions.
Import PyStr Effects PySorted Generator Spec Examples.

(** How many times a character occurs. *)
Fixpoint count_char (a : ascii) (s : string) : nat :=
  match s with
  | EmptyString => 0
  | String c s' => (if is_char a c then 1 else 0) + count_char a s'
  end.

Definition newline_char : ascii := "010".

Definition newline_free (s : string) : bool :=
  negb (has_char (is_char newline_char) s).

(** The text of a [None]-or-[str] value. *)
Definition text_of (t : option string) : string :=
  match t with
  | Some s => s
  | None => EmptyString
  end.

(** No text that the metadata line of the channel shows holds a newline. *)
Definition channel_newline_free (channel_id : string) (ch : channel) : bool :=
  newline_free channel_id
  && newline_free (py_str (get (chno ch) PNone))
  && newline_free (text_of (get (name ch) (Some "Unknown Channel")))
  && newline_free (py_str (get (logo ch) (PStr "")))
  && newline_free (text_of (first_group (get (groups ch) (Some [])))).

(** The headers [fetch_url] sends. *)
Definition request_headers_of (is_gzipped : bool) : list (string * string) :=
  if is_gzipped then [("Accept-Encoding", "gzip")] else [].

(** The identifiers whose sort key is equivalent to [k0]. *)
Definition has_key {K} (eqk : K -> K -> bool) (key : string -> res K)
    (k0 : K) (a : string) : bool :=
  match key a with
  | Ret k => eqk k0 k
  | Raise _ => false
  end.

(** The two lines of a channel whose resolution fell back. *)
Definition fallback_lines (c : catalog) (channel_id : string) : list string :=
  match getitem c channel_id with
  | Ret ch => [channel_extinf channel_id ch; fallback_url channel_id ++ newline]
  | Raise _ => []
  end.

(** The identifiers the loop of a run goes through. *)
Definition chosen_order (sort : option string) (c : catalog) : list string :=
  match result (sort_channel_ids (get sort default_sort) c) with
  | Ret ids => ids
  | Raise _ => []
  end.

(** A channel entry with none of the four keys. *)
Definition bare_channel : channel := mkChannel None None None None.

(** A channel entry whose four keys are all [null]. *)
Definition null_channel : channel :=
  mkChannel (Some PNone) (Some None) (Some PNone) (Some None).

(** The catalog endpoint answers with the given status and body. *)
Definition answering_status (status : Z) (body : res (option document))
  : env :=
  mkEnv (fun _ _ => Ret (mkResponse status [] body "not json"))
        (fun _ => dead_session) (fun _ _ => Ret tt).

(** The catalog is served, the provider is down and the disk refuses the
    write. *)
Definition read_only (doc : option document) : env :=
  mkEnv (fun _ _ => Ret (mkResponse 200 [] (Ret doc) ""))
        (fun _ => dead_session) (fun _ _ => Raise OSError).

(** A provider whose playback answer has the given status and body. *)
Definition playback_session (hs : list (string * string)) (status : Z)
    (body : res playback_info) : session :=
  mkSession
    (fun _ => Ret (mkResponse 200 hs (Raise JSONDecodeError) ""))
    (fun _ _ _ => Ret (mkResponse status [] body "")).

Definition playback_env (hs : list (string * string)) (status : Z)
    (body : res playback_info) : env :=
  mkEnv (fun _ _ => Raise ConnectionError)
        (fun _ => playback_session hs status body) (fun _ _ => Ret tt).

(** The headers a playback request must carry, said once more from the
    token of the root page: the JSON content type, and the token when the
    root page had one that is not empty. *)
Definition expected_headers (root_token : option string)
  : list (string * string) :=
  match root_token with
  | Some (String c t) =>
      [("content-type", "application/json"); ("csrf-token", String c t)]
  | Some EmptyString | None => [("content-type", "application/json")]
  end.

Fixpoint same_headers (a b : list (string * string)) : bool :=
  match a, b with
  | [], [] => true
  | (k, v) :: a', (k', v') :: b' =>
      String.eqb k k' && String.eqb v v' && same_headers a' b'
  | _, _ => false
  end.

(** A provider that answers only the request the resolver is meant to
    send for the channel, with exactly the expected headers, and refuses any
    other.  [root_token] is the token header of its root page, [None] when
    the page has none. *)
Definition strict_session (channel_id : string) (root_token : option string)
    (url : string) : session :=
  mkSession
    (fun u => if String.eqb u root_url
              then Ret (mkResponse 200
                          (match root_token with
                           | Some t => [("Server", "x"); ("CSRF-Token", t)]
                           | None => [("Server", "x")]
                           end)
                          (Raise JSONDecodeError) "")
              else Raise ConnectionError)
    (fun u body hs =>
       if String.eqb u playback_url
          && String.eqb (rokuId body) channel_id
          && String.eqb (playId body) "live"
          && String.eqb (mediaFormat body) "m3u"
          && String.eqb (drmType body) "widevine"
          && String.eqb (quality body) "fhd"
          && is_none (bifUrl body)
          && String.eqb (adPolicyId body) ""
          && String.eqb (providerId body) "rokuavod"
          && same_headers hs (expected_headers root_token)
       then Ret (mkResponse 200 [] (Ret (Object (Some (PStr url)))) "")
       else Raise ConnectionError).

Definition strict_env (root_token : option string) (url : string) : env :=
  mkEnv (fun _ _ => Raise ConnectionError)
        (fun channel_id => strict_session channel_id root_token url)
        (fun _ _ => Ret tt).

(** Two channels with the same number, and one with a smaller one. *)
Definition tied : catalog :=
  [("X", numbered (PInt 7) "x"); ("Y", numbered (PInt 3) "y");
   ("Z", numbered (PInt 7) "z")].

End Notions.

(* ===================================================================== *)
(** * Python objects of any JSON shape *)
(* ===================================================================== *)

(** The generator above reads a catalog of the documented shape.  JSON
    promises no shape: [PyObj] holds any parsed JSON value with the
    operations the generator applies to it, each raising where Python
    raises, and [Dynamic] is the source once more over such values.
    [Embed] maps the typed catalog and environment into them. *)

Module PyObj.
Import PyStr Effects.

(** A parsed JSON value.  A [float] is kept by what the generator can
    observe of it: its [repr], what [int(...)] makes of it, and whether it
    is non-zero. *)
#[warning="-register-all"]
Inductive obj : Type :=
  | ONone
  | OBool (b : bool)
  | OInt (z : Z)
  | OFloat (repr : string) (trunc : res Z) (nonzero : bool)
  | OStr (s : string)
  | OList (l : list obj)
  | ODict (d : list (string * obj)).

(** [bool(x)]. *)
Definition truth (x : obj) : bool :=
  match x with
  | ONone => false
  | OBool b => b
  | OInt z => negb (Z.eqb z 0)
  | OFloat _ _ nonzero => nonzero
  | OStr EmptyString => false
  | OStr (String _ _) => true
  | OList [] => false
  | OList (_ :: _) => true
  | ODict [] => false
  | ODict (_ :: _) => true
  end.

Definition hex_char (n : N) : ascii :=
  ascii_of_N (if (n <? 10)%N then 48 + n else 87 + n).

(** [str.isprintable] on one character below 256. *)
Definition is_printable (c : ascii) : bool :=
  let n := code c in
  negb ((n <? 32) || ((127 <=? n) && (n <=? 160)) || (n =? 173))%N.

(** One character inside [repr] of a [str] quoted with [quote]. *)
Definition repr_char (quote c : ascii) : string :=
  let n := code c in
  if Ascii.eqb c quote || Ascii.eqb c "092"
  then String "092" (String c EmptyString)
  else if Ascii.eqb c "009" then String "092" "t"
  else if Ascii.eqb c "010" then String "092" "n"
  else if Ascii.eqb c "013" then String "092" "r"
  else if is_printable c then String c EmptyString
  else String "092"
         (String "x" (String (hex_char (n / 16)) (String (hex_char (n mod 16))
                                                    EmptyString))).

Fixpoint concat_map (f : ascii -> string) (s : string) : string :=
  match s with
  | EmptyString => EmptyString
  | String c s' => f c ++ concat_map f s'
  end.

(** [repr(s)] for a [str]: single quotes, unless the text has a single
    quote and no double quote. *)
Definition repr_str (s : string) : string :=
  let quote : ascii :=
    if has_char (Ascii.eqb "039") s && negb (has_char (Ascii.eqb "034") s)
    then "034"%char else "039"%char in
  String quote (concat_map (repr_char quote) s ++ String quote EmptyString).

Fixpoint repr (x : obj) : string :=
  match x with
  | ONone => "None"
  | OBool true => "True"
  | OBool false => "False"
  | OInt z => str_of_int z
  | OFloat r _ _ => r
  | OStr s => repr_str s
  | OList l => "[" ++ String.concat ", " (map repr l) ++ "]"
  | ODict d =>
      "{" ++ String.concat ", "
               (map (fun kv => repr_str (fst kv) ++ ": " ++ repr (snd kv)) d)
      ++ "}"
  end.

(** [str(x)], also what an f-string field renders. *)
Definition py_str (x : obj) : string :=
  match x with
  | OStr s => s
  | _ => repr x
  end.

(** [int(x)]. *)
Definition py_int (x : obj) : res Z :=
  match x with
  | ONone => Raise TypeError
  | OBool b => Ret (if b then 1 else 0)%Z
  | OInt z => Ret z
  | OFloat _ trunc _ => trunc
  | OStr s =>
      match int_of_str s with
      | Some z => Ret z
      | None => Raise ValueError
      end
  | OList _ | ODict _ => Raise TypeError
  end.

Definition is_none (x : obj) : bool :=
  match x with ONone => true | _ => false end.

Definition is_str (x : obj) : bool :=
  match x with OStr _ => true | _ => false end.

Definition is_dict (x : obj) : bool :=
  match x with ODict _ => true | _ => false end.

Fixpoint lookup (d : list (string * obj)) (k : string) : option obj :=
  match d with
  | [] => None
  | (k', v) :: d' => if String.eqb k' k then Some v else lookup d' k
  end.

(** [needle in x] for a [str] needle: a substring of a [str], an element of
    a [list], a key of a [dict]; anything else is not iterable. *)
Definition py_in (needle : string) (x : obj) : res bool :=
  match x with
  | OStr s => Ret (contains needle s)
  | OList l =>
      Ret (existsb (fun y => match y with
                             | OStr s => String.eqb s needle
                             | _ => false
                             end) l)
  | ODict d =>
      Ret (match lookup d needle with Some _ => true | None => false end)
  | _ => Raise TypeError
  end.

(** [x.get(k, default)]: only a [dict] has the method. *)
Definition get_method (x : obj) (k : string) (default : obj) : res obj :=
  match x with
  | ODict d => Ret (match lookup d k with Some v => v | None => default end)
  | _ => Raise AttributeError
  end.

(** [list(x.keys())]. *)
Definition keys_method (x : obj) : res (list string) :=
  match x with
  | ODict d => Ret (map fst d)
  | _ => Raise AttributeError
  end.

(** [x[k]] for a key [k] that is a [str], on a [dict]. *)
Definition getitem (d : list (string * obj)) (k : string) : res obj :=
  match lookup d k with
  | Some v => Ret v
  | None => Raise KeyError
  end.

(** [x.replace(old, new)] and [x.lower()]: only a [str] has the methods. *)
Definition replace_method (x : obj) (old new : string) : res string :=
  match x with
  | OStr s => Ret (replace s old new)
  | _ => Raise AttributeError
  end.

Definition lower_method (x : obj) : res string :=
  match x with
  | OStr s => Ret (lower s)
  | _ => Raise AttributeError
  end.

(** [x + s] for a [str] [s]. *)
Definition add_str (x : obj) (s : string) : res string :=
  match x with
  | OStr t => Ret (t ++ s)
  | _ => Raise TypeError
  end.

Definition rbind {A B} (r : res A) (f : A -> res B) : res B :=
  match r with
  | Ret a => f a
  | Raise ex => Raise ex
  end.

End PyObj.

(* ===================================================================== *)
(** * The generator over any JSON *)
(* ===================================================================== *)

Module Dynamic.
Import PyStr Effects PySorted PyObj.
Local Open Scope io_scope.

(** ** The environment *)

Record session : Type := mkSession {
  session_get : string -> res (Generator.response unit);
  session_post :
    string -> Generator.playback_data -> list (string * string) ->
    res (Generator.response obj)
}.

Record env : Type := mkEnv {
  requests_get : string -> list (string * string) ->
                 res (Generator.response obj);
  requests_Session : string -> session;
  fs_write : string -> string -> res unit
}.

(** ** [format_extinf] *)

Definition chno_str (tvg_chno : obj) : string :=
  if negb (is_none tvg_chno) && isdigit (py_str tvg_chno)
  then py_str tvg_chno else "".

(** [t.replace(old, new) if t else ""]. *)
Definition replace_if (t : obj) (old new : string) : res string :=
  if truth t then replace_method t old new else Ret "".

Definition format_extinf
    (channel_id tvg_id : string)
    (tvg_chno tvg_name tvg_logo group_title display_name : obj)
  : res string :=
  let chno_str := chno_str tvg_chno in
  rbind (replace_if tvg_name Generator.dquote Generator.squote)
    (fun sanitized_tvg_name =>
  rbind (replace_if group_title Generator.dquote Generator.squote)
    (fun sanitized_group_title =>
  rbind (replace_if display_name Generator.comma "")
    (fun sanitized_display_name =>
  Ret ("#EXTINF:-1 "
       ++ Generator.attr "channel-id" channel_id ++ " "
       ++ Generator.attr "tvg-id" tvg_id ++ " "
       ++ Generator.attr "tvg-chno" chno_str ++ " "
       ++ Generator.attr "tvg-name" sanitized_tvg_name ++ " "
       ++ Generator.attr "tvg-logo" (py_str tvg_logo) ++ " "
       ++ Generator.attr "group-title" sanitized_group_title ++ ","
       ++ sanitized_display_name ++ Generator.newline)))).

(** ** [fetch_url] *)

Definition fetch_url (e : env) (url : string) (is_json is_gzipped : bool)
  : io obj :=
  try_except
    (let headers :=
       if is_gzipped then [("Accept-Encoding", "gzip")] else [] in
     response <- lift (requests_get e url headers) ;;
     lift (Generator.raise_for_status response) ;;;
     if is_json
     then lift (Generator.json response)
     else ret (OStr (Generator.text response)))
    (fun ex =>
       emit (Log ERROR ("Failed to fetch " ++ url ++ ": ") (Some ex)) ;;;
       ret ONone).

(** ** [write_m3u_file] *)

Definition write_m3u_file (e : env) (filename content : string) : io unit :=
  try_except
    (emit (FileWrite filename content) ;;;
     lift (fs_write e filename content) ;;;
     emit (Log INFO ("Successfully wrote " ++ filename) None))
    (fun ex =>
       emit (Log ERROR ("Failed to write " ++ filename ++ ": ") (Some ex))).

(** ** [get_roku_stream_url] *)

(** The body of the [try]; [None] is control leaving it when the status is
    not 200. *)
Definition negotiate (e : env) (channel_id : string) : io (option obj) :=
  let _content_url := Generator.content_url channel_id in
  let session := requests_Session e channel_id in
  csrf_response <- lift (session_get session Generator.root_url) ;;
  let headers := Generator.playback_headers csrf_response in
  let playback_data := Generator.playback_body channel_id in
  playback_response <-
    lift (session_post session Generator.playback_url playback_data headers) ;;
  if (Generator.status_code playback_response =? 200)%Z
  then
    playback_info <- lift (Generator.json playback_response) ;;
    stream_url <- lift (get_method playback_info "url" (OStr "")) ;;
    found <- lift (py_in Generator.origin_domain stream_url) ;;
    if (found : bool)
    then
      stream_url <- lift (replace_method stream_url Generator.origin_prefix
                            Generator.edge_prefix) ;;
      ret (Some (OStr (replace stream_url Generator.origin_suffix
                         Generator.edge_suffix)))
    else ret (Some stream_url)
  else ret None.

Definition get_roku_stream_url (e : env) (channel_id : string) : io obj :=
  r <- try_except (negotiate e channel_id)
         (fun ex =>
            emit (Log ERROR
                    ("Failed to get stream URL for channel "
                     ++ channel_id ++ ": ") (Some ex)) ;;;
            ret None) ;;
  match r with
  | Some stream_url => ret stream_url
  | None => ret (OStr (Generator.fallback_url channel_id))
  end.

(** ** [generate_roku_playlist] *)

(** [channels_to_process[k]]: subscripting needs a [dict] here, the keys
    being those of [channels_to_process.keys()]. *)
Definition entry (channels_to_process : obj) (k : string) : res obj :=
  match channels_to_process with
  | ODict d => getitem d k
  | _ => Raise TypeError
  end.

(** [int(channels_to_process[k].get('chno', 99999))]. *)
Definition chno_key (channels_to_process : obj) (k : string) : res Z :=
  rbind (entry channels_to_process k) (fun channel =>
  rbind (get_method channel "chno" (OInt 99999)) py_int).

(** [channels_to_process[k].get('name', '').lower()]. *)
Definition name_key (channels_to_process : obj) (k : string) : res string :=
  rbind (entry channels_to_process k) (fun channel =>
  rbind (get_method channel "name" (OStr "")) lower_method).

(** The call of [sorted] on lines 117-122, [channels_to_process.keys()]
    being evaluated first. *)
Definition sorted_ids (sort : string) (channels_to_process : obj)
  : res (list string) :=
  rbind (keys_method channels_to_process) (fun ks =>
  if String.eqb sort "chno"
  then sorted Z.leb (chno_key channels_to_process) ks
  else sorted String.leb (name_key channels_to_process) ks).

(** Lines 116-125; the handler calls [.keys()] again. *)
Definition sort_channel_ids (sort : string) (channels_to_process : obj)
  : io (list string) :=
  try_except
    (lift (sorted_ids sort channels_to_process))
    (fun ex =>
       emit (Log WARNING
               "Sorting failed for Roku, using default order. Error: "
               (Some ex)) ;;;
       lift (keys_method channels_to_process)).

(** [groups_list[0] if groups_list else 'Uncategorized']: the first element
    of a [list], the first character of a [str]; a [dict] has no key [0]
    and a number cannot be subscripted. *)
Definition first_group (groups_list : obj) : res obj :=
  if truth groups_list
  then match groups_list with
       | OList (g :: _) => Ret g
       | OStr (String c _) => Ret (OStr (String c EmptyString))
       | ODict _ => Raise KeyError
       | _ => Raise TypeError
       end
  else Ret (OStr "Uncategorized").

(** Lines 129-137 for one channel. *)
Definition channel_extinf (channel_id : string) (channel : obj) : res string :=
  rbind (get_method channel "chno" ONone) (fun chno =>
  rbind (get_method channel "name" (OStr "Unknown Channel")) (fun name =>
  rbind (get_method channel "logo" (OStr "")) (fun logo =>
  rbind (get_method channel "groups" (OList [])) (fun groups_list =>
  rbind (first_group groups_list) (fun group_title =>
  let tvg_id := channel_id in
  format_extinf channel_id tvg_id chno name logo group_title name))))).

(** The loop of lines 128-141. *)
Fixpoint build_entries (e : env) (channels_to_process : obj)
    (sorted_channel_ids : list string) (output_lines : list string)
  : io (list string) :=
  match sorted_channel_ids with
  | [] => ret output_lines
  | channel_id :: rest =>
      channel <- lift (entry channels_to_process channel_id) ;;
      extinf <- lift (channel_extinf channel_id channel) ;;
      stream_url <- get_roku_stream_url e channel_id ;;
      url_line <- lift (add_str stream_url Generator.newline) ;;
      build_entries e channels_to_process rest
        (output_lines ++ [extinf; url_line])%list
  end.

(** [not data or 'channels' not in data], the second test being made only
    when the first fails. *)
Definition no_channels (data : obj) : res bool :=
  if negb (truth data) then Ret true
  else rbind (py_in "channels" data) (fun found => Ret (negb found)).

Definition generate_roku_playlist (e : env) (sort : option string) : io unit :=
  let sort := Generator.get sort Generator.default_sort in
  emit (Log INFO "--- Generating Roku playlist ---" None) ;;;
  data <- fetch_url e Generator.ROKU_URL true true ;;
  stop <- lift (no_channels data) ;;
  if (stop : bool)
  then emit (Log ERROR "Failed to fetch or parse Roku data." None)
  else
    let output_lines := [Generator.header_line] in
    channels_to_process <- lift (get_method data "channels" (ODict [])) ;;
    sorted_channel_ids <- sort_channel_ids sort channels_to_process ;;
    output_lines <-
      build_entries e channels_to_process sorted_channel_ids output_lines ;;
    write_m3u_file e "roku_all.m3u" (String.concat "" output_lines).

End Dynamic.

(* ===================================================================== *)
(** * The typed catalog inside the JSON values *)
(* ===================================================================== *)

Module Embed.
Import PyStr Effects PyObj.

Definition of_pyval (v : pyval) : obj :=
  match v with
  | PNone => ONone
  | PBool b => OBool b
  | PInt z => OInt z
  | PStr s => OStr s
  end.

Definition of_text (t : option string) : obj :=
  match t with
  | Some s => OStr s
  | None => ONone
  end.

Definition of_groups (g : option (list (option string))) : obj :=
  match g with
  | Some l => OList (map of_text l)
  | None => ONone
  end.

Definition field {V} (k : string) (f : V -> obj) (v : option V)
  : list (string * obj) :=
  match v with
  | Some x => [(k, f x)]
  | None => []
  end.

(** A channel is the object that has the keys the record has. *)
Definition of_channel (ch : Generator.channel) : obj :=
  ODict (field "chno" of_pyval (Generator.chno ch)
         ++ field "name" of_text (Generator.name ch)
         ++ field "logo" of_pyval (Generator.logo ch)
         ++ field "groups" of_groups (Generator.groups ch))%list.

Definition of_entries (c : Generator.catalog) : list (string * obj) :=
  map (fun kv => (fst kv, of_channel (snd kv))) c.

Definition of_catalog (c : Generator.catalog) : obj := ODict (of_entries c).

Definition of_document (d : Generator.document) : obj :=
  ODict (field "channels" of_catalog (Generator.channels d)
         ++ map (fun k => (k, ONone))
              (filter (fun k => negb (String.eqb k "channels"))
                 (Generator.other_keys d)))%list.

Definition of_body (b : option Generator.document) : obj :=
  match b with
  | Some d => of_document d
  | None => ONone
  end.

(** A playback answer that is not an object is, for one, an array. *)
Definition of_playback_info (b : Generator.playback_info) : obj :=
  match b with
  | Generator.NotAnObject => OList []
  | Generator.Object url => ODict (field "url" of_pyval url)
  end.

Definition map_res {A B} (f : A -> B) (r : res A) : res B :=
  match r with
  | Ret a => Ret (f a)
  | Raise ex => Raise ex
  end.

Definition of_response {A B} (f : A -> B) (r : Generator.response A)
  : Generator.response B :=
  Generator.mkResponse (Generator.status_code r) (Generator.headers r)
    (map_res f (Generator.json r)) (Generator.text r).

Definition of_session (s : Generator.session) : Dynamic.session :=
  Dynamic.mkSession
    (Generator.session_get s)
    (fun u body hs =>
       map_res (of_response of_playback_info)
         (Generator.session_post s u body hs)).

Definition of_env (e : Generator.env) : Dynamic.env :=
  Dynamic.mkEnv
    (fun u hs => map_res (of_response of_body) (Generator.requests_get e u hs))
    (fun k => of_session (Generator.requests_Session e k))
    (Generator.fs_write e).

Definition of_fetched (f : Generator.fetched) : obj :=
  match f with
  | Generator.FNone => ONone
  | Generator.FJson d => of_document d
  | Generator.FText s => OStr s
  end.

Definition map_io {A B} (f : A -> B) (m : io A) : io B :=
  (fst m, map_res f (snd m)).

End Embed.

(* ===================================================================== *)
(** * Lines of a document, and JSON that has not the documented shape *)
(* ===================================================================== *)

Module Lines.
Import PyStr Effects PyObj.

Definition LF : ascii := "010"%char.
Definition DQ : ascii := "034"%char.

(** The lines of a text, each with its line feed; a last line without one
    is a line too. *)
Fixpoint split_lines (s : string) : list string :=
  match s with
  | EmptyString => []
  | String c s' =>
      if Ascii.eqb c LF then String c EmptyString :: split_lines s'
      else match split_lines s' with
           | [] => [String c EmptyString]
           | l :: ls => String c l :: ls
           end
  end.

Definition quoted_attr (key value : string) : string :=
  key ++ String "=" (String DQ (value ++ String DQ EmptyString)).

(** The header line, character by character. *)
Definition header_text : string :=
  "#EXTM3U "
  ++ quoted_attr "url-tvg"
       "https://github.com/matthuisman/i.mjh.nz/raw/master/Roku/all.xml.gz"
  ++ String LF EmptyString.

(** A metadata line with the six attributes in their order, without its
    line feed. *)
Definition metadata_text
    (channel_id tvg_id tvg_chno tvg_name tvg_logo group_title display : string)
  : string :=
  "#EXTINF:-1 "
  ++ quoted_attr "channel-id" channel_id ++ " "
  ++ quoted_attr "tvg-id" tvg_id ++ " "
  ++ quoted_attr "tvg-chno" tvg_chno ++ " "
  ++ quoted_attr "tvg-name" tvg_name ++ " "
  ++ quoted_attr "tvg-logo" tvg_logo ++ " "
  ++ quoted_attr "group-title" group_title ++ ","
  ++ display.

Definition no_line_feed (s : string) : bool :=
  negb (has_char (Ascii.eqb LF) s).

(** The catalog endpoint serves the given JSON; the provider is
    unreachable. *)
Definition dead_session : Dynamic.session :=
  Dynamic.mkSession (fun _ => Raise ConnectionError)
                    (fun _ _ _ => Raise ConnectionError).

Definition serving_json (body : obj) : Dynamic.env :=
  Dynamic.mkEnv
    (fun _ _ => Ret (Generator.mkResponse 200 [] (Ret body) ""))
    (fun _ => dead_session) (fun _ _ => Ret tt).

(** [{"channels": null}]. *)
Definition null_channels : obj := ODict [("channels", ONone)].

(** [{"channels": {"A": {"name": 123}}}]. *)
Definition numeric_name : obj :=
  ODict [("channels", ODict [("A", ODict [("name", OInt 123)])])].

(** [{"other": 1}]. *)
Definition no_channels_key : obj := ODict [("other", OInt 1)].

(** One channel whose name holds a line feed. *)
Definition broken_name : Generator.catalog :=
  [("A", Generator.mkChannel None
           (Some (Some ("a" ++ String LF "b"))) None None)].

(** Lines 127-143 of a run: the loop over the identifiers given and the
    write of what it has built. *)
Definition build_and_write (e : Dynamic.env) (channels_to_process : obj)
    (sorted_channel_ids : list string) : io unit :=
  bind (Dynamic.build_entries e channels_to_process sorted_channel_ids
          [Generator.header_line])
    (fun output_lines =>
       Dynamic.write_m3u_file e "roku_all.m3u"
         (String.concat "" output_lines)).

(** The warning of line 124. *)
Definition sort_warning (ex : exn) : event :=
  Log WARNING "Sorting failed for Roku, using default order. Error: "
    (Some ex).

(** The catalog has the channel [A], an object without keys, and the
    provider answers every playback request with [{"url": []}]. *)
Definition array_url_session : Dynamic.session :=
  Dynamic.mkSession
    (fun _ => Ret (Generator.mkResponse 200 [] (Ret tt) ""))
    (fun _ _ _ =>
       Ret (Generator.mkResponse 200 [] (Ret (ODict [("url", OList [])])) "")).

Definition array_url_env : Dynamic.env :=
  Dynamic.mkEnv
    (fun _ _ =>
       Ret (Generator.mkResponse 200 []
              (Ret (ODict [("channels", ODict [("A", ODict [])])])) ""))
    (fun _ => array_url_session) (fun _ _ => Ret tt).

(** [{"A": {"chno": 2}, "B": {}, "C": {"chno": true}}] and
    [{"A": {"chno": 2}, "B": {"chno": []}}]. *)
Definition plain_numbers : list (string * obj) :=
  [("A", ODict [("chno", OInt 2)]); ("B", ODict []);
   ("C", ODict [("chno", OBool true)])].

Definition array_number : list (string * obj) :=
  [("A", ODict [("chno", OInt 2)]); ("B", ODict [("chno", OList [])])].

End Lines.

(* ===================================================================== *)
(** * Facts about the string operations *)
(* ===================================================================== *)

Module PyStrFacts.
Import PyStr.

Lemma append_nil_r (s : string) : s ++ "" = s.
Proof. induction s as [|c s IH]; simpl; [reflexivity | now rewrite IH]. Qed.

Lemma append_assoc (a b c : string) : (a ++ b) ++ c = a ++ b ++ c.
Proof. induction a as [|x a IH]; simpl; [reflexivity | now rewrite IH]. Qed.

Lemma length_append (a b : string) :
  String.length (a ++ b) = String.length a + String.length b.
Proof. induction a as [|x a IH]; simpl; [reflexivity | now rewrite IH]. Qed.

Lemma prefix_nil (s : string) : prefix "" s = true.
Proof. destruct s; reflexivity. Qed.

Lemma prefix_cons (a b : ascii) (s t : string) :
  prefix (String a s) (String b t) = Ascii.eqb a b && prefix s t.
Proof.
  simpl. destruct (ascii_dec a b) as [->|Hne].
  - now rewrite Ascii.eqb_refl.
  - apply Ascii.eqb_neq in Hne. now rewrite Hne.
Qed.

Lemma prefix_append (a s : string) : prefix a (a ++ s) = true.
Proof.
  induction a as [|c a IH]; [apply prefix_nil|].
  change (String c a ++ s) with (String c (a ++ s)).
  now rewrite prefix_cons, Ascii.eqb_refl, IH.
Qed.

Lemma prefix_split (a s : string) :
  prefix a s = true -> exists t, s = a ++ t.
Proof.
  revert s; induction a as [|c a IH]; intros s H.
  - now exists s.
  - destruct s as [|d s]; [discriminate|].
    rewrite prefix_cons in H. apply andb_true_iff in H as [Hc Hp].
    apply Ascii.eqb_eq in Hc as ->. destruct (IH _ Hp) as [t ->].
    now exists t.
Qed.

Lemma contains_nil (needle : string) :
  contains needle "" = prefix needle "".
Proof. simpl. apply orb_false_r. Qed.

Lemma contains_cons (needle : string) (c : ascii) (s : string) :
  contains needle (String c s)
  = prefix needle (String c s) || contains needle s.
Proof. reflexivity. Qed.

(** [needle in s] holds exactly when [needle] occurs somewhere in [s]. *)
Lemma contains_spec (needle s : string) :
  contains needle s = true <-> exists pre post, s = pre ++ needle ++ post.
Proof.
  split.
  - induction s as [|c s IH]; intros H.
    + rewrite contains_nil in H.
      destruct (prefix_split _ _ H) as [t Ht]. now exists "", t.
    + rewrite contains_cons in H. apply orb_true_iff in H as [H|H].
      * destruct (prefix_split _ _ H) as [t Ht]. exists "", t. exact Ht.
      * destruct (IH H) as (pre & post & ->). now exists (String c pre), post.
  - intros (pre & post & ->). induction pre as [|c pre IH].
    + change ("" ++ needle ++ post) with (needle ++ post).
      destruct (needle ++ post) as [|d r] eqn:E.
      * rewrite contains_nil. rewrite <- E. apply prefix_append.
      * rewrite contains_cons, <- E, prefix_append. reflexivity.
    + change (String c pre ++ needle ++ post)
        with (String c (pre ++ needle ++ post)).
      rewrite contains_cons, IH. apply orb_true_r.
Qed.

Lemma contains_false_tail (needle : string) (c : ascii) (s : string) :
  contains needle (String c s) = false ->
  prefix needle (String c s) = false /\ contains needle s = false.
Proof.
  rewrite contains_cons. intros H. now apply orb_false_iff in H.
Qed.

Lemma replace_from_char (old : ascii) (new : string) (c : ascii) (s : string) :
  replace_from (String old "") new (String c s) 0
  = if Ascii.eqb old c
    then new ++ replace_from (String old "") new s 0
    else String c (replace_from (String old "") new s 0).
Proof.
  unfold replace_from at 1; fold replace_from.
  rewrite prefix_cons, prefix_nil, andb_true_r. reflexivity.
Qed.

(** Replacing one character by another is a character-wise map. *)
Lemma replace_char_by_char (old new : ascii) (s : string) :
  replace s (String old "") (String new "") =
  map_chars (fun c => if Ascii.eqb old c then new else c) s.
Proof.
  unfold replace. induction s as [|c s IH]; [reflexivity|].
  rewrite replace_from_char, IH. simpl. now destruct (Ascii.eqb old c).
Qed.

(** Replacing one character by nothing removes it. *)
Lemma replace_char_by_nothing (old : ascii) (s : string) :
  replace s (String old "") "" =
  filter_chars (fun c => negb (Ascii.eqb old c)) s.
Proof.
  unfold replace. induction s as [|c s IH]; [reflexivity|].
  rewrite replace_from_char, IH. simpl. now destruct (Ascii.eqb old c).
Qed.

(** Nothing to replace: the string is returned as it is. *)
Lemma replace_from_absent (old new s : string) :
  contains old s = false -> replace_from old new s 0 = s.
Proof.
  induction s as [|c s IH]; [reflexivity|]. intros H.
  apply contains_false_tail in H as [Hp Hc].
  unfold replace_from; fold replace_from. rewrite Hp, (IH Hc). reflexivity.
Qed.

Lemma replace_absent (old new s : string) :
  old <> "" -> contains old s = false -> replace s old new = s.
Proof.
  intros Hne H. unfold replace. destruct old; [congruence|].
  now apply replace_from_absent.
Qed.

Lemma replace_from_skip (old new t s : string) :
  replace_from old new (t ++ s) (String.length t) = replace_from old new s 0.
Proof.
  induction t as [|c t IH]; simpl.
  - destruct s; reflexivity.
  - exact IH.
Qed.

(** An occurrence at the very start is replaced, and the scan goes on
    behind it. *)
Lemma replace_head (old new s : string) :
  old <> "" -> replace (old ++ s) old new = new ++ replace s old new.
Proof.
  intros Hne. unfold replace. destruct old as [|c old]; [congruence|].
  change (String c old ++ s) with (String c (old ++ s)).
  unfold replace_from at 1; fold replace_from.
  change (String c (old ++ s)) with (String c old ++ s).
  rewrite prefix_append. simpl (String.length _ - 1).
  rewrite Nat.sub_0_r, replace_from_skip. reflexivity.
Qed.

(** A character that [u] does not have cannot be matched by [u]. *)
Lemma prefix_before_char (c : ascii) (u t r : string) :
  has_char (Ascii.eqb c) u = false ->
  prefix u (t ++ String c r) = true -> prefix u t = true.
Proof.
  revert t; induction u as [|d u IH]; intros t Hu H; [apply prefix_nil|].
  simpl in Hu. apply orb_false_iff in Hu as [Hd Hu].
  destruct t as [|a t].
  - change ("" ++ String c r) with (String c r) in H.
    rewrite prefix_cons in H. apply andb_true_iff in H as [H _].
    rewrite Ascii.eqb_sym in Hd. congruence.
  - change (String a t ++ String c r) with (String a (t ++ String c r)) in H.
    rewrite prefix_cons in *. apply andb_true_iff in H as [-> H].
    now rewrite (IH t Hu H).
Qed.

(** When the first character of [old] occurs nowhere else in [old], an
    occurrence of [old] cannot straddle the end of [x] in [x ++ old]; so
    if [x] has no occurrence, the one at the end is the only one. *)
Lemma replace_last (c : ascii) (old' new x : string) :
  has_char (Ascii.eqb c) old' = false ->
  contains (String c old') x = false ->
  replace (x ++ String c old') (String c old') new = x ++ new.
Proof.
  intros Hc. induction x as [|a x IH]; intros Hx.
  - change ("" ++ String c old') with (String c old').
    rewrite <- (append_nil_r (String c old')) at 1.
    rewrite replace_head by discriminate. simpl. apply append_nil_r.
  - apply contains_false_tail in Hx as [Hp Hx].
    change (String a x ++ String c old') with (String a (x ++ String c old')).
    unfold replace. unfold replace_from; fold replace_from.
    destruct (prefix (String c old') (String a (x ++ String c old'))) eqn:E.
    + exfalso. rewrite prefix_cons in E, Hp.
      apply andb_true_iff in E as [Ea E]. rewrite Ea in Hp. simpl in Hp.
      now rewrite (prefix_before_char c old' x old' Hc E) in Hp.
    + simpl. f_equal. apply (IH Hx).
Qed.

Lemma has_char_append (p : ascii -> bool) (a b : string) :
  has_char p (a ++ b) = has_char p a || has_char p b.
Proof.
  induction a as [|c a IH]; simpl; [reflexivity|].
  now rewrite IH, orb_assoc.
Qed.

Lemma has_char_map (p : ascii -> bool) (f : ascii -> ascii) (s : string) :
  (forall c, p (f c) = false) -> has_char p (map_chars f s) = false.
Proof.
  intros H. induction s as [|c s IH]; simpl; [reflexivity|].
  now rewrite H, IH.
Qed.

Lemma has_char_filter (p : ascii -> bool) (s : string) :
  has_char p (filter_chars (fun c => negb (p c)) s) = false.
Proof.
  induction s as [|c s IH]; simpl; [reflexivity|].
  destruct (p c) eqn:E; simpl; [exact IH | now rewrite E, IH].
Qed.

(** [isdigit] is wider than the decimal digits: the superscript two is a
    digit for it, and [int] does not read it. *)
Example isdigit_superscript :
  isdigit (String "178" "") = true /\ int_of_str (String "178" "") = None.
Proof. split; reflexivity. Qed.

Lemma isdigit_all (s : string) :
  isdigit s = true <-> s <> "" /\ all_chars isdigit_char s = true.
Proof.
  destruct s as [|c s].
  - split; [discriminate | intros [H _]; congruence].
  - split; [intros H; split; [discriminate | exact H] | intros [_ H]; exact H].
Qed.

End PyStrFacts.

(* ===================================================================== *)
(** * Facts about [sorted] *)
(* ===================================================================== *)

Module PySortedFacts.
Import Effects PySorted.

Section Facts.
Context {K A : Type}.
Variable leb : K -> K -> bool.
Hypothesis leb_total : forall a b, leb a b = true \/ leb b a = true.
Hypothesis leb_trans :
  forall a b c, leb a b = true -> leb b c = true -> leb a c = true.

Lemma insert_perm (x : K * A) (l : list (K * A)) :
  Permutation (insert leb x l) (x :: l).
Proof.
  induction l as [|y l IH]; simpl; [reflexivity|].
  destruct (leb (fst x) (fst y)); [reflexivity|].
  rewrite IH. apply perm_swap.
Qed.

Lemma sort_keyed_perm (l : list (K * A)) : Permutation (sort_keyed leb l) l.
Proof.
  induction l as [|x l IH]; simpl; [reflexivity|].
  rewrite insert_perm. now constructor.
Qed.

Lemma insert_sorted (x : K * A) (l : list (K * A)) :
  StronglySorted (fun a b => leb (fst a) (fst b) = true) l ->
  StronglySorted (fun a b => leb (fst a) (fst b) = true) (insert leb x l).
Proof.
  induction 1 as [|y l Hs IH Hall]; simpl.
  - repeat constructor.
  - destruct (leb (fst x) (fst y)) eqn:E.
    + constructor; [now constructor|].
      constructor; [exact E|].
      eapply Forall_impl; [|exact Hall].
      intros z Hz. simpl in *. eauto.
    + constructor; [exact IH|].
      eapply Permutation_Forall; [symmetry; apply insert_perm|].
      constructor; [|exact Hall].
      destruct (leb_total (fst x) (fst y)); [congruence|assumption].
Qed.

Lemma sort_keyed_sorted (l : list (K * A)) :
  StronglySorted (fun a b => leb (fst a) (fst b) = true) (sort_keyed leb l).
Proof.
  induction l as [|x l IH]; simpl; [constructor | now apply insert_sorted].
Qed.

(** Stability: the elements whose key is equivalent to [k] keep the order
    they had. *)
Lemma insert_stable (k : K) (x : K * A) (l : list (K * A)) :
  let same y := leb k (fst y) && leb (fst y) k in
  filter same (insert leb x l) = filter same (x :: l).
Proof.
  intros same. induction l as [|y l IH]; [reflexivity|].
  simpl insert. destruct (leb (fst x) (fst y)) eqn:E; [reflexivity|].
  change (filter same (y :: insert leb x l))
    with (if same y then y :: filter same (insert leb x l)
          else filter same (insert leb x l)).
  rewrite IH. simpl.
  destruct (same x) eqn:Hx, (same y) eqn:Hy; try reflexivity.
  exfalso. unfold same in Hx, Hy.
  apply andb_true_iff in Hx as [_ Hx]. apply andb_true_iff in Hy as [Hy _].
  rewrite (leb_trans _ _ _ Hx Hy) in E. discriminate.
Qed.

Lemma sort_keyed_stable (k : K) (l : list (K * A)) :
  let same y := leb k (fst y) && leb (fst y) k in
  filter same (sort_keyed leb l) = filter same l.
Proof.
  intros same. induction l as [|x l IH]; [reflexivity|].
  simpl sort_keyed. unfold same. rewrite insert_stable. fold same.
  simpl. now rewrite IH.
Qed.

Variable key : A -> res K.

Lemma decorate_ret (l : list A) (kl : list (K * A)) :
  decorate key l = Ret kl ->
  map snd kl = l /\ Forall (fun p => key (snd p) = Ret (fst p)) kl.
Proof.
  revert kl; induction l as [|a l IH]; simpl; intros kl H.
  - injection H as <-. now split.
  - destruct (key a) as [k|] eqn:Ek; [|discriminate].
    destruct (decorate key l) as [kl'|]; [|discriminate].
    injection H as <-. destruct (IH _ eq_refl) as [Hm Hf].
    split; simpl; [now rewrite Hm | now constructor].
Qed.

Lemma decorate_total (l : list A) :
  (forall a, In a l -> exists k, key a = Ret k) ->
  exists kl, decorate key l = Ret kl.
Proof.
  induction l as [|a l IH]; simpl; intros H; [now eexists|].
  destruct (H a (or_introl eq_refl)) as [k ->].
  destruct IH as [kl ->]; [intros; apply H; now right|]. now eexists.
Qed.

Lemma decorate_raise (l : list A) (ex : exn) :
  decorate key l = Raise ex -> exists a, In a l /\ key a = Raise ex.
Proof.
  induction l as [|a l IH]; simpl; [discriminate|].
  destruct (key a) as [k|ex'] eqn:Ek.
  - destruct (decorate key l); [discriminate|].
    intros H; injection H as ->. destruct (IH eq_refl) as (b & Hb & Hk).
    exists b; auto.
  - intros H; injection H as ->. exists a; auto.
Qed.

(** What [sorted] returns: the same elements, in non-decreasing order of
    their keys. *)
Lemma sorted_ret (l ids : list A) :
  sorted leb key l = Ret ids ->
  Permutation ids l
  /\ StronglySorted
       (fun a b => exists ka kb,
            key a = Ret ka /\ key b = Ret kb /\ leb ka kb = true) ids.
Proof.
  unfold sorted. destruct (decorate key l) as [kl|] eqn:E; [|discriminate].
  intros H; injection H as <-.
  destruct (decorate_ret _ _ E) as [Hm Hk]. split.
  - rewrite <- Hm. apply Permutation_map, sort_keyed_perm.
  - assert (Hk' : Forall (fun p => key (snd p) = Ret (fst p))
                    (sort_keyed leb kl)).
    { eapply Permutation_Forall; [symmetry; apply sort_keyed_perm|exact Hk]. }
    pose proof (sort_keyed_sorted kl) as Hs.
    induction Hs as [|x r Hs IH Hall]; simpl; constructor.
    + apply IH. now inversion Hk'.
    + inversion Hk' as [|? ? Hx Hr]; subst.
      rewrite Forall_map. rewrite Forall_forall in *.
      intros y Hy. exists (fst x), (fst y). auto.
Qed.

Lemma sorted_total (l : list A) :
  (forall a, In a l -> exists k, key a = Ret k) ->
  exists ids, sorted leb key l = Ret ids.
Proof.
  intros H. unfold sorted.
  destruct (decorate_total l H) as [kl ->]. now eexists.
Qed.

Lemma sorted_raise (l : list A) (ex : exn) :
  sorted leb key l = Raise ex -> exists a, In a l /\ key a = Raise ex.
Proof.
  unfold sorted. destruct (decorate key l) eqn:E; [discriminate|].
  intros H; injection H as ->. now apply decorate_raise.
Qed.
End Facts.

Lemma Z_leb_total (a b : Z) : Z.leb a b = true \/ Z.leb b a = true.
Proof. rewrite !Z.leb_le. lia. Qed.

Lemma Z_leb_trans (a b c : Z) :
  Z.leb a b = true -> Z.leb b c = true -> Z.leb a c = true.
Proof. rewrite !Z.leb_le. lia. Qed.

Lemma string_leb_trans (a b c : string) :
  String.leb a b = true -> String.leb b c = true -> String.leb a c = true.
Proof.
  unfold String.leb. revert b c.
  induction a as [|x a IH]; intros [|y b] [|z c]; simpl; try easy.
  unfold Ascii.compare.
  destruct (N.compare_spec (N_of_ascii x) (N_of_ascii y)) as [Exy|Lxy|Gxy];
    destruct (N.compare_spec (N_of_ascii y) (N_of_ascii z)) as [Eyz|Lyz|Gyz];
    destruct (N.compare_spec (N_of_ascii x) (N_of_ascii z)) as [Exz|Lxz|Gxz];
    try easy; try lia.
  apply IH.
Qed.

End PySortedFacts.

(* ===================================================================== *)
(** * Facts about the generator *)
(* ===================================================================== *)

Module GeneratorFacts.
Import PyStr Effects PySorted Generator Spec PyStrFacts PySortedFacts.

(** ** The monad *)

Lemma io_eta {A} (m : io A) : m = (trace m, result m).
Proof. now destruct m. Qed.

Lemma bind_ret {A B} (t : list event) (a : A) (f : A -> io B) :
  bind (t, Ret a) f = ((t ++ trace (f a))%list, result (f a)).
Proof. unfold bind. now destruct (f a). Qed.

Lemma bind_raise {A B} (t : list event) (ex : exn) (f : A -> io B) :
  bind (t, Raise ex) f = (t, Raise ex).
Proof. reflexivity. Qed.

Lemma bind_lift_ret {A B} (a : A) (f : A -> io B) :
  bind (lift (Ret a)) f = f a.
Proof. unfold bind, lift. now destruct (f a). Qed.

Lemma bind_lift_raise {A B} (ex : exn) (f : A -> io B) :
  bind (lift (Raise ex)) f = ([], Raise ex).
Proof. reflexivity. Qed.

Lemma file_writes_app (t1 t2 : list event) :
  file_writes (t1 ++ t2) = (file_writes t1 ++ file_writes t2)%list.
Proof.
  induction t1 as [|[lvl msg c|f c] t1 IH]; simpl; [reflexivity|exact IH|].
  now rewrite IH.
Qed.

Lemma log_lines_app (t1 t2 : list event) :
  log_lines (t1 ++ t2) = (log_lines t1 ++ log_lines t2)%list.
Proof.
  induction t1 as [|[lvl msg c|f c] t1 IH]; simpl; [reflexivity| |exact IH].
  now rewrite IH.
Qed.

(** ** The resolver *)

Lemma negotiate_silent (e : env) (channel_id : string) :
  trace (negotiate e channel_id) = [].
Proof.
  unfold negotiate.
  destruct (session_get _ _) as [r|ex]; [|reflexivity].
  rewrite bind_lift_ret.
  destruct (session_post _ _ _ _) as [p|ex]; [|reflexivity].
  rewrite bind_lift_ret.
  destruct (status_code p =? 200)%Z; [|reflexivity].
  destruct (json p) as [[|u]|ex]; try reflexivity.
  rewrite bind_lift_ret. now destruct (get u (PStr "")).
Qed.

Lemma negotiate_negotiated (e : env) (channel_id url : string) :
  negotiated e channel_id url ->
  negotiate e channel_id = ([], Ret (Some (transform_url url))).
Proof.
  intros (r & p & u & Hget & Hpost & Hst & Hjson & Hurl).
  unfold negotiate.
  rewrite Hget, bind_lift_ret, Hpost, bind_lift_ret, Hst, Hjson, bind_lift_ret.
  simpl. rewrite Hurl. reflexivity.
Qed.

Lemma negotiate_fails (e : env) (channel_id : string) :
  resolution_fails e channel_id ->
  result (negotiate e channel_id) = Ret None
  \/ exists ex, result (negotiate e channel_id) = Raise ex.
Proof.
  intros H. unfold negotiate.
  destruct H as [ex Hget | r ex Hget Hpost | r p Hget Hpost Hst
                | r p ex Hget Hpost Hst Hjson | r p Hget Hpost Hst Hbody];
    rewrite Hget; try rewrite bind_lift_ret;
    try rewrite Hpost; try rewrite bind_lift_ret.
  - right; now eexists.
  - right; now eexists.
  - apply Z.eqb_neq in Hst. rewrite Hst. now left.
  - rewrite Hst, Hjson. right; now eexists.
  - rewrite Hst. destruct Hbody as [Hj | (v & Hj & Hv)];
      rewrite Hj, bind_lift_ret.
    + right; now eexists.
    + right. simpl. destruct v; try (now eexists). now destruct (Hv s).
Qed.

(** The two outcomes cover every environment. *)
Lemma negotiated_or_fails (e : env) (channel_id : string) :
  resolution_fails e channel_id \/ exists url, negotiated e channel_id url.
Proof.
  destruct (session_get (requests_Session e channel_id) root_url)
    as [r|ex] eqn:Hget; [|left; eapply session_failed; eauto].
  destruct (session_post (requests_Session e channel_id) playback_url
              (playback_body channel_id) (playback_headers r))
    as [p|ex] eqn:Hpost; [|left; eapply request_failed; eauto].
  destruct (Z.eq_dec (status_code p) 200) as [Hst|Hst];
    [|left; eapply status_failed; eauto].
  destruct (json p) as [[|u]|ex] eqn:Hjson.
  - left; eapply answer_malformed; eauto.
  - destruct (get u (PStr "")) as [| b | z | s] eqn:Hu.
    1-3: destruct u as [v|]; simpl in Hu; [|discriminate]; subst v;
      left; apply (answer_malformed e channel_id r p Hget Hpost Hst);
      right; eexists; split; [exact Hjson | discriminate].
    right. exists s, r, p, u. auto.
  - left; eapply parsing_failed; eauto.
Qed.

Lemma get_roku_stream_url_cases (e : env) (channel_id : string) :
  result (get_roku_stream_url e channel_id)
  = Ret (match result (negotiate e channel_id) with
         | Ret (Some u) => u
         | _ => fallback_url channel_id
         end).
Proof.
  unfold get_roku_stream_url.
  rewrite (io_eta (negotiate e channel_id)).
  destruct (result (negotiate e channel_id)) as [[u|]|ex]; reflexivity.
Qed.

(** The resolver always returns. *)
Lemma get_roku_stream_url_ret (e : env) (channel_id : string) :
  result (get_roku_stream_url e channel_id) = Ret (resolved_url e channel_id).
Proof.
  unfold resolved_url. now rewrite get_roku_stream_url_cases.
Qed.

Lemma get_roku_stream_url_writes (e : env) (channel_id : string) :
  file_writes (trace (get_roku_stream_url e channel_id)) = [].
Proof.
  unfold get_roku_stream_url.
  rewrite (io_eta (negotiate e channel_id)), negotiate_silent.
  destruct (result (negotiate e channel_id)) as [[u|]|ex]; reflexivity.
Qed.

(** ** The catalog source and the sink *)

Lemma fetch_url_cases (e : env) (url : string) (is_json is_gzipped : bool) :
  (exists data, fetch_url e url is_json is_gzipped = ([], Ret data))
  \/ (exists ex,
        fetch_url e url is_json is_gzipped
        = ([Log ERROR ("Failed to fetch " ++ url ++ ": ") (Some ex)], Ret FNone)).
Proof.
  unfold fetch_url.
  destruct (requests_get e url _) as [r|ex];
    [rewrite bind_lift_ret | right; now eexists].
  destruct (raise_for_status r) as [[]|ex];
    [rewrite bind_lift_ret | right; now eexists].
  destruct is_json; [|left; now eexists].
  destruct (json r) as [d|ex];
    [rewrite bind_lift_ret; left; now eexists | right; now eexists].
Qed.

Lemma fetch_url_returns (e : env) (url : string) (is_json is_gzipped : bool) :
  exists data, result (fetch_url e url is_json is_gzipped) = Ret data.
Proof.
  destruct (fetch_url_cases e url is_json is_gzipped) as [[d ->]|[ex ->]];
    now eexists.
Qed.

Lemma fetch_url_writes (e : env) (url : string) (is_json is_gzipped : bool) :
  file_writes (trace (fetch_url e url is_json is_gzipped)) = [].
Proof.
  now destruct (fetch_url_cases e url is_json is_gzipped) as [[d ->]|[ex ->]].
Qed.

Lemma write_m3u_file_ret (e : env) (filename content : string) :
  result (write_m3u_file e filename content) = Ret tt.
Proof.
  unfold write_m3u_file, emit. rewrite bind_ret.
  now destruct (fs_write e filename content) as [[]|ex].
Qed.

Lemma write_m3u_file_writes (e : env) (filename content : string) :
  file_writes (trace (write_m3u_file e filename content))
  = [(filename, content)].
Proof.
  unfold write_m3u_file, emit. rewrite bind_ret.
  now destruct (fs_write e filename content) as [[]|ex].
Qed.

(** ** Ordering *)

Lemma sort_channel_ids_cases (sort : string) (c : catalog) :
  sort_channel_ids sort c
  = match sorted_ids sort c with
    | Ret ids => ([], Ret ids)
    | Raise ex =>
        ([Log WARNING "Sorting failed for Roku, using default order. Error: "
            (Some ex)],
         Ret (keys c))
    end.
Proof.
  unfold sort_channel_ids, sorted_ids.
  destruct (String.eqb sort "chno").
  - now destruct (sorted Z.leb _ _).
  - now destruct (sorted String.leb _ _).
Qed.

Lemma sorted_ids_perm (sort : string) (c : catalog) (ids : list string) :
  sorted_ids sort c = Ret ids -> Permutation ids (keys c).
Proof.
  unfold sorted_ids. destruct (String.eqb sort "chno"); intros H.
  - now apply (sorted_ret Z.leb Z_leb_total Z_leb_trans) in H.
  - now apply (sorted_ret String.leb String.leb_total string_leb_trans) in H.
Qed.

(** Whatever happens in [sorted], the loop receives every identifier of
    the catalog once. *)
Lemma sort_channel_ids_perm (sort : string) (c : catalog) :
  exists ids,
    result (sort_channel_ids sort c) = Ret ids
    /\ Permutation ids (keys c)
    /\ file_writes (trace (sort_channel_ids sort c)) = [].
Proof.
  rewrite sort_channel_ids_cases.
  destruct (sorted_ids sort c) as [ids|ex] eqn:E.
  - exists ids. repeat split; [now apply sorted_ids_perm in E].
  - exists (keys c). repeat split; reflexivity.
Qed.

(** ** The loop *)

Lemma getitem_keys {V} (d : list (string * V)) (k : string) :
  In k (keys d) -> exists v, getitem d k = Ret v.
Proof.
  induction d as [|[k' v] d IH]; simpl; [easy|].
  intros [->|H].
  - rewrite String.eqb_refl. now eexists.
  - destruct (String.eqb k' k); [now eexists | now apply IH].
Qed.

Lemma entry_lines_length (e : env) (c : catalog) (k : string) :
  In k (keys c) -> List.length (entry_lines e c k) = 2.
Proof.
  intros H. unfold entry_lines.
  now destruct (getitem_keys c k H) as [ch ->].
Qed.

Lemma build_entries_ret (e : env) (c : catalog) (ids out : list string) :
  (forall k, In k ids -> In k (keys c)) ->
  result (build_entries e c ids out)
  = Ret (out ++ flat_map (entry_lines e c) ids)%list
  /\ file_writes (trace (build_entries e c ids out)) = [].
Proof.
  revert out; induction ids as [|k ids IH]; intros out Hin.
  - simpl. now rewrite app_nil_r.
  - cbn [build_entries flat_map].
    destruct (getitem_keys c k (Hin k (or_introl eq_refl))) as [ch Hch].
    unfold entry_lines at 1. rewrite Hch, bind_lift_ret.
    rewrite (io_eta (get_roku_stream_url e k)), get_roku_stream_url_ret.
    rewrite bind_ret.
    destruct (IH (out ++ [channel_extinf k ch;
                            (resolved_url e k ++ newline)%string])%list)
      as [Hr Hw]; [intros; apply Hin; now right|].
    cbn [trace result fst snd]. rewrite Hr, file_writes_app, Hw.
    rewrite get_roku_stream_url_writes, <- app_assoc. now split.
Qed.

(** ** The builder, when the catalog is there *)

Lemma generate_with_catalog (e : env) (sort : option string) (d : document)
    (c : catalog) (ts : list event) (ids : list string) :
  result (fetch_url e ROKU_URL true true) = Ret (FJson d) ->
  channels d = Some c ->
  sort_channel_ids (get sort default_sort) c = (ts, Ret ids) ->
  result (generate_roku_playlist e sort) = Ret tt
  /\ file_writes (trace (generate_roku_playlist e sort))
     = [("roku_all.m3u", String.concat "" (playlist_lines e c ids))]
  /\ (forall ev, In ev ts -> In ev (trace (generate_roku_playlist e sort))).
Proof.
  intros Hf Hc Hs.
  destruct (sort_channel_ids_perm (get sort default_sort) c)
    as (ids' & Hids & Hperm & Hsw).
  rewrite Hs in Hids, Hsw. cbn [trace result fst snd] in Hids, Hsw.
  injection Hids as <-.
  destruct (build_entries_ret e c ids [header_line]) as [Hb Hbw].
  { intros k Hk. eapply Permutation_in; eauto. }
  pose proof (fetch_url_writes e ROKU_URL true true) as Hfw.
  pose proof (write_m3u_file_ret e "roku_all.m3u"
                (String.concat "" (playlist_lines e c ids))) as Hwr.
  pose proof (write_m3u_file_writes e "roku_all.m3u"
                (String.concat "" (playlist_lines e c ids))) as Hww.
  unfold generate_roku_playlist, emit. rewrite bind_ret.
  destruct (fetch_url e ROKU_URL true true) as [tf rf].
  cbn [trace result fst snd] in Hf, Hfw. subst rf. rewrite bind_ret.
  cbn [trace result fst snd]. unfold document_falsy, has_channels.
  rewrite Hc. cbn [negb orb get]. rewrite Hs, bind_ret.
  destruct (build_entries e c ids [header_line]) as [tb rb].
  cbn [trace result fst snd] in Hb, Hbw. subst rb. rewrite bind_ret.
  unfold playlist_lines in Hwr, Hww.
  destruct (write_m3u_file e "roku_all.m3u" _) as [tw rw].
  cbn [trace result fst snd app] in *. subst rw.
  split; [reflexivity|]. split.
  - cbn [file_writes]. rewrite !file_writes_app, Hfw, Hsw, Hbw, Hww.
    reflexivity.
  - intros ev Hev. right. apply in_or_app. right.
    apply in_or_app. now left.
Qed.

End GeneratorFacts.

(* ===================================================================== *)
(** * The properties of the specification *)
(* ===================================================================== *)

Module Properties.
Import PyStr Effects PySorted Generator Spec Examples.
Import PyStrFacts PySortedFacts GeneratorFacts.

(** ** Stream URL resolver *)

(** C1. Whenever the resolution fails at some step (an exception while the
    session is established, while the playback request is made or while its
    answer is read, or a status other than 200), [get_roku_stream_url]
    returns, without raising, the fallback template with the channel
    identifier in it, and that URL is not the empty string. *)
Theorem resolver_falls_back_on_failure (e : env) (channel_id : string) :
  resolution_fails e channel_id ->
  result (get_roku_stream_url e channel_id) = Ret (fallback_url channel_id)
  /\ fallback_url channel_id
     = "https://aka-live491.delivery.roku.com/" ++ channel_id
       ++ "/t2-origin/out/v1/live.m3u8"
  /\ fallback_url channel_id <> "".
Proof.
  intros H. rewrite get_roku_stream_url_cases.
  repeat split; [|discriminate].
  destruct (negotiate_fails e channel_id H) as [-> | [ex ->]]; reflexivity.
Qed.

Lemma resolver_falls_back_on_failure_witness :
  resolution_fails offline "abc"
  /\ result (get_roku_stream_url offline "abc")
     = Ret "https://aka-live491.delivery.roku.com/abc/t2-origin/out/v1/live.m3u8".
Proof.
  assert (H : resolution_fails offline "abc").
  { apply (session_failed offline "abc" ConnectionError). reflexivity. }
  split; [exact H|].
  exact (proj1 (resolver_falls_back_on_failure offline "abc" H)).
Defined.

(** The resolver returns in every environment, failure or not. *)
Lemma resolver_total (e : env) (channel_id : string) :
  exists url, result (get_roku_stream_url e channel_id) = Ret url.
Proof. eexists. apply get_roku_stream_url_ret. Qed.

(** A failed resolution that raised is logged once, at level ERROR. *)
Lemma resolver_logs_exception (e : env) (channel_id : string) (ex : exn) :
  result (negotiate e channel_id) = Raise ex ->
  trace (get_roku_stream_url e channel_id)
  = [Log ERROR ("Failed to get stream URL for channel " ++ channel_id ++ ": ")
       (Some ex)].
Proof.
  intros H. unfold get_roku_stream_url.
  rewrite (io_eta (negotiate e channel_id)), negotiate_silent, H. reflexivity.
Qed.

(** C2, as the specification states it, fails: the answer below is on the
    host [cdn.example.com], not on the origin-storage host, and the resolver
    still rewrites its path suffix. *)
Lemma rewrite_applied_off_host :
  negotiated (answering off_host_url) "ch1" off_host_url
  /\ url_host off_host_url = "cdn.example.com"
  /\ url_host off_host_url <> origin_domain
  /\ result (get_roku_stream_url (answering off_host_url) "ch1")
     = Ret "https://cdn.example.com/osm.sr.roku.com/t2-origin/out/v1/live.m3u8"
  /\ result (get_roku_stream_url (answering off_host_url) "ch1")
     <> Ret off_host_url.
Proof.
  split.
  { eexists _, _, _. repeat split; reflexivity. }
  repeat split; try reflexivity; discriminate.
Qed.

(** With the scheme [http], the host is the origin-storage host and the
    rewrite runs, yet the host stays: only the text [https://osm.sr.roku.com/]
    is replaced. *)
Example rewrite_keeps_http_host :
  url_host "http://osm.sr.roku.com/abc/live.m3u8" = origin_domain
  /\ transform_url "http://osm.sr.roku.com/abc/live.m3u8"
     = "http://osm.sr.roku.com/abc/t2-origin/out/v1/live.m3u8".
Proof. split; reflexivity. Qed.

(** C2, amended. For a URL returned by a successful negotiation, the rewrite
    is applied exactly when the text [osm.sr.roku.com] occurs somewhere in
    the URL: a URL without it is returned unchanged; a URL with it has every
    [https://osm.sr.roku.com/] replaced by the edge prefix and then every
    [/live.m3u8] by the edge suffix.  In particular an origin URL
    [https://osm.sr.roku.com/<path>/live.m3u8] whose path holds no further
    occurrence becomes the edge URL with the same path. *)
Theorem rewrite_applied_iff_domain_occurs (e : env) (channel_id url : string) :
  negotiated e channel_id url ->
  (~ occurs origin_domain url ->
   result (get_roku_stream_url e channel_id) = Ret url)
  /\ (occurs origin_domain url ->
      result (get_roku_stream_url e channel_id)
      = Ret (replace (replace url origin_prefix edge_prefix)
               origin_suffix edge_suffix))
  /\ (forall path,
        url = origin_prefix ++ path ++ origin_suffix ->
        ~ occurs origin_prefix (path ++ origin_suffix) ->
        ~ occurs origin_suffix (edge_prefix ++ path) ->
        result (get_roku_stream_url e channel_id)
        = Ret (edge_prefix ++ path ++ edge_suffix)).
Proof.
  intros Hn. rewrite get_roku_stream_url_cases, (negotiate_negotiated _ _ _ Hn).
  cbn [result snd]. unfold transform_url.
  assert (Hno : forall n s, ~ occurs n s -> contains n s = false).
  { intros n s H. destruct (contains n s) eqn:E; [|reflexivity].
    now apply contains_spec in E. }
  repeat split.
  - intros H. now rewrite (Hno _ _ H).
  - intros H. apply contains_spec in H. now rewrite H.
  - intros path -> Hp Hs.
    assert (Hd : contains origin_domain
                   (origin_prefix ++ path ++ origin_suffix) = true).
    { apply contains_spec. exists "https://", ("/" ++ path ++ origin_suffix).
      reflexivity. }
    rewrite Hd. f_equal.
    rewrite replace_head by discriminate.
    rewrite (replace_absent origin_prefix edge_prefix _)
      by (discriminate || now apply Hno).
    rewrite <- append_assoc.
    change origin_suffix with (String "/" "live.m3u8").
    rewrite replace_last; [apply append_assoc | reflexivity |].
    now apply Hno.
Qed.

Lemma rewrite_applied_iff_domain_occurs_witness :
  negotiated (answering origin_url) "ch1" origin_url
  /\ result (get_roku_stream_url (answering origin_url) "ch1")
     = Ret "https://aka-live491.delivery.roku.com/abc/t2-origin/out/v1/live.m3u8".
Proof.
  assert (H : negotiated (answering origin_url) "ch1" origin_url).
  { eexists _, _, _. repeat split; reflexivity. }
  split; [exact H|].
  refine (proj2 (proj2 (rewrite_applied_iff_domain_occurs
                          (answering origin_url) "ch1" origin_url H))
            "abc" eq_refl _ _).
  - intros Ho. apply contains_spec in Ho. discriminate Ho.
  - intros Ho. apply contains_spec in Ho. discriminate Ho.
Defined.

(** ** Ordering *)

Lemma bind_ext {A B} (m : io A) (f g : A -> io B) :
  (forall a, f a = g a) -> bind m f = bind m g.
Proof. intros H. destruct m as [t [a|ex]]; simpl; [now rewrite H | reflexivity]. Qed.

Lemma StronglySorted_impl {A} (R S : A -> A -> Prop) (l : list A) :
  (forall a b, R a b -> S a b) -> StronglySorted R l -> StronglySorted S l.
Proof.
  intros H. induction 1 as [|a l Hs IH Hall]; constructor; [exact IH|].
  eapply Forall_impl; [|exact Hall]. auto.
Qed.

Lemma StronglySorted_nth {A} (R : A -> A -> Prop) (l : list A) :
  StronglySorted R l ->
  forall i j a b, i < j -> nth_error l i = Some a -> nth_error l j = Some b ->
                  R a b.
Proof.
  induction 1 as [|x l Hs IH Hall]; intros i j a b Hij Hi Hj.
  - now destruct i.
  - destruct j as [|j]; [lia|]. simpl in Hj. destruct i as [|i].
    + injection Hi as <-. rewrite Forall_forall in Hall.
      apply Hall. eapply nth_error_In; eauto.
    + simpl in Hi. apply (IH i j); auto. lia.
Qed.

Lemma getitem_In {V} (d : list (string * V)) (k : string) (v : V) :
  getitem d k = Ret v -> In (k, v) d.
Proof.
  induction d as [|[k' v'] d IH]; simpl; [discriminate|].
  destruct (String.eqb_spec k' k) as [->|Hne].
  - intros H; injection H as ->. now left.
  - intros H. right. now apply IH.
Qed.

Lemma chno_key_number (c : catalog) (k : string) (ch : channel) :
  getitem c k = Ret ch -> chno_key c k = chno_number ch.
Proof. unfold chno_key. now intros ->. Qed.

Lemma name_key_text (c : catalog) (k : string) (ch : channel) :
  getitem c k = Ret ch -> name_key c k = name_text ch.
Proof. unfold name_key. now intros ->. Qed.

(** C3, as the specification states it, fails, in three ways.  A channel
    without a number is keyed 99999, so it goes before a channel numbered
    100000; two channels with the same number are not in strictly ascending
    order; and when a [chno] is [None] the conversion raises, so the catalog
    [{A: 5, B: None, C: 1}] keeps its own order [A, B, C]. *)
Lemma chno_order_counterexamples :
  (chno_str (get (chno (unnumbered "a")) PNone) = ""
   /\ chno_str (PInt 100000) = "100000"
   /\ sort_channel_ids "chno" gap_before_large = ([], Ret ["A"; "B"]))
  /\ sort_channel_ids "chno" same_number = ([], Ret ["A"; "B"])
  /\ sort_channel_ids "chno" abc_with_none
     = ([Log WARNING "Sorting failed for Roku, using default order. Error: "
           (Some TypeError)],
        Ret ["A"; "B"; "C"]).
Proof. repeat split. Qed.

(** C3, amended. In channel-number mode, when every [chno] that is present
    converts with [int(...)], the channels are put in non-decreasing order
    of their key, the key of a channel being its number, or 99999 when it
    has no [chno] entry.  So a channel without a [chno] entry comes after
    every channel whose number is below 99999; and the catalog
    [{A: chno=5, B: no chno, C: chno=1}] is ordered [C, A, B]. *)
Theorem chno_sort_orders_by_key (c : catalog) :
  (forall k ch, In (k, ch) c -> exists z, chno_number ch = Ret z) ->
  exists ids,
    sort_channel_ids "chno" c = ([], Ret ids)
    /\ Permutation ids (keys c)
    /\ StronglySorted (key_le Z.le (chno_key c)) ids
    /\ (forall i j a b cha zb,
          nth_error ids i = Some a -> nth_error ids j = Some b ->
          getitem c a = Ret cha -> chno cha = None ->
          chno_key c b = Ret zb -> (zb < 99999)%Z ->
          j < i)
    /\ sort_channel_ids "chno" abc_with_gap = ([], Ret ["C"; "A"; "B"]).
Proof.
  intros Hall.
  destruct (sorted_total Z.leb (chno_key c) (keys c)) as [ids Hids].
  { intros k Hk. destruct (getitem_keys c k Hk) as [ch Hch].
    rewrite (chno_key_number _ _ _ Hch).
    apply (Hall k ch). now apply getitem_In. }
  destruct (sorted_ret Z.leb Z_leb_total Z_leb_trans _ _ _ Hids)
    as [Hperm Hsorted].
  assert (Hs : StronglySorted (key_le Z.le (chno_key c)) ids).
  { eapply StronglySorted_impl; [|exact Hsorted].
    intros a b (ka & kb & Ha & Hb & Hle). exists ka, kb.
    repeat split; auto. now apply Z.leb_le. }
  exists ids. repeat split; auto.
  - rewrite sort_channel_ids_cases. unfold sorted_ids. simpl String.eqb.
    now rewrite Hids.
  - intros i j a b cha zb Hi Hj Ha Hnone Hb Hlt.
    assert (Ka : chno_key c a = Ret 99999%Z).
    { rewrite (chno_key_number _ _ _ Ha). unfold chno_number.
      now rewrite Hnone. }
    destruct (lt_eq_lt_dec i j) as [[Hlt'|Heq]|Hgt]; [| |exact Hgt].
    + destruct (StronglySorted_nth _ _ Hs i j a b Hlt' Hi Hj)
        as (ka & kb & Ha' & Hb' & Hle).
      rewrite Ka in Ha'. rewrite Hb in Hb'.
      injection Ha' as <-. injection Hb' as <-. lia.
    + subst j. rewrite Hi in Hj. injection Hj as <-.
      rewrite Ka in Hb. injection Hb as <-. lia.
Qed.

Lemma chno_sort_orders_by_key_witness :
  (forall k ch, In (k, ch) abc_with_gap -> exists z, chno_number ch = Ret z)
  /\ (exists ids,
        sort_channel_ids "chno" abc_with_gap = ([], Ret ids)
        /\ Permutation ids (keys abc_with_gap))
  /\ (getitem abc_with_gap "B" = Ret (unnumbered "b")
      /\ chno (unnumbered "b") = None
      /\ chno_key abc_with_gap "A" = Ret 5%Z
      /\ 1 < 2).
Proof.
  assert (H : forall k ch, In (k, ch) abc_with_gap ->
                           exists z, chno_number ch = Ret z).
  { intros k ch [E|[E|[E|[]]]]; injection E as <- <-; eexists; reflexivity. }
  split; [exact H|].
  destruct (chno_sort_orders_by_key abc_with_gap H)
    as (ids & Hs & Hp & _ & Hpos & _).
  split; [exists ids; now split|].
  repeat split.
  injection Hs as <-.
  exact (Hpos 2 1 "B" "A" (unnumbered "b") 5%Z
           eq_refl eq_refl eq_refl eq_refl eq_refl eq_refl).
Defined.

Lemma sort_channel_ids_other_mode (sort : string) (c : catalog) :
  sort <> "chno" -> sort_channel_ids sort c = sort_channel_ids "name" c.
Proof.
  intros H. apply String.eqb_neq in H.
  unfold sort_channel_ids. now rewrite H.
Qed.

(** C4, as the specification states it, fails: the mode is compared with
    ['chno'] as it is written, so ['CHNO'] selects the name order; and a call
    without the argument uses ['chno'], not the name order. *)
Lemma sort_mode_counterexample :
  sort_channel_ids "chno" crossed = ([], Ret ["B"; "A"])
  /\ sort_channel_ids "CHNO" crossed = ([], Ret ["A"; "B"])
  /\ generate_roku_playlist (serving (with_channels crossed)) (Some "CHNO")
     <> generate_roku_playlist (serving (with_channels crossed)) (Some "chno")
  /\ generate_roku_playlist (serving (with_channels crossed)) None
     <> generate_roku_playlist (serving (with_channels crossed)) (Some "name").
Proof.
  repeat split; vm_compute; discriminate.
Qed.

(** C4, amended. [generate_roku_playlist] takes any sort mode: a call
    without the argument is a call with ['chno']; the mode ['chno'], in
    exactly this spelling, selects the channel-number order, and every other
    mode selects the name order.  The name order is ascending in the
    lower-cased names (a missing name counting as the empty string), for
    example [Alpha] before [zeta]. *)
Theorem sort_mode_selects_order (e : env) (sort : string) (c : catalog) :
  generate_roku_playlist e None = generate_roku_playlist e (Some "chno")
  /\ (sort <> "chno" ->
      generate_roku_playlist e (Some sort)
      = generate_roku_playlist e (Some "name")
      /\ sort_channel_ids sort c = sort_channel_ids "name" c)
  /\ ((forall k ch, In (k, ch) c -> exists s, name_text ch = Ret s) ->
      exists ids,
        sort_channel_ids "name" c = ([], Ret ids)
        /\ Permutation ids (keys c)
        /\ StronglySorted (key_le string_le (name_key c)) ids)
  /\ (forall ch, name_text ch = Ret (lower "")
                 \/ name_text ch = Raise AttributeError
                 \/ exists s, name ch = Some (Some s)
                              /\ name_text ch = Ret (lower s))
  /\ sort_channel_ids "name" zeta_alpha = ([], Ret ["A"; "Z"]).
Proof.
  split; [reflexivity|]. split; [|split; [|split; [|reflexivity]]].
  - intros Hne. split; [|now apply sort_channel_ids_other_mode].
    unfold generate_roku_playlist. cbn [get].
    apply bind_ext; intros _. apply bind_ext; intros [|d|s]; try reflexivity.
    destruct (document_falsy d || negb (has_channels d)); [reflexivity|].
    cbv zeta. now rewrite (sort_channel_ids_other_mode sort _ Hne).
  - intros Hall.
    destruct (sorted_total String.leb (name_key c) (keys c)) as [ids Hids].
    { intros k Hk. destruct (getitem_keys c k Hk) as [ch Hch].
      rewrite (name_key_text _ _ _ Hch).
      apply (Hall k ch). now apply getitem_In. }
    destruct (sorted_ret String.leb String.leb_total string_leb_trans
                _ _ _ Hids) as [Hperm Hsorted].
    exists ids. repeat split; auto.
    rewrite sort_channel_ids_cases. unfold sorted_ids. simpl String.eqb.
    now rewrite Hids.
  - intros [? [[s|]|] ? ?]; unfold name_text; cbn [get name]; eauto.
Qed.

Lemma sort_mode_selects_order_witness :
  "CHNO" <> "chno"
  /\ (forall k ch, In (k, ch) crossed -> exists s, name_text ch = Ret s)
  /\ generate_roku_playlist (serving (with_channels crossed)) (Some "CHNO")
     = generate_roku_playlist (serving (with_channels crossed)) (Some "name")
  /\ exists ids,
      sort_channel_ids "name" crossed = ([], Ret ids)
      /\ Permutation ids (keys crossed).
Proof.
  assert (Hne : "CHNO" <> "chno") by discriminate.
  assert (H : forall k ch, In (k, ch) crossed ->
                           exists s, name_text ch = Ret s).
  { intros k ch [E|[E|[]]]; injection E as <- <-; eexists; reflexivity. }
  destruct (sort_mode_selects_order (serving (with_channels crossed))
              "CHNO" crossed) as (_ & Hmode & Hname & _).
  split; [exact Hne|]. split; [exact H|].
  split; [exact (proj1 (Hmode Hne))|].
  destruct (Hname H) as (ids & Hs & Hp & _). exists ids. now split.
Defined.

(** ** Record formatter *)

Lemma isdigit_chno_not_none (v : pyval) :
  isdigit (py_str v) = true -> is_none v = false.
Proof. now destruct v. Qed.

(** C5. When the string form of the channel number is not made of digits
    only ([None], the empty string and alphanumeric strings are such
    values), [format_extinf] renders [tvg-chno] with an empty value; when
    it is made of digits only, the attribute carries that string. *)
Theorem chno_attribute_rendering
    (channel_id tvg_id : string) (tvg_chno : pyval) (tvg_name : option string)
    (tvg_logo : pyval) (group_title display_name : option string) :
  (isdigit (py_str tvg_chno) = false ->
   format_extinf channel_id tvg_id tvg_chno tvg_name tvg_logo group_title
     display_name
   = extinf_of channel_id tvg_id ""
       (replace_if tvg_name dquote squote) (py_str tvg_logo)
       (replace_if group_title dquote squote)
       (replace_if display_name comma ""))
  /\ (isdigit (py_str tvg_chno) = true ->
      format_extinf channel_id tvg_id tvg_chno tvg_name tvg_logo group_title
        display_name
      = extinf_of channel_id tvg_id (py_str tvg_chno)
          (replace_if tvg_name dquote squote) (py_str tvg_logo)
          (replace_if group_title dquote squote)
          (replace_if display_name comma ""))
  /\ isdigit (py_str PNone) = false
  /\ isdigit (py_str (PStr "")) = false
  /\ isdigit (py_str (PStr "12a")) = false.
Proof.
  unfold format_extinf, extinf_of, chno_str.
  split; [|split; [|repeat split]]; intros H.
  - now rewrite H, andb_false_r.
  - now rewrite H, (isdigit_chno_not_none _ H).
Qed.

Lemma chno_attribute_rendering_witness :
  (isdigit (py_str (PStr "12a")) = false
   /\ format_extinf "c1" "c1" (PStr "12a") (Some "One") (PStr "") None
        (Some "One")
      = extinf_of "c1" "c1" "" "One" "" "" "One")
  /\ (isdigit (py_str (PInt 42)) = true
      /\ format_extinf "c1" "c1" (PInt 42) (Some "One") (PStr "") None
           (Some "One")
         = extinf_of "c1" "c1" "42" "One" "" "" "One").
Proof.
  destruct (chno_attribute_rendering "c1" "c1" (PStr "12a") (Some "One")
              (PStr "") None (Some "One")) as (H1 & _).
  destruct (chno_attribute_rendering "c1" "c1" (PInt 42) (Some "One")
              (PStr "") None (Some "One")) as (_ & H2 & _).
  split; (split; [reflexivity|]); [exact (H1 eq_refl) | exact (H2 eq_refl)].
Defined.

Lemma replace_if_quotes (s : string) :
  replace_if (Some s) dquote squote = quotes_to_single s.
Proof.
  destruct s as [|c s]; [reflexivity|].
  unfold replace_if, truthy. apply replace_char_by_char.
Qed.

Lemma replace_if_commas (s : string) :
  replace_if (Some s) comma "" = without_commas s.
Proof.
  destruct s as [|c s]; [reflexivity|].
  unfold replace_if, truthy. apply replace_char_by_nothing.
Qed.

Lemma after_last_comma_tail (a b : string) :
  has_char (is_char ",") b = false ->
  after_last_comma (a ++ String "," b) = b.
Proof.
  intros Hb. induction a as [|c a IH]; simpl.
  - now rewrite Hb.
  - rewrite has_char_append. simpl has_char.
    rewrite orb_true_r. exact IH.
Qed.

Lemma extinf_of_display
    (channel_id tvg_id tvg_chno tvg_name tvg_logo group_title display : string) :
  has_char (is_char ",") display = false ->
  after_last_comma
    (extinf_of channel_id tvg_id tvg_chno tvg_name tvg_logo group_title display)
  = display ++ newline.
Proof.
  intros H. unfold extinf_of.
  repeat rewrite <- append_assoc.
  match goal with
  | |- after_last_comma (((?x ++ ",") ++ ?d) ++ ?n) = _ =>
      rewrite (append_assoc (x ++ ",") d n), (append_assoc x "," (d ++ n));
      change ("," ++ d ++ n) with (String "," (d ++ n));
      apply (after_last_comma_tail x (d ++ n))
  end.
  rewrite has_char_append, H. reflexivity.
Qed.

(** C6. [format_extinf] turns every double quote of the name and of the
    group title into a single quote, so neither rendered value holds a
    double quote; and it drops every comma of the display name, so the text
    after the last comma of the line is the display text and holds none. *)
Theorem quotes_and_commas_sanitized
    (channel_id tvg_id : string) (tvg_chno tvg_logo : pyval)
    (tvg_name group_title display_name : string) :
  format_extinf channel_id tvg_id tvg_chno (Some tvg_name) tvg_logo
    (Some group_title) (Some display_name)
  = extinf_of channel_id tvg_id (chno_str tvg_chno)
      (quotes_to_single tvg_name) (py_str tvg_logo)
      (quotes_to_single group_title) (without_commas display_name)
  /\ has_char (is_char "034") (quotes_to_single tvg_name) = false
  /\ has_char (is_char "034") (quotes_to_single group_title) = false
  /\ has_char (is_char ",") (without_commas display_name) = false
  /\ after_last_comma
       (format_extinf channel_id tvg_id tvg_chno (Some tvg_name) tvg_logo
          (Some group_title) (Some display_name))
     = without_commas display_name ++ newline
  /\ has_char (is_char ",") (without_commas display_name ++ newline) = false.
Proof.
  assert (Hq : forall s, has_char (is_char "034") (quotes_to_single s) = false).
  { intros s. apply has_char_map. intros c.
    destruct (is_char "034" c) eqn:E; [reflexivity | exact E]. }
  assert (Hc : has_char (is_char ",") (without_commas display_name) = false)
    by apply has_char_filter.
  assert (Hf : format_extinf channel_id tvg_id tvg_chno (Some tvg_name)
                 tvg_logo (Some group_title) (Some display_name)
               = extinf_of channel_id tvg_id (chno_str tvg_chno)
                   (quotes_to_single tvg_name) (py_str tvg_logo)
                   (quotes_to_single group_title)
                   (without_commas display_name)).
  { unfold format_extinf.
    now rewrite !replace_if_quotes, replace_if_commas. }
  repeat split; auto.
  - rewrite Hf. now apply extinf_of_display.
  - rewrite has_char_append, Hc. reflexivity.
Qed.

(** ** Playlist builder *)

Lemma entries_length (e : env) (c : catalog) (ids : list string) :
  (forall k, In k ids -> In k (keys c)) ->
  List.length (flat_map (entry_lines e c) ids) = 2 * List.length ids.
Proof.
  induction ids as [|k ids IH]; intros Hin; [reflexivity|].
  cbn [flat_map]. rewrite length_app, IH by (intros; apply Hin; now right).
  rewrite entry_lines_length by (apply Hin; now left). simpl. lia.
Qed.

Lemma entries_nth (e : env) (c : catalog) (ids : list string) :
  (forall k, In k ids -> In k (keys c)) ->
  forall i k, nth_error ids i = Some k ->
    exists ch,
      getitem c k = Ret ch
      /\ nth_error (flat_map (entry_lines e c) ids) (2 * i)
         = Some (channel_extinf k ch)
      /\ nth_error (flat_map (entry_lines e c) ids) (2 * i + 1)
         = Some (resolved_url e k ++ newline).
Proof.
  induction ids as [|k0 ids IH]; intros Hin i k Hi; [now destruct i|].
  destruct (getitem_keys c k0 (Hin k0 (or_introl eq_refl))) as [ch0 H0].
  cbn [flat_map]. unfold entry_lines at 1 3. rewrite H0.
  destruct i as [|i].
  - injection Hi as <-. exists ch0. now repeat split.
  - destruct (IH (fun k' H => Hin k' (or_intror H)) i k Hi)
      as (ch & Hch & Ha & Hb).
    exists ch. split; [exact Hch|].
    replace (2 * S i) with (S (S (2 * i))) by lia.
    replace (S (S (2 * i)) + 1) with (S (S (2 * i + 1))) by lia.
    now split.
Qed.

(** C10. When the fetch succeeds and the [channels] mapping is empty, the
    build goes on: the document written is the header line alone. *)
Theorem empty_catalog_writes_header
    (e : env) (sort : option string) (d : document) :
  result (fetch_url e ROKU_URL true true) = Ret (FJson d) ->
  channels d = Some [] ->
  result (generate_roku_playlist e sort) = Ret tt
  /\ file_writes (trace (generate_roku_playlist e sort))
     = [("roku_all.m3u", header_line)]
  /\ header_line = "#EXTM3U " ++ attr "url-tvg" EPG_URL ++ newline.
Proof.
  intros Hf Hc.
  assert (Hs : sort_channel_ids (get sort default_sort) [] = ([], Ret [])).
  { rewrite sort_channel_ids_cases. unfold sorted_ids.
    now destruct (String.eqb _ _). }
  destruct (generate_with_catalog e sort d [] _ _ Hf Hc Hs) as (Hr & Hw & _).
  repeat split; assumption.
Qed.

Lemma empty_catalog_writes_header_witness :
  result (fetch_url (serving (with_channels [])) ROKU_URL true true)
  = Ret (FJson (mkDocument (Some []) []))
  /\ file_writes (trace (generate_roku_playlist (serving (with_channels []))
                           None))
     = [("roku_all.m3u", header_line)].
Proof.
  split; [reflexivity|].
  exact (proj1 (proj2 (empty_catalog_writes_header
                         (serving (with_channels [])) None
                         (mkDocument (Some []) []) eq_refl eq_refl))).
Defined.

End Properties.

(* ===================================================================== *)
(** * Further behaviour of the source, function by function *)
(* ===================================================================== *)

Module Behaviour.
Import PyStr Effects PySorted Generator Spec Examples Notions.
Import PyStrFacts PySortedFacts GeneratorFacts.

(** ** [fetch_url] *)

(** X1. [fetch_url] never raises.  It logs at most one line, an ERROR that
    names the URL, and only when it returns [None]; in JSON mode it never
    returns text and in text mode never a parsed document. *)
Theorem fetch_url_contains_failures
    (e : env) (url : string) (is_json is_gzipped : bool) :
  exists data,
    result (fetch_url e url is_json is_gzipped) = Ret data
    /\ (trace (fetch_url e url is_json is_gzipped) = []
        \/ (data = FNone
            /\ exists ex,
                trace (fetch_url e url is_json is_gzipped)
                = [Log ERROR ("Failed to fetch " ++ url ++ ": ") (Some ex)]))
    /\ (is_json = true -> forall s, data <> FText s)
    /\ (is_json = false -> forall d, data <> FJson d).
Proof.
  assert (Hcase :
    (exists data, fetch_url e url is_json is_gzipped = ([], Ret data)
                  /\ (is_json = true -> forall s, data <> FText s)
                  /\ (is_json = false -> forall d, data <> FJson d))
    \/ (exists ex,
          fetch_url e url is_json is_gzipped
          = ([Log ERROR ("Failed to fetch " ++ url ++ ": ") (Some ex)],
             Ret FNone))).
  { unfold fetch_url.
    destruct (requests_get e url _) as [r|ex];
      [rewrite bind_lift_ret | right; now eexists].
    destruct (raise_for_status r) as [[]|ex];
      [rewrite bind_lift_ret | right; now eexists].
    destruct is_json.
    - destruct (json r) as [[d|]|ex];
        [rewrite bind_lift_ret | rewrite bind_lift_ret | right; now eexists];
        left; eexists; (split; [reflexivity|]); split; intros; discriminate.
    - left; eexists; (split; [reflexivity|]); split; intros; discriminate. }
  destruct Hcase as [(data & -> & H1 & H2) | (ex & ->)].
  - exists data. repeat split; auto.
  - exists FNone. split; [reflexivity|].
    split; [right; split; [reflexivity | eexists; reflexivity]|].
    split; intros; discriminate.
Qed.

(** X2. A status from 400 to 599 makes [fetch_url] return [None] and log
    the HTTP error, in either mode and whatever the body is, a well-formed
    catalog included. *)
Theorem fetch_url_error_status
    (e : env) (url : string) (is_json is_gzipped : bool)
    (r : response (option document)) :
  requests_get e url (request_headers_of is_gzipped) = Ret r ->
  (400 <= status_code r < 600)%Z ->
  fetch_url e url is_json is_gzipped
  = ([Log ERROR ("Failed to fetch " ++ url ++ ": ") (Some HTTPError)],
     Ret FNone).
Proof.
  intros Hget Hst. unfold fetch_url. unfold request_headers_of in Hget.
  rewrite Hget, bind_lift_ret. unfold raise_for_status.
  replace ((400 <=? status_code r) && (status_code r <? 600))%Z with true.
  - reflexivity.
  - symmetry. apply andb_true_iff. split; [apply Z.leb_le | apply Z.ltb_lt]; lia.
Qed.

Lemma fetch_url_error_status_witness :
  (400 <= 404 < 600)%Z
  /\ fetch_url (answering_status 404 (Ret (with_channels crossed)))
       ROKU_URL true true
     = ([Log ERROR ("Failed to fetch " ++ ROKU_URL ++ ": ") (Some HTTPError)],
        Ret FNone).
Proof.
  assert (H : (400 <= 404 < 600)%Z) by lia.
  split; [exact H|].
  exact (fetch_url_error_status
           (answering_status 404 (Ret (with_channels crossed)))
           ROKU_URL true true _ eq_refl H).
Defined.

(** X3. Any other status is accepted, 200 or not.  In JSON mode the parsed
    body is returned, a [null] body giving [None] without any log line; a
    body that does not parse gives [None] and the decoding error in the
    log.  In text mode the text is returned and the body is never parsed. *)
Theorem fetch_url_accepted_status
    (e : env) (url : string) (is_gzipped : bool)
    (r : response (option document)) :
  requests_get e url (request_headers_of is_gzipped) = Ret r ->
  ((status_code r < 400)%Z \/ (600 <= status_code r)%Z) ->
  fetch_url e url false is_gzipped = ([], Ret (FText (text r)))
  /\ (forall d, json r = Ret (Some d) ->
                fetch_url e url true is_gzipped = ([], Ret (FJson d)))
  /\ (json r = Ret None ->
      fetch_url e url true is_gzipped = ([], Ret FNone))
  /\ (forall ex, json r = Raise ex ->
                 fetch_url e url true is_gzipped
                 = ([Log ERROR ("Failed to fetch " ++ url ++ ": ") (Some ex)],
                    Ret FNone)).
Proof.
  intros Hget Hst. unfold fetch_url. unfold request_headers_of in Hget.
  rewrite Hget, !bind_lift_ret. unfold raise_for_status.
  replace ((400 <=? status_code r) && (status_code r <? 600))%Z with false.
  - rewrite !bind_lift_ret. repeat split.
    + intros d ->. now rewrite bind_lift_ret.
    + intros ->. now rewrite bind_lift_ret.
    + now intros ex ->.
  - symmetry. apply andb_false_iff.
    destruct Hst; [left; apply Z.leb_gt | right; apply Z.ltb_ge]; lia.
Qed.

Lemma fetch_url_accepted_status_witness :
  ((204 < 400)%Z \/ (600 <= 204)%Z)
  /\ fetch_url (answering_status 204 (Raise JSONDecodeError)) ROKU_URL
       false true
     = ([], Ret (FText "not json"))
  /\ fetch_url (answering_status 204 (Raise JSONDecodeError)) ROKU_URL
       true true
     = ([Log ERROR ("Failed to fetch " ++ ROKU_URL ++ ": ")
           (Some JSONDecodeError)], Ret FNone).
Proof.
  assert (H : (204 < 400)%Z \/ (600 <= 204)%Z) by (left; lia).
  split; [exact H|].
  destruct (fetch_url_accepted_status
              (answering_status 204 (Raise JSONDecodeError)) ROKU_URL true
              _ eq_refl H) as (Ht & _ & _ & Hj).
  split; [exact Ht | exact (Hj JSONDecodeError eq_refl)].
Defined.

(** ** [write_m3u_file] *)

(** X4. [write_m3u_file] never raises.  It makes one write, of the content
    it was given to the file it was given; when the write goes through it
    logs one INFO line, and when the write raises it logs one ERROR line
    with that exception and still returns. *)
Theorem write_m3u_file_contains_failures
    (e : env) (filename content : string) :
  result (write_m3u_file e filename content) = Ret tt
  /\ file_writes (trace (write_m3u_file e filename content))
     = [(filename, content)]
  /\ (fs_write e filename content = Ret tt ->
      trace (write_m3u_file e filename content)
      = [FileWrite filename content;
         Log INFO ("Successfully wrote " ++ filename) None])
  /\ (forall ex, fs_write e filename content = Raise ex ->
      trace (write_m3u_file e filename content)
      = [FileWrite filename content;
         Log ERROR ("Failed to write " ++ filename ++ ": ") (Some ex)]).
Proof.
  unfold write_m3u_file, emit. rewrite bind_ret.
  destruct (fs_write e filename content) as [[]|ex]; repeat split;
    try discriminate.
  intros ex' H. now injection H as <-.
Qed.

Lemma write_m3u_file_contains_failures_witness :
  fs_write (read_only None) "roku_all.m3u" "text" = Raise OSError
  /\ result (write_m3u_file (read_only None) "roku_all.m3u" "text") = Ret tt
  /\ trace (write_m3u_file (read_only None) "roku_all.m3u" "text")
     = [FileWrite "roku_all.m3u" "text";
        Log ERROR "Failed to write roku_all.m3u: " (Some OSError)].
Proof.
  split; [reflexivity|].
  destruct (write_m3u_file_contains_failures (read_only None)
              "roku_all.m3u" "text") as (Hr & _ & _ & He).
  split; [exact Hr | exact (He OSError eq_refl)].
Defined.

(** ** [get_roku_stream_url] *)

Lemma get_roku_stream_url_of_negotiate
    (e : env) (channel_id : string) (r : res (option string)) :
  negotiate e channel_id = ([], r) ->
  get_roku_stream_url e channel_id
  = match r with
    | Ret (Some u) => ([], Ret u)
    | Ret None => ([], Ret (fallback_url channel_id))
    | Raise ex =>
        ([Log ERROR ("Failed to get stream URL for channel "
                     ++ channel_id ++ ": ") (Some ex)],
         Ret (fallback_url channel_id))
    end.
Proof.
  intros H. unfold get_roku_stream_url. rewrite H.
  now destruct r as [[u|]|ex].
Qed.

(** X5. A playback answer whose status is not 200 is dropped in silence:
    the resolver returns the fallback URL and logs nothing, whatever the
    body of the answer holds. *)
Theorem resolver_silent_on_status
    (e : env) (channel_id : string) (r : response unit)
    (p : response playback_info) :
  session_get (requests_Session e channel_id) root_url = Ret r ->
  session_post (requests_Session e channel_id) playback_url
    (playback_body channel_id) (playback_headers r) = Ret p ->
  status_code p <> 200%Z ->
  get_roku_stream_url e channel_id = ([], Ret (fallback_url channel_id)).
Proof.
  intros Hget Hpost Hst.
  rewrite (get_roku_stream_url_of_negotiate e channel_id (Ret None));
    [reflexivity|].
  unfold negotiate. rewrite Hget, bind_lift_ret, Hpost, bind_lift_ret.
  apply Z.eqb_neq in Hst. now rewrite Hst.
Qed.

Lemma resolver_silent_on_status_witness :
  (201 <> 200)%Z
  /\ get_roku_stream_url
       (playback_env [] 201 (Ret (Object (Some (PStr origin_url))))) "abc"
     = ([], Ret "https://aka-live491.delivery.roku.com/abc/t2-origin/out/v1/live.m3u8").
Proof.
  assert (H : (201 <> 200)%Z) by discriminate.
  split; [exact H|].
  exact (resolver_silent_on_status
           (playback_env [] 201 (Ret (Object (Some (PStr origin_url)))))
           "abc" _ _ eq_refl eq_refl H).
Defined.

(** X6. An exception anywhere in the resolution (the root page, the
    playback request, the parsing of a 200 answer, an answer that is not an
    object, a [url] that is not a string) gives the fallback URL and exactly
    one ERROR line, which names the channel and carries that exception. *)
Theorem resolver_logs_each_exception
    (e : env) (channel_id : string) (ex : exn) :
  (session_get (requests_Session e channel_id) root_url = Raise ex
   \/ (exists r,
         session_get (requests_Session e channel_id) root_url = Ret r
         /\ (session_post (requests_Session e channel_id) playback_url
               (playback_body channel_id) (playback_headers r) = Raise ex
             \/ exists p,
                 session_post (requests_Session e channel_id) playback_url
                   (playback_body channel_id) (playback_headers r) = Ret p
                 /\ status_code p = 200%Z
                 /\ (json p = Raise ex
                     \/ (json p = Ret NotAnObject /\ ex = AttributeError)
                     \/ (exists v, json p = Ret (Object (Some v))
                                   /\ (forall s, v <> PStr s)
                                   /\ ex = TypeError))))) ->
  get_roku_stream_url e channel_id
  = ([Log ERROR ("Failed to get stream URL for channel " ++ channel_id ++ ": ")
        (Some ex)],
     Ret (fallback_url channel_id)).
Proof.
  intros H.
  rewrite (get_roku_stream_url_of_negotiate e channel_id (Raise ex));
    [reflexivity|].
  unfold negotiate.
  destruct H as [Hget | (r & Hget & [Hpost | (p & Hpost & Hst & Hbody)])];
    rewrite Hget; [reflexivity | rewrite bind_lift_ret, Hpost; reflexivity |].
  rewrite bind_lift_ret, Hpost, bind_lift_ret, Hst.
  destruct Hbody as [Hj | [[Hj ->] | (v & Hj & Hv & ->)]]; rewrite Hj;
    [reflexivity | now rewrite bind_lift_ret |].
  rewrite bind_lift_ret. simpl. destruct v; try reflexivity.
  now destruct (Hv s).
Qed.

Lemma resolver_logs_each_exception_witness :
  get_roku_stream_url (playback_env [] 200 (Ret (Object (Some (PInt 5)))))
    "abc"
  = ([Log ERROR "Failed to get stream URL for channel abc: " (Some TypeError)],
     Ret "https://aka-live491.delivery.roku.com/abc/t2-origin/out/v1/live.m3u8").
Proof.
  apply (resolver_logs_each_exception
           (playback_env [] 200 (Ret (Object (Some (PInt 5))))) "abc"
           TypeError).
  right. eexists. split; [reflexivity|]. right. eexists.
  split; [reflexivity|]. split; [reflexivity|]. right. right.
  exists (PInt 5). repeat split. discriminate.
Defined.

(** X7. A 200 answer that is an object without a [url] entry, or with an
    empty one, is a success for the resolver: it returns the empty string,
    not the fallback URL, and logs nothing. *)
Theorem resolver_returns_empty_url
    (e : env) (channel_id : string) (r : response unit)
    (p : response playback_info) :
  session_get (requests_Session e channel_id) root_url = Ret r ->
  session_post (requests_Session e channel_id) playback_url
    (playback_body channel_id) (playback_headers r) = Ret p ->
  status_code p = 200%Z ->
  (json p = Ret (Object None) \/ json p = Ret (Object (Some (PStr "")))) ->
  get_roku_stream_url e channel_id = ([], Ret "")
  /\ fallback_url channel_id <> "".
Proof.
  intros Hget Hpost Hst Hbody. split; [|discriminate].
  rewrite (get_roku_stream_url_of_negotiate e channel_id (Ret (Some "")));
    [reflexivity|].
  unfold negotiate.
  rewrite Hget, bind_lift_ret, Hpost, bind_lift_ret, Hst.
  destruct Hbody as [-> | ->]; now rewrite bind_lift_ret.
Qed.

Lemma resolver_returns_empty_url_witness :
  get_roku_stream_url (playback_env [] 200 (Ret (Object None))) "abc"
  = ([], Ret "").
Proof.
  exact (proj1 (resolver_returns_empty_url
                  (playback_env [] 200 (Ret (Object None))) "abc" _ _
                  eq_refl eq_refl eq_refl (or_introl eq_refl))).
Defined.

Lemma same_headers_refl (hs : list (string * string)) :
  same_headers hs hs = true.
Proof.
  induction hs as [|[k v] hs IH]; [reflexivity|].
  cbn [same_headers]. now rewrite !String.eqb_refl, IH.
Qed.

Lemma strict_headers_sent (root_token : option string) :
  playback_headers
    (mkResponse 200
       (match root_token with
        | Some t => [("Server", "x"); ("CSRF-Token", t)]
        | None => [("Server", "x")]
        end) (Raise JSONDecodeError) "")
  = expected_headers root_token.
Proof. destruct root_token as [[|c t]|]; reflexivity. Qed.

(** X8. The request the resolver sends.  A provider that answers only a
    POST to the playback address whose body is the channel identifier with
    the fixed play, format, DRM, quality, ad-policy and provider fields and
    a null bitmap index, and whose headers are exactly the JSON content
    type followed by the token of the root page when that page carries a
    non-empty one (the name of the header being matched without case) and
    exactly the JSON content type when it carries none or an empty one, and
    that refuses every other request, gets its URL through. *)
Theorem resolver_sends_expected_request
    (channel_id : string) (root_token : option string) (url : string) :
  get_roku_stream_url (strict_env root_token url) channel_id
  = ([], Ret (transform_url url))
  /\ expected_headers None = [("content-type", "application/json")]
  /\ expected_headers (Some "") = [("content-type", "application/json")]
  /\ (forall c t,
        expected_headers (Some (String c t))
        = [("content-type", "application/json");
           ("csrf-token", String c t)]).
Proof.
  split; [|repeat split].
  rewrite (get_roku_stream_url_of_negotiate _ channel_id
             (Ret (Some (transform_url url)))); [reflexivity|].
  unfold negotiate, strict_env, strict_session.
  cbn [requests_Session session_get session_post].
  rewrite String.eqb_refl, bind_lift_ret.
  rewrite strict_headers_sent, same_headers_refl.
  unfold playback_body.
  cbn [rokuId playId mediaFormat drmType quality bifUrl adPolicyId providerId].
  rewrite !String.eqb_refl. cbn [andb is_none].
  rewrite bind_lift_ret. cbn [status_code Z.eqb json].
  rewrite bind_lift_ret. reflexivity.
Qed.

(** X9. The resolution of a channel reads nothing but the answers to its
    own two requests: two environments that answer the root page alike, and
    alike the playback request built from that answer, give the same URL
    and the same log, whatever else differs (the catalog endpoint, the disk,
    the sessions of other channels, the answers to other requests). *)
Theorem resolver_reads_only_its_requests (e e' : env) (channel_id : string) :
  session_get (requests_Session e channel_id) root_url
  = session_get (requests_Session e' channel_id) root_url ->
  (forall r,
     session_get (requests_Session e channel_id) root_url = Ret r ->
     session_post (requests_Session e channel_id) playback_url
       (playback_body channel_id) (playback_headers r)
     = session_post (requests_Session e' channel_id) playback_url
         (playback_body channel_id) (playback_headers r)) ->
  get_roku_stream_url e channel_id = get_roku_stream_url e' channel_id.
Proof.
  intros Hget Hpost. unfold get_roku_stream_url.
  replace (negotiate e' channel_id) with (negotiate e channel_id);
    [reflexivity|].
  unfold negotiate. rewrite <- Hget.
  destruct (session_get (requests_Session e channel_id) root_url)
    as [r|ex]; [|reflexivity].
  rewrite !bind_lift_ret. now rewrite (Hpost r eq_refl).
Qed.

Lemma resolver_reads_only_its_requests_witness :
  get_roku_stream_url (answering origin_url) "abc"
  = get_roku_stream_url
      (mkEnv (fun _ _ => Ret (mkResponse 200 [] (Ret None) ""))
             (fun k => if String.eqb k "abc" then answering_session origin_url
                       else dead_session)
             (fun _ _ => Raise OSError)) "abc".
Proof.
  apply resolver_reads_only_its_requests; [reflexivity|].
  intros r _. reflexivity.
Defined.

Lemma transform_origin_url (path : string) :
  ~ occurs origin_prefix (path ++ origin_suffix) ->
  ~ occurs origin_suffix (edge_prefix ++ path) ->
  transform_url (origin_prefix ++ path ++ origin_suffix)
  = edge_prefix ++ path ++ edge_suffix.
Proof.
  intros Hp Hs.
  assert (Hno : forall n s, ~ occurs n s -> contains n s = false).
  { intros n s H. destruct (contains n s) eqn:E; [|reflexivity].
    now apply contains_spec in E. }
  unfold transform_url.
  assert (Hd : contains origin_domain
                 (origin_prefix ++ path ++ origin_suffix) = true).
  { apply contains_spec. exists "https://", ("/" ++ path ++ origin_suffix).
    reflexivity. }
  rewrite Hd, replace_head by discriminate.
  rewrite (replace_absent origin_prefix edge_prefix _)
    by (discriminate || now apply Hno).
  rewrite <- append_assoc.
  change origin_suffix with (String "/" "live.m3u8").
  rewrite replace_last; [apply append_assoc | reflexivity | now apply Hno].
Qed.

(** X10. The fallback URL of a channel is the URL the rewrite makes of
    the channel's origin URL [https://osm.sr.roku.com/<id>/live.m3u8]: when
    the negotiation returns that URL (the identifier holding no further
    occurrence of the rewritten texts), the resolver returns exactly what it
    returns when the negotiation fails. *)
Theorem fallback_is_rewritten_origin (e : env) (channel_id : string) :
  negotiated e channel_id (origin_prefix ++ channel_id ++ origin_suffix) ->
  ~ occurs origin_prefix (channel_id ++ origin_suffix) ->
  ~ occurs origin_suffix (edge_prefix ++ channel_id) ->
  result (get_roku_stream_url e channel_id) = Ret (fallback_url channel_id).
Proof.
  intros Hn Hp Hs.
  rewrite get_roku_stream_url_cases, (negotiate_negotiated _ _ _ Hn).
  cbn [result snd]. now rewrite transform_origin_url.
Qed.

Lemma fallback_is_rewritten_origin_witness :
  negotiated (answering origin_url) "abc"
    (origin_prefix ++ "abc" ++ origin_suffix)
  /\ result (get_roku_stream_url (answering origin_url) "abc")
     = Ret (fallback_url "abc").
Proof.
  assert (H : negotiated (answering origin_url) "abc"
                (origin_prefix ++ "abc" ++ origin_suffix)).
  { eexists _, _, _. repeat split; reflexivity. }
  split; [exact H|].
  apply (fallback_is_rewritten_origin (answering origin_url) "abc" H).
  - intros Ho. apply contains_spec in Ho. discriminate Ho.
  - intros Ho. apply contains_spec in Ho. discriminate Ho.
Defined.

(** ** [format_extinf] and the fields of a channel *)

Lemma string_of_uint_digits (d : Decimal.uint) :
  all_chars isdigit_char (NilEmpty.string_of_uint d) = true.
Proof. induction d; simpl; auto. Qed.

Lemma isdigit_nilzero (d : Decimal.uint) :
  isdigit (NilZero.string_of_uint d) = true.
Proof.
  destruct d; try reflexivity;
    unfold NilZero.string_of_uint; apply isdigit_all;
    (split; [discriminate | apply string_of_uint_digits]).
Qed.

Lemma isdigit_str_of_int (z : Z) : isdigit (str_of_int z) = (0 <=? z)%Z.
Proof.
  unfold str_of_int. destruct z as [|p|p]; cbn [Z.to_int Z.leb Z.compare].
  - reflexivity.
  - apply isdigit_nilzero.
  - reflexivity.
Qed.

(** X11. An integer channel number is rendered exactly when it is not
    negative, as its decimal digits; a negative one and a boolean one
    render as the empty attribute. *)
Theorem integer_chno_rendering
    (channel_id tvg_id : string) (z : Z) (b : bool)
    (tvg_name : option string) (tvg_logo : pyval)
    (group_title display_name : option string) :
  format_extinf channel_id tvg_id (PInt z) tvg_name tvg_logo group_title
    display_name
  = extinf_of channel_id tvg_id
      (if (0 <=? z)%Z then str_of_int z else "")
      (replace_if tvg_name dquote squote) (py_str tvg_logo)
      (replace_if group_title dquote squote)
      (replace_if display_name comma "")
  /\ format_extinf channel_id tvg_id (PBool b) tvg_name tvg_logo group_title
       display_name
     = extinf_of channel_id tvg_id ""
         (replace_if tvg_name dquote squote) (py_str tvg_logo)
         (replace_if group_title dquote squote)
         (replace_if display_name comma "")
  /\ ((0 <= z)%Z -> all_chars is_decimal_char (str_of_int z) = true
                   /\ str_of_int z <> "").
Proof.
  unfold format_extinf, extinf_of, chno_str.
  split; [|split; [|intros Hz; split]].
  - cbn [is_none negb andb py_str]. now rewrite isdigit_str_of_int.
  - now destruct b.
  - unfold str_of_int.
    destruct z as [|p|p]; [reflexivity | | lia].
    cbn [Z.to_int NilZero.string_of_int].
    generalize (Pos.to_uint p). intros d.
    assert (Hu : forall u, all_chars is_decimal_char
                             (NilEmpty.string_of_uint u) = true)
      by (induction u; simpl; auto).
    destruct d; try reflexivity; unfold NilZero.string_of_uint; apply Hu.
  - unfold str_of_int.
    destruct z as [|p|p]; cbn [Z.to_int NilZero.string_of_int];
      try discriminate.
    destruct (Pos.to_uint p); discriminate.
Qed.

Lemma integer_chno_rendering_witness :
  (0 <= 42)%Z
  /\ format_extinf "c" "c" (PInt 42) None PNone None None
     = extinf_of "c" "c" "42" "" "None" "" ""
  /\ format_extinf "c" "c" (PInt (-3)) None PNone None None
     = extinf_of "c" "c" "" "" "None" "" ""
  /\ str_of_int 42 <> "".
Proof.
  assert (H : (0 <= 42)%Z) by lia.
  split; [exact H|].
  split; [exact (proj1 (integer_chno_rendering "c" "c" 42 true None PNone
                          None None))|].
  split; [exact (proj1 (integer_chno_rendering "c" "c" (-3) true None PNone
                          None None))|].
  exact (proj2 (proj2 (proj2 (integer_chno_rendering "c" "c" 42 true None
                                PNone None None)) H)).
Defined.

(** X12. What a channel entry contributes to its metadata line, key by
    key.  A missing [name] gives ['Unknown Channel'] in both places, a
    [null] or empty one gives empty texts; a missing [logo] gives the empty
    attribute and a [null] one the text [None]; [groups] counts only through
    its first entry, with ['Uncategorized'] when it is missing, [null] or
    empty and the empty attribute when the first entry is [null]; [tvg-id]
    repeats the channel identifier. *)
Theorem channel_fields_rendering (channel_id : string) (ch : channel) :
  channel_extinf channel_id ch
  = extinf_of channel_id channel_id
      (match chno ch with
       | Some v => chno_str v
       | None => ""
       end)
      (match name ch with
       | None => "Unknown Channel"
       | Some None => ""
       | Some (Some s) => quotes_to_single s
       end)
      (match logo ch with
       | None => ""
       | Some v => py_str v
       end)
      (match groups ch with
       | Some (Some (Some g :: _)) => quotes_to_single g
       | Some (Some (None :: _)) => ""
       | Some (Some []) | Some None | None => "Uncategorized"
       end)
      (match name ch with
       | None => "Unknown Channel"
       | Some None => ""
       | Some (Some s) => without_commas s
       end).
Proof.
  unfold channel_extinf, format_extinf, extinf_of.
  destruct ch as [c n l g]. cbn [chno name logo groups get].
  assert (Hc : chno_str (get c PNone)
               = match c with Some v => chno_str v | None => "" end)
    by now destruct c.
  assert (Hn : forall t : option (option string),
             replace_if (get t (Some "Unknown Channel")) dquote squote
             = match t with
               | None => "Unknown Channel"
               | Some None => ""
               | Some (Some s) => quotes_to_single s
               end).
  { intros [[s|]|]; try reflexivity.
    cbn [get]. apply Properties.replace_if_quotes. }
  assert (Hd : replace_if (get n (Some "Unknown Channel")) comma ""
               = match n with
                 | None => "Unknown Channel"
                 | Some None => ""
                 | Some (Some s) => without_commas s
                 end).
  { destruct n as [[s|]|]; try reflexivity.
    cbn [get]. apply Properties.replace_if_commas. }
  assert (Hl : py_str (get l (PStr ""))
               = match l with Some v => py_str v | None => "" end)
    by now destruct l.
  assert (Hg : replace_if (first_group (get g (Some []))) dquote squote
               = match g with
                 | Some (Some (Some x :: _)) => quotes_to_single x
                 | Some (Some (None :: _)) => ""
                 | _ => "Uncategorized"
                 end).
  { destruct g as [[[|[x|] rest]|]|]; try reflexivity.
    cbn [get first_group]. apply Properties.replace_if_quotes. }
  rewrite Hc, (Hn n), Hd, Hl.
  cbn [get] in Hc. fold (get c PNone).
  now rewrite Hg.
Qed.

(** ** [generate_roku_playlist] *)

Lemma fetch_url_json_mode (e : env) (url : string) (is_gzipped : bool) :
  (exists d, fetch_url e url true is_gzipped = ([], Ret (FJson d)))
  \/ result (fetch_url e url true is_gzipped) = Ret FNone.
Proof.
  unfold fetch_url.
  destruct (requests_get e url _) as [r|ex]; [rewrite bind_lift_ret | now right].
  destruct (raise_for_status r) as [[]|ex];
    [rewrite bind_lift_ret | now right].
  destruct (json r) as [[d|]|ex]; try rewrite bind_lift_ret;
    [left; now eexists | now right | now right].
Qed.

Lemma generate_without_catalog (e : env) (sort : option string) :
  (result (fetch_url e ROKU_URL true true) = Ret FNone
   \/ exists d, result (fetch_url e ROKU_URL true true) = Ret (FJson d)
                /\ channels d = None) ->
  result (generate_roku_playlist e sort) = Ret tt
  /\ file_writes (trace (generate_roku_playlist e sort)) = [].
Proof.
  intros H. unfold generate_roku_playlist, emit. rewrite bind_ret.
  pose proof (fetch_url_writes e ROKU_URL true true) as Hw.
  destruct (fetch_url e ROKU_URL true true) as [tf rf].
  cbn [trace result fst snd] in H, Hw.
  destruct H as [-> | (d & -> & Hd)]; rewrite bind_ret;
    cbn [trace result fst snd]; unfold has_channels;
    try rewrite Hd; try rewrite orb_true_r; cbn [trace result fst snd];
    (split; [reflexivity | now rewrite !file_writes_app, Hw]).
Qed.

(** The whole trace of a run that has its catalog. *)
Lemma generate_trace (e : env) (sort : option string) (d : document)
    (c : catalog) :
  result (fetch_url e ROKU_URL true true) = Ret (FJson d) ->
  channels d = Some c ->
  generate_roku_playlist e sort
  = ((Log INFO "--- Generating Roku playlist ---" None
      :: trace (sort_channel_ids (get sort default_sort) c)
      ++ trace (build_entries e c (chosen_order sort c) [header_line])
      ++ trace (write_m3u_file e "roku_all.m3u"
                  (String.concat ""
                     (playlist_lines e c (chosen_order sort c)))))%list,
     Ret tt).
Proof.
  intros Hf Hc.
  destruct (fetch_url_json_mode e ROKU_URL true) as [[d' Hd'] | Hn];
    [|rewrite Hn in Hf; discriminate].
  rewrite Hd' in Hf. cbn [result snd] in Hf. injection Hf as ->.
  destruct (sort_channel_ids_perm (get sort default_sort) c)
    as (ids & Hids & Hperm & _).
  destruct (build_entries_ret e c ids [header_line]) as [Hb _].
  { intros k Hk. eapply Permutation_in; eauto. }
  pose proof (write_m3u_file_ret e "roku_all.m3u"
                (String.concat "" (playlist_lines e c ids))) as Hwr.
  unfold chosen_order. rewrite Hids.
  unfold generate_roku_playlist, emit. rewrite bind_ret, Hd', bind_ret.
  cbn [trace result fst snd]. unfold document_falsy, has_channels.
  rewrite Hc. cbn [negb orb get].
  rewrite (io_eta (sort_channel_ids (get sort default_sort) c)), Hids, bind_ret.
  cbn [trace result fst snd].
  rewrite (io_eta (build_entries e c ids [header_line])), Hb, bind_ret.
  cbn [trace result fst snd].
  unfold playlist_lines in *. cbn [app] in *. rewrite Hwr. reflexivity.
Qed.

(** Over catalogs and answers of the documented shape the run returns, and
    writes at most the one file. *)
Lemma typed_generate_total (e : env) (sort : option string) :
  result (generate_roku_playlist e sort) = Ret tt
  /\ (file_writes (trace (generate_roku_playlist e sort)) = []
      \/ exists doc,
          file_writes (trace (generate_roku_playlist e sort))
          = [("roku_all.m3u", doc)]).
Proof.
  destruct (fetch_url_json_mode e ROKU_URL true) as [[d Hd] | Hn].
  - assert (Hf : result (fetch_url e ROKU_URL true true) = Ret (FJson d))
      by now rewrite Hd.
    destruct (channels d) as [c|] eqn:Hc.
    + destruct (sort_channel_ids (get sort default_sort) c) as [ts rs] eqn:Hs.
      destruct (sort_channel_ids_perm (get sort default_sort) c)
        as (ids & Hids & _).
      rewrite Hs in Hids. cbn [result snd] in Hids. subst rs.
      destruct (generate_with_catalog e sort d c ts ids Hf Hc Hs)
        as (Hr & Hw & _).
      split; [exact Hr | right; eauto].
    + destruct (generate_without_catalog e sort) as [Hr Hw]; [eauto|].
      split; [exact Hr | now left].
  - destruct (generate_without_catalog e sort) as [Hr Hw]; [now left|].
    split; [exact Hr | now left].
Qed.

Lemma resolver_trace_cases (e : env) (channel_id : string) :
  trace (get_roku_stream_url e channel_id) = []
  \/ exists ex,
      trace (get_roku_stream_url e channel_id)
      = [Log ERROR ("Failed to get stream URL for channel "
                    ++ channel_id ++ ": ") (Some ex)].
Proof.
  unfold get_roku_stream_url.
  rewrite (io_eta (negotiate e channel_id)), negotiate_silent.
  destruct (result (negotiate e channel_id)) as [[u|]|ex];
    [now left | now left | right; now eexists].
Qed.

(** The loop logs nothing but the errors of the resolver. *)
Lemma build_entries_logs (e : env) (c : catalog) (ids out : list string) :
  (forall k, In k ids -> In k (keys c)) ->
  Forall (fun l => fst l = ERROR)
    (log_lines (trace (build_entries e c ids out))).
Proof.
  revert out; induction ids as [|k ids IH]; intros out Hin; [constructor|].
  cbn [build_entries].
  destruct (getitem_keys c k (Hin k (or_introl eq_refl))) as [ch Hch].
  rewrite Hch, bind_lift_ret.
  rewrite (io_eta (get_roku_stream_url e k)), get_roku_stream_url_ret.
  rewrite bind_ret. cbn [trace fst]. rewrite log_lines_app.
  apply Forall_app. split.
  - destruct (resolver_trace_cases e k) as [H | [ex H]];
      rewrite H; repeat constructor.
  - apply IH. intros; apply Hin; now right.
Qed.

(** X14. When the disk refuses the write, the build still returns: the
    run ends with the attempted write of the whole document followed by one
    ERROR line that carries the exception, and the success line is not
    logged. *)
Theorem persistence_failure_is_logged
    (e : env) (sort : option string) (d : document) (c : catalog) (ex : exn) :
  result (fetch_url e ROKU_URL true true) = Ret (FJson d) ->
  channels d = Some c ->
  (forall content, fs_write e "roku_all.m3u" content = Raise ex) ->
  result (generate_roku_playlist e sort) = Ret tt
  /\ exists before,
      trace (generate_roku_playlist e sort)
      = (before
         ++ [FileWrite "roku_all.m3u"
               (String.concat "" (playlist_lines e c (chosen_order sort c)));
             Log ERROR "Failed to write roku_all.m3u: " (Some ex)])%list
      /\ file_writes before = []
      /\ ~ In (INFO, "Successfully wrote roku_all.m3u") (log_lines before).
Proof.
  intros Hf Hc Hfs. rewrite (generate_trace e sort d c Hf Hc).
  split; [reflexivity|]. cbn [trace fst].
  destruct (sort_channel_ids_perm (get sort default_sort) c)
    as (ids & Hids & Hperm & Hsw).
  assert (Hin : forall k, In k (chosen_order sort c) -> In k (keys c)).
  { unfold chosen_order. rewrite Hids. intros k Hk.
    eapply Permutation_in; eauto. }
  destruct (build_entries_ret e c (chosen_order sort c) [header_line] Hin)
    as [_ Hbw].
  pose proof (build_entries_logs e c (chosen_order sort c) [header_line] Hin)
    as Hbl.
  exists (Log INFO "--- Generating Roku playlist ---" None
          :: trace (sort_channel_ids (get sort default_sort) c)
          ++ trace (build_entries e c (chosen_order sort c) [header_line]))%list.
  split; [|split].
  - unfold write_m3u_file, emit. rewrite bind_ret, Hfs.
    cbn [trace result fst snd try_except bind lift app].
    now rewrite <- !app_assoc.
  - cbn [file_writes]. now rewrite file_writes_app, Hsw, Hbw.
  - cbn [log_lines]. rewrite log_lines_app. intros [H | H]; [discriminate|].
    apply in_app_or in H as [H | H].
    + rewrite sort_channel_ids_cases in H.
      destruct (sorted_ids _ c); cbn in H; [easy|].
      destruct H as [H|[]]. discriminate.
    + rewrite Forall_forall in Hbl. apply Hbl in H. discriminate.
Qed.

Lemma persistence_failure_is_logged_witness :
  result (fetch_url (read_only (with_channels crossed)) ROKU_URL true true)
  = Ret (FJson (mkDocument (Some crossed) []))
  /\ result (generate_roku_playlist (read_only (with_channels crossed)) None)
     = Ret tt
  /\ In (Log ERROR "Failed to write roku_all.m3u: " (Some OSError))
       (trace (generate_roku_playlist (read_only (with_channels crossed))
                 None)).
Proof.
  split; [reflexivity|].
  destruct (persistence_failure_is_logged
              (read_only (with_channels crossed)) None
              (mkDocument (Some crossed) []) crossed OSError
              eq_refl eq_refl (fun _ => eq_refl))
    as (Hr & before & Ht & _).
  split; [exact Hr|].
  rewrite Ht. apply in_or_app. right. right. now left.
Defined.

Lemma entry_lines_fallback (e : env) (c : catalog) (ids : list string) :
  (forall k, In k ids -> resolution_fails e k) ->
  flat_map (entry_lines e c) ids = flat_map (fallback_lines c) ids.
Proof.
  induction ids as [|k ids IH]; intros H; [reflexivity|].
  cbn [flat_map]. rewrite IH by (intros; apply H; now right).
  f_equal. unfold entry_lines, fallback_lines, resolved_url.
  rewrite get_roku_stream_url_cases.
  destruct (negotiate_fails e k (H k (or_introl eq_refl))) as [-> | [ex ->]];
    reflexivity.
Qed.

(** X15. The failure of the resolver stays with the channel: when the
    resolution fails for every channel, the document is still written in
    full, each channel keeping its metadata line and getting its fallback
    URL; so the document is then a function of the catalog and of the order
    alone. *)
Theorem unreachable_provider_document
    (e : env) (sort : option string) (d : document) (c : catalog) :
  result (fetch_url e ROKU_URL true true) = Ret (FJson d) ->
  channels d = Some c ->
  (forall k, In k (keys c) -> resolution_fails e k) ->
  file_writes (trace (generate_roku_playlist e sort))
  = [("roku_all.m3u",
      String.concat ""
        (header_line :: flat_map (fallback_lines c) (chosen_order sort c)))].
Proof.
  intros Hf Hc Hfail.
  destruct (sort_channel_ids (get sort default_sort) c) as [ts rs] eqn:Hs.
  destruct (sort_channel_ids_perm (get sort default_sort) c)
    as (ids & Hids & Hperm & _).
  rewrite Hs in Hids. cbn [result snd] in Hids. subst rs.
  destruct (generate_with_catalog e sort d c ts ids Hf Hc Hs) as (_ & Hw & _).
  rewrite Hw. unfold chosen_order, playlist_lines. rewrite Hs.
  cbn [result snd]. rewrite entry_lines_fallback; [reflexivity|].
  intros k Hk. apply Hfail. eapply Permutation_in; eauto.
Qed.

Lemma unreachable_provider_document_witness :
  (forall k, In k (keys complete_and_bare) ->
             resolution_fails (serving (with_channels complete_and_bare)) k)
  /\ file_writes
       (trace (generate_roku_playlist
                 (serving (with_channels complete_and_bare)) (Some "name")))
     = [("roku_all.m3u",
         String.concat ""
           (header_line
            :: flat_map (fallback_lines complete_and_bare) ["c2"; "c1"]))].
Proof.
  assert (H : forall k, In k (keys complete_and_bare) ->
                resolution_fails (serving (with_channels complete_and_bare)) k).
  { intros k _. apply (session_failed _ k ConnectionError). reflexivity. }
  split; [exact H|].
  exact (unreachable_provider_document
           (serving (with_channels complete_and_bare)) (Some "name")
           (mkDocument (Some complete_and_bare) []) complete_and_bare
           eq_refl eq_refl H).
Defined.

(** X16. The sort mode decides the order of the channels and nothing
    else: for any two modes the documents hold the same record lines, those
    of one being a rearrangement of those of the other that keeps each
    channel's two lines. *)
Theorem sort_mode_only_reorders
    (e : env) (sort1 sort2 : option string) (d : document) (c : catalog) :
  result (fetch_url e ROKU_URL true true) = Ret (FJson d) ->
  channels d = Some c ->
  file_writes (trace (generate_roku_playlist e sort1))
  = [("roku_all.m3u",
      String.concat "" (playlist_lines e c (chosen_order sort1 c)))]
  /\ file_writes (trace (generate_roku_playlist e sort2))
     = [("roku_all.m3u",
         String.concat "" (playlist_lines e c (chosen_order sort2 c)))]
  /\ Permutation (chosen_order sort1 c) (chosen_order sort2 c)
  /\ Permutation (flat_map (entry_lines e c) (chosen_order sort1 c))
       (flat_map (entry_lines e c) (chosen_order sort2 c)).
Proof.
  intros Hf Hc.
  assert (H : forall sort,
             file_writes (trace (generate_roku_playlist e sort))
             = [("roku_all.m3u",
                 String.concat "" (playlist_lines e c (chosen_order sort c)))]
             /\ Permutation (chosen_order sort c) (keys c)).
  { intros sort.
    destruct (sort_channel_ids (get sort default_sort) c) as [ts rs] eqn:Hs.
    destruct (sort_channel_ids_perm (get sort default_sort) c)
      as (ids & Hids & Hperm & _).
    rewrite Hs in Hids. cbn [result snd] in Hids. subst rs.
    destruct (generate_with_catalog e sort d c ts ids Hf Hc Hs)
      as (_ & Hw & _).
    unfold chosen_order. rewrite Hs. cbn [result snd]. now split. }
  destruct (H sort1) as [Hw1 Hp1]. destruct (H sort2) as [Hw2 Hp2].
  assert (Hp : Permutation (chosen_order sort1 c) (chosen_order sort2 c))
    by (rewrite Hp1; now symmetry).
  repeat split; auto. now apply Permutation_flat_map.
Qed.

Lemma sort_mode_only_reorders_witness :
  result (fetch_url (serving (with_channels crossed)) ROKU_URL true true)
  = Ret (FJson (mkDocument (Some crossed) []))
  /\ Permutation (chosen_order (Some "chno") crossed)
       (chosen_order (Some "name") crossed)
  /\ chosen_order (Some "chno") crossed <> chosen_order (Some "name") crossed.
Proof.
  split; [reflexivity|].
  destruct (sort_mode_only_reorders (serving (with_channels crossed))
              (Some "chno") (Some "name") (mkDocument (Some crossed) [])
              crossed eq_refl eq_refl) as (_ & _ & Hp & _).
  split; [exact Hp | discriminate].
Defined.

(** ** The order *)

Section Stability.
Context {K : Type}.
Variable leb : K -> K -> bool.
Hypothesis leb_trans :
  forall a b c, leb a b = true -> leb b c = true -> leb a c = true.
Variable key : string -> res K.

Lemma filter_decorated (k0 : K) (kl : list (K * string)) :
  Forall (fun p => key (snd p) = Ret (fst p)) kl ->
  filter (has_key (fun a b => leb a b && leb b a) key k0) (map snd kl)
  = map snd (filter (fun y => leb k0 (fst y) && leb (fst y) k0) kl).
Proof.
  induction 1 as [|[k a] kl Hk Hall IH]; [reflexivity|].
  cbn [map filter fst snd]. unfold has_key at 1. cbn [snd fst] in Hk.
  rewrite Hk, IH. now destruct (leb k0 k && leb k k0).
Qed.

(** The identifiers with a given key leave [sorted] in the order they
    entered it. *)
Lemma sorted_stable (k0 : K) (l ids : list string) :
  sorted leb key l = Ret ids ->
  filter (has_key (fun a b => leb a b && leb b a) key k0) ids
  = filter (has_key (fun a b => leb a b && leb b a) key k0) l.
Proof.
  unfold sorted. destruct (decorate key l) as [kl|] eqn:E; [|discriminate].
  intros H; injection H as <-.
  destruct (decorate_ret _ _ _ E) as [Hm Hk].
  rewrite <- Hm, !filter_decorated; auto.
  - f_equal. apply (sort_keyed_stable leb leb_trans k0 kl).
  - eapply Permutation_Forall; [symmetry; apply sort_keyed_perm | exact Hk].
Qed.
End Stability.

Lemma Z_leb_both (a b : Z) : Z.leb a b && Z.leb b a = Z.eqb a b.
Proof.
  destruct (Z.eqb_spec a b) as [->|Hne].
  - now rewrite Z.leb_refl.
  - apply andb_false_iff.
    destruct (Z.leb_spec a b); [right; apply Z.leb_gt; lia | now left].
Qed.

Lemma string_leb_both (a b : string) :
  String.leb a b && String.leb b a = String.eqb a b.
Proof.
  destruct (String.eqb_spec a b) as [->|Hne].
  - destruct (String.leb_total b b) as [H|H]; now rewrite H.
  - apply andb_false_iff.
    destruct (String.leb a b) eqn:E1; [|now left].
    destruct (String.leb b a) eqn:E2; [|now right].
    now destruct (Hne (String.leb_antisym _ _ E1 E2)).
Qed.

Lemma has_key_ext {K} (f g : K -> K -> bool) (key : string -> res K)
    (k0 : K) (l : list string) :
  (forall a b, f a b = g a b) ->
  filter (has_key f key k0) l = filter (has_key g key k0) l.
Proof.
  intros H. apply filter_ext. intros a. unfold has_key.
  now destruct (key a).
Qed.

(** X17. Ties keep the order of the catalog: in the order a successful
    sort returns, the channels that share a channel number (in
    channel-number mode) or a lower-cased name (in name mode) stand in the
    order the catalog lists them. *)
Theorem ties_keep_catalog_order (sort : string) (c : catalog)
    (ids : list string) :
  sort_channel_ids sort c = ([], Ret ids) ->
  (sort = "chno" ->
   forall z, filter (has_key Z.eqb (chno_key c) z) ids
             = filter (has_key Z.eqb (chno_key c) z) (keys c))
  /\ (sort <> "chno" ->
      forall s, filter (has_key String.eqb (name_key c) s) ids
                = filter (has_key String.eqb (name_key c) s) (keys c)).
Proof.
  intros Hs. rewrite sort_channel_ids_cases in Hs.
  destruct (sorted_ids sort c) as [ids'|ex] eqn:E; [|discriminate].
  injection Hs as ->. unfold sorted_ids in E. split.
  - intros -> z. simpl String.eqb in E.
    rewrite <- !(has_key_ext _ _ _ _ _ Z_leb_both).
    now apply (sorted_stable Z.leb Z_leb_trans).
  - intros Hne s. apply String.eqb_neq in Hne. rewrite Hne in E.
    rewrite <- !(has_key_ext _ _ _ _ _ string_leb_both).
    now apply (sorted_stable String.leb string_leb_trans).
Qed.

Lemma ties_keep_catalog_order_witness :
  sort_channel_ids "chno" tied = ([], Ret ["Y"; "X"; "Z"])
  /\ filter (has_key Z.eqb (chno_key tied) 7%Z) ["Y"; "X"; "Z"] = ["X"; "Z"]
  /\ filter (has_key Z.eqb (chno_key tied) 7%Z) (keys tied) = ["X"; "Z"].
Proof.
  split; [reflexivity|].
  pose proof (proj1 (ties_keep_catalog_order "chno" tied ["Y"; "X"; "Z"]
                       eq_refl) eq_refl 7%Z) as H.
  split; [rewrite H|]; reflexivity.
Defined.

Lemma filter_all {A} (p : A -> bool) (l : list A) :
  (forall x, In x l -> p x = true) -> filter p l = l.
Proof.
  induction l as [|x l IH]; intros H; [reflexivity|].
  cbn [filter]. rewrite (H x (or_introl eq_refl)), IH; [reflexivity|].
  intros; apply H; now right.
Qed.

(** X18. When all the channels of a catalog have the same sort key in
    channel-number mode (for instance none of them has a [chno] entry, the
    key being 99999 for all), the sort succeeds and leaves the catalog in
    its own order. *)
Theorem equal_numbers_keep_catalog_order (c : catalog) (z : Z) :
  (forall k ch, In (k, ch) c -> chno_number ch = Ret z) ->
  sort_channel_ids "chno" c = ([], Ret (keys c)).
Proof.
  intros Hall.
  assert (Hkey : forall k, In k (keys c) -> chno_key c k = Ret z).
  { intros k Hk. destruct (getitem_keys c k Hk) as [ch Hch].
    unfold chno_key. rewrite Hch. apply (Hall k ch).
    clear Hk Hall. induction c as [|[k' v'] c IH]; [discriminate|].
    simpl in Hch. destruct (String.eqb_spec k' k) as [->|Hne].
    - injection Hch as ->. now left.
    - right. now apply IH. }
  destruct (sorted_total Z.leb (chno_key c) (keys c)) as [ids Hids].
  { intros k Hk. exists z. now apply Hkey. }
  destruct (sorted_ret Z.leb Z_leb_total Z_leb_trans _ _ _ Hids)
    as [Hperm _].
  pose proof (sorted_stable Z.leb Z_leb_trans (chno_key c) z _ _ Hids) as Hst.
  rewrite !filter_all in Hst.
  - rewrite sort_channel_ids_cases. unfold sorted_ids. simpl String.eqb.
    rewrite Hids. now subst ids.
  - intros k Hk. unfold has_key. rewrite (Hkey k Hk).
    now rewrite Z.leb_refl.
  - intros k Hk. unfold has_key.
    rewrite (Hkey k (Permutation_in _ Hperm Hk)). now rewrite Z.leb_refl.
Qed.

Lemma equal_numbers_keep_catalog_order_witness :
  (forall k ch, In (k, ch) zeta_alpha -> chno_number ch = Ret 99999%Z)
  /\ sort_channel_ids "chno" zeta_alpha = ([], Ret ["Z"; "A"]).
Proof.
  assert (H : forall k ch, In (k, ch) zeta_alpha ->
                           chno_number ch = Ret 99999%Z).
  { intros k ch [E|[E|[]]]; injection E as <- <-; reflexivity. }
  split; [exact H|].
  exact (equal_numbers_keep_catalog_order zeta_alpha 99999%Z H).
Defined.

Lemma decorate_raises {K} (key : string -> res K) (l : list string)
    (a : string) (ex : exn) :
  In a l -> key a = Raise ex -> exists ex', decorate key l = Raise ex'.
Proof.
  induction l as [|b l IH]; [easy|]. intros [->|Hin] Hk; cbn [decorate].
  - rewrite Hk. now eexists.
  - destruct (key b); [|now eexists].
    destruct (IH Hin Hk) as [ex' ->]. now eexists.
Qed.

Lemma sorted_raises_iff {K} (leb : K -> K -> bool) (key : string -> res K)
    (l : list string) :
  (exists ex, sorted leb key l = Raise ex)
  <-> exists a ex, In a l /\ key a = Raise ex.
Proof.
  split.
  - intros [ex H]. destruct (sorted_raise leb key l ex H) as (a & Ha & Hk).
    eauto.
  - intros (a & ex & Ha & Hk). unfold sorted.
    destruct (decorate_raises key l a ex Ha Hk) as [ex' ->]. now eexists.
Qed.

(** ** Lines *)

Lemma count_char_append (a : ascii) (s t : string) :
  count_char a (s ++ t) = count_char a s + count_char a t.
Proof.
  induction s as [|c s IH]; [reflexivity|].
  cbn [append count_char]. rewrite IH. lia.
Qed.

Lemma count_char_free (s : string) :
  newline_free s = true -> count_char newline_char s = 0.
Proof.
  unfold newline_free. induction s as [|c s IH]; [reflexivity|].
  cbn [has_char count_char]. intros H. apply negb_true_iff in H.
  apply orb_false_iff in H as [Hc Hs]. rewrite Hc, IH; [reflexivity|].
  now rewrite Hs.
Qed.

Lemma count_char_map (a : ascii) (f : ascii -> ascii) (s : string) :
  (forall c, is_char a (f c) = is_char a c) ->
  count_char a (map_chars f s) = count_char a s.
Proof.
  intros H. induction s as [|c s IH]; [reflexivity|].
  cbn [map_chars count_char]. now rewrite H, IH.
Qed.

Lemma count_char_filter (a : ascii) (p : ascii -> bool) (s : string) :
  (forall c, p c = false -> is_char a c = false) ->
  count_char a (filter_chars p s) = count_char a s.
Proof.
  intros H. induction s as [|c s IH]; [reflexivity|].
  cbn [filter_chars count_char]. destruct (p c) eqn:E.
  - cbn [count_char]. now rewrite IH.
  - now rewrite IH, (H c E).
Qed.

Lemma count_char_concat (a : ascii) (ls : list string) :
  count_char a (String.concat "" ls) = list_sum (map (count_char a) ls).
Proof.
  induction ls as [|x ls IH]; [reflexivity|].
  destruct ls as [|y ls].
  - cbn. lia.
  - change (String.concat "" (x :: y :: ls))
      with (x ++ "" ++ String.concat "" (y :: ls)).
    rewrite count_char_append. cbn [append]. rewrite IH. reflexivity.
Qed.

Lemma newlines_of_quoted (t : option string) :
  newline_free (text_of t) = true ->
  count_char newline_char (replace_if t dquote squote) = 0.
Proof.
  destruct t as [s|]; [|reflexivity]. cbn [text_of]. intros H.
  rewrite Properties.replace_if_quotes. unfold quotes_to_single.
  rewrite count_char_map; [now apply count_char_free|].
  intros c. destruct (is_char "034" c) eqn:E; [|reflexivity].
  apply Ascii.eqb_eq in E. now subst c.
Qed.

Lemma newlines_of_display (t : option string) :
  newline_free (text_of t) = true ->
  count_char newline_char (replace_if t comma "") = 0.
Proof.
  destruct t as [s|]; [|reflexivity]. cbn [text_of]. intros H.
  rewrite Properties.replace_if_commas. unfold without_commas.
  rewrite count_char_filter; [now apply count_char_free|].
  intros c E. apply negb_false_iff in E. apply Ascii.eqb_eq in E.
  now subst c.
Qed.

Lemma newlines_of_chno (v : pyval) :
  newline_free (py_str v) = true -> count_char newline_char (chno_str v) = 0.
Proof.
  intros H. unfold chno_str.
  destruct (negb (is_none v) && isdigit (py_str v)); [|reflexivity].
  now apply count_char_free.
Qed.

Lemma newlines_of_extinf (k : string) (ch : channel) :
  channel_newline_free k ch = true ->
  count_char newline_char (channel_extinf k ch) = 1.
Proof.
  unfold channel_newline_free. intros H.
  repeat (apply andb_true_iff in H as [H ?]).
  unfold channel_extinf, format_extinf, attr.
  repeat rewrite count_char_append.
  rewrite newlines_of_chno, !newlines_of_quoted, newlines_of_display by auto.
  rewrite !(count_char_free k), (count_char_free (py_str _)) by auto.
  reflexivity.
Qed.

(** X21. When no identifier, no field shown and no resolved URL holds a
    newline, the document has exactly one newline for the header and two for
    each channel: it is [1 + 2N] lines, none of them broken. *)
Theorem document_has_one_line_per_record
    (e : env) (sort : option string) (d : document) (c : catalog) :
  result (fetch_url e ROKU_URL true true) = Ret (FJson d) ->
  channels d = Some c ->
  (forall k ch, In (k, ch) c ->
                channel_newline_free k ch = true
                /\ newline_free (resolved_url e k) = true) ->
  exists doc,
    file_writes (trace (generate_roku_playlist e sort))
    = [("roku_all.m3u", doc)]
    /\ count_char newline_char doc = 1 + 2 * List.length c.
Proof.
  intros Hf Hc Hfree.
  destruct (sort_channel_ids (get sort default_sort) c) as [ts rs] eqn:Hs.
  destruct (sort_channel_ids_perm (get sort default_sort) c)
    as (ids & Hids & Hperm & _).
  rewrite Hs in Hids. cbn [result snd] in Hids. subst rs.
  destruct (generate_with_catalog e sort d c ts ids Hf Hc Hs) as (_ & Hw & _).
  eexists. split; [exact Hw|].
  rewrite count_char_concat. unfold playlist_lines.
  assert (Hcons : forall x l, list_sum (x :: l) = x + list_sum l)
    by reflexivity.
  rewrite map_cons, Hcons.
  replace (count_char newline_char header_line) with 1 by reflexivity.
  assert (Hsum : forall l, (forall k, In k l -> In k (keys c)) ->
             list_sum (map (count_char newline_char)
                         (flat_map (entry_lines e c) l))
             = 2 * List.length l).
  { induction l as [|k l IH]; intros Hin; [reflexivity|].
    cbn [flat_map]. rewrite map_app, list_sum_app, IH
      by (intros; apply Hin; now right).
    destruct (getitem_keys c k (Hin k (or_introl eq_refl))) as [ch Hch].
    destruct (Hfree k ch (Properties.getitem_In _ _ _ Hch)) as [H1 H2].
    unfold entry_lines. rewrite Hch. cbn [map list_sum].
    rewrite (newlines_of_extinf k ch H1), count_char_append.
    rewrite (count_char_free _ H2). cbn. lia. }
  rewrite Hsum by (intros k Hk; eapply Permutation_in; eauto).
  apply Permutation_length in Hperm. rewrite Hperm.
  unfold keys. rewrite length_map. reflexivity.
Qed.

Lemma document_has_one_line_per_record_witness :
  (forall k ch, In (k, ch) complete_and_bare ->
     channel_newline_free k ch = true
     /\ newline_free
          (resolved_url (serving (with_channels complete_and_bare)) k) = true)
  /\ exists doc,
      file_writes
        (trace (generate_roku_playlist
                  (serving (with_channels complete_and_bare)) None))
      = [("roku_all.m3u", doc)]
      /\ count_char newline_char doc = 5.
Proof.
  assert (H : forall k ch, In (k, ch) complete_and_bare ->
     channel_newline_free k ch = true
     /\ newline_free
          (resolved_url (serving (with_channels complete_and_bare)) k) = true).
  { intros k ch [E|[E|[]]]; injection E as <- <-; split; reflexivity. }
  split; [exact H|].
  exact (document_has_one_line_per_record
           (serving (with_channels complete_and_bare)) None
           (mkDocument (Some complete_and_bare) []) complete_and_bare
           eq_refl eq_refl H).
Defined.

End Behaviour.

(* ===================================================================== *)
(** * The typed generator is the generator over JSON, on typed JSON *)
(* ===================================================================== *)

Module EmbedFacts.
Import PyStr Effects PySorted PyObj Embed.
Import PyStrFacts PySortedFacts GeneratorFacts.

Lemma map_io_ret {A B} (f : A -> B) (t : list event) (a : A) :
  map_io f (t, Ret a) = (t, Ret (f a)).
Proof. reflexivity. Qed.

Lemma bind_map_io {A B C} (f : A -> B) (m : io A) (k : B -> io C) :
  bind (map_io f m) k = bind m (fun a => k (f a)).
Proof. now destruct m as [t [a|ex]]. Qed.

Lemma bind_lift_map_res {A B C} (f : A -> B) (r : res A) (k : B -> io C) :
  bind (lift (map_res f r)) k = bind (lift r) (fun a => k (f a)).
Proof. now destruct r. Qed.

Lemma try_except_ext {A} (m : io A) (h h' : exn -> io A) :
  (forall ex, h ex = h' ex) -> try_except m h = try_except m h'.
Proof.
  intros H. destruct m as [t [a|ex]]; simpl; [reflexivity | now rewrite H].
Qed.

Lemma try_except_map_io {A B} (f : A -> B) (m : io A) (h : exn -> io A) :
  try_except (map_io f m) (fun ex => map_io f (h ex))
  = map_io f (try_except m h).
Proof.
  destruct m as [t [a|ex]]; [reflexivity|].
  unfold map_io, try_except. cbn [fst snd map_res].
  now destruct (h ex) as [t' r].
Qed.

Lemma bind_ext_io {A B} (m : io A) (f g : A -> io B) :
  (forall a, f a = g a) -> bind m f = bind m g.
Proof.
  intros H. destruct m as [t [a|ex]]; simpl; [now rewrite H | reflexivity].
Qed.

(** ** Values *)

Lemma py_str_of_pyval (v : pyval) : PyObj.py_str (of_pyval v) = Effects.py_str v.
Proof. now destruct v as [|[|]|z|s]. Qed.

Lemma py_int_of_pyval (v : pyval) : PyObj.py_int (of_pyval v) = Effects.py_int v.
Proof. now destruct v. Qed.

Lemma is_none_of_pyval (v : pyval) :
  PyObj.is_none (of_pyval v) = Generator.is_none v.
Proof. now destruct v. Qed.

Lemma replace_if_of_text (t : option string) (old new : string) :
  Dynamic.replace_if (of_text t) old new
  = Ret (Generator.replace_if t old new).
Proof. now destruct t as [[|c s]|]. Qed.

(** ** [format_extinf] and the fields of a channel *)

Lemma format_extinf_of_typed
    (channel_id tvg_id : string) (tvg_chno : pyval) (tvg_name : option string)
    (tvg_logo : pyval) (group_title display_name : option string) :
  Dynamic.format_extinf channel_id tvg_id (of_pyval tvg_chno)
    (of_text tvg_name) (of_pyval tvg_logo) (of_text group_title)
    (of_text display_name)
  = Ret (Generator.format_extinf channel_id tvg_id tvg_chno tvg_name tvg_logo
           group_title display_name).
Proof.
  unfold Dynamic.format_extinf, Generator.format_extinf.
  rewrite !replace_if_of_text. cbn [rbind].
  unfold Dynamic.chno_str, Generator.chno_str.
  now rewrite !py_str_of_pyval, is_none_of_pyval.
Qed.

Lemma first_group_of_typed (g : option (list (option string))) :
  Dynamic.first_group (of_groups g) = Ret (of_text (Generator.first_group g)).
Proof. now destruct g as [[|x l]|]. Qed.

Lemma channel_extinf_of_typed (channel_id : string) (ch : Generator.channel) :
  Dynamic.channel_extinf channel_id (of_channel ch)
  = Ret (Generator.channel_extinf channel_id ch).
Proof.
  unfold Dynamic.channel_extinf, Generator.channel_extinf.
  assert (Hc : get_method (of_channel ch) "chno" ONone
               = Ret (of_pyval (Generator.get (Generator.chno ch) PNone)))
    by (destruct ch as [[c|] [n|] [l|] [g|]]; reflexivity).
  assert (Hn : get_method (of_channel ch) "name" (OStr "Unknown Channel")
               = Ret (of_text (Generator.get (Generator.name ch)
                                 (Some "Unknown Channel"))))
    by (destruct ch as [[c|] [n|] [l|] [g|]]; reflexivity).
  assert (Hl : get_method (of_channel ch) "logo" (OStr "")
               = Ret (of_pyval (Generator.get (Generator.logo ch) (PStr ""))))
    by (destruct ch as [[c|] [n|] [l|] [g|]]; reflexivity).
  assert (Hg : get_method (of_channel ch) "groups" (OList [])
               = Ret (of_groups (Generator.get (Generator.groups ch)
                                   (Some []))))
    by (destruct ch as [[c|] [n|] [l|] [g|]]; reflexivity).
  rewrite Hc, Hn, Hl, Hg. cbn [rbind].
  rewrite first_group_of_typed. cbn [rbind].
  apply format_extinf_of_typed.
Qed.

(** ** The resolver *)

Lemma negotiate_of_typed (e : Generator.env) (channel_id : string) :
  Dynamic.negotiate (of_env e) channel_id
  = map_io (option_map OStr) (Generator.negotiate e channel_id).
Proof.
  unfold Dynamic.negotiate, Generator.negotiate.
  cbn [of_env Dynamic.requests_Session of_session Dynamic.session_get
         Dynamic.session_post].
  destruct (Generator.session_get _ _) as [r|ex]; [|reflexivity].
  rewrite !bind_lift_ret.
  destruct (Generator.session_post _ _ _ _) as [p|ex]; [|reflexivity].
  cbn [map_res]. rewrite !bind_lift_ret.
  cbn [of_response Generator.status_code Generator.json].
  destruct (Generator.status_code p =? 200)%Z; [|reflexivity].
  destruct (Generator.json p) as [[|u]|ex]; [reflexivity| |reflexivity].
  cbn [map_res]. rewrite !bind_lift_ret.
  destruct u as [[|b|z|s]|]; try reflexivity.
  - replace (get_method (of_playback_info (Generator.Object (Some (PStr s))))
               "url" (OStr "")) with (Ret (OStr s)) by reflexivity.
    rewrite bind_lift_ret. cbn [py_in]. rewrite bind_lift_ret.
    cbn [Generator.get]. unfold Generator.transform_url.
    destruct (contains Generator.origin_domain s); [|reflexivity].
    cbn [replace_method]. now rewrite bind_lift_ret.
Qed.

Lemma get_roku_stream_url_of_typed (e : Generator.env) (channel_id : string) :
  Dynamic.get_roku_stream_url (of_env e) channel_id
  = map_io OStr (Generator.get_roku_stream_url e channel_id).
Proof.
  unfold Dynamic.get_roku_stream_url, Generator.get_roku_stream_url.
  rewrite negotiate_of_typed.
  destruct (Generator.negotiate e channel_id) as [t [[u|]|ex]]; reflexivity.
Qed.

(** ** The catalog source and the sink *)

Lemma fetch_url_of_typed (e : Generator.env) (url : string)
    (is_json is_gzipped : bool) :
  Dynamic.fetch_url (of_env e) url is_json is_gzipped
  = map_io of_fetched (Generator.fetch_url e url is_json is_gzipped).
Proof.
  unfold Dynamic.fetch_url, Generator.fetch_url.
  cbn [of_env Dynamic.requests_get].
  destruct (Generator.requests_get e url _) as [r|ex]; [|reflexivity].
  cbn [map_res]. rewrite !bind_lift_ret.
  replace (Generator.raise_for_status (of_response of_body r))
    with (Generator.raise_for_status r) by reflexivity.
  destruct (Generator.raise_for_status r) as [[]|ex]; [|reflexivity].
  rewrite !bind_lift_ret. destruct is_json; [|reflexivity].
  cbn [of_response Generator.json].
  now destruct (Generator.json r) as [[d|]|ex].
Qed.

Lemma write_m3u_file_of_typed (e : Generator.env) (filename content : string) :
  Dynamic.write_m3u_file (of_env e) filename content
  = Generator.write_m3u_file e filename content.
Proof. reflexivity. Qed.

(** ** Ordering *)

Lemma lookup_of_entries (c : Generator.catalog) (k : string) :
  getitem (of_entries c) k = map_res of_channel (Generator.getitem c k).
Proof.
  unfold getitem. induction c as [|[k' ch] c IH]; [reflexivity|].
  cbn [of_entries map fst snd lookup Generator.getitem].
  destruct (String.eqb k' k); [reflexivity | exact IH].
Qed.

Lemma keys_of_entries (c : Generator.catalog) :
  map fst (of_entries c) = Generator.keys c.
Proof.
  unfold of_entries, Generator.keys. rewrite map_map. reflexivity.
Qed.

Lemma chno_key_of_typed (c : Generator.catalog) (k : string) :
  Dynamic.chno_key (of_catalog c) k = Generator.chno_key c k.
Proof.
  unfold Dynamic.chno_key, Generator.chno_key, of_catalog, Dynamic.entry.
  rewrite lookup_of_entries.
  destruct (Generator.getitem c k) as [ch|ex]; [|reflexivity].
  cbn [map_res rbind].
  replace (get_method (of_channel ch) "chno" (OInt 99999))
    with (Ret (of_pyval (Generator.get (Generator.chno ch) (PInt 99999))))
    by (destruct ch as [[v|] [n|] [l|] [g|]]; reflexivity).
  cbn [rbind]. apply py_int_of_pyval.
Qed.

Lemma name_key_of_typed (c : Generator.catalog) (k : string) :
  Dynamic.name_key (of_catalog c) k = Generator.name_key c k.
Proof.
  unfold Dynamic.name_key, Generator.name_key, of_catalog, Dynamic.entry.
  rewrite lookup_of_entries.
  destruct (Generator.getitem c k) as [ch|ex]; [|reflexivity].
  cbn [map_res rbind].
  replace (get_method (of_channel ch) "name" (OStr ""))
    with (Ret (of_text (Generator.get (Generator.name ch) (Some ""))))
    by (destruct ch as [[v|] [n|] [l|] [g|]]; reflexivity).
  cbn [rbind]. now destruct (Generator.get (Generator.name ch) (Some "")).
Qed.

Lemma decorate_ext {K} (key key' : string -> res K) (l : list string) :
  (forall a, key a = key' a) -> decorate key l = decorate key' l.
Proof.
  intros H. induction l as [|a l IH]; [reflexivity|].
  cbn [decorate]. now rewrite H, IH.
Qed.

Lemma sorted_ext {K} (leb : K -> K -> bool) (key key' : string -> res K)
    (l : list string) :
  (forall a, key a = key' a) -> sorted leb key l = sorted leb key' l.
Proof. intros H. unfold sorted. now rewrite (decorate_ext key key' l H). Qed.

Lemma sorted_ids_of_typed (sort : string) (c : Generator.catalog) :
  Dynamic.sorted_ids sort (of_catalog c) = Spec.sorted_ids sort c.
Proof.
  unfold Dynamic.sorted_ids, Spec.sorted_ids, of_catalog.
  cbn [keys_method rbind]. rewrite keys_of_entries.
  destruct (String.eqb sort "chno").
  - apply sorted_ext. apply chno_key_of_typed.
  - apply sorted_ext. apply name_key_of_typed.
Qed.

Lemma sort_channel_ids_of_typed (sort : string) (c : Generator.catalog) :
  Dynamic.sort_channel_ids sort (of_catalog c)
  = Generator.sort_channel_ids sort c.
Proof.
  rewrite sort_channel_ids_cases.
  unfold Dynamic.sort_channel_ids. rewrite sorted_ids_of_typed.
  destruct (Spec.sorted_ids sort c) as [ids|ex]; [reflexivity|].
  unfold of_catalog. cbn. now rewrite keys_of_entries.
Qed.

(** ** The loop and the builder *)

Lemma build_entries_of_typed (e : Generator.env) (c : Generator.catalog)
    (ids out : list string) :
  Dynamic.build_entries (of_env e) (of_catalog c) ids out
  = Generator.build_entries e c ids out.
Proof.
  revert out. induction ids as [|k ids IH]; intros out; [reflexivity|].
  cbn [Dynamic.build_entries Generator.build_entries].
  unfold of_catalog at 1. cbn [Dynamic.entry]. rewrite lookup_of_entries.
  destruct (Generator.getitem c k) as [ch|ex]; [|reflexivity].
  cbn [map_res]. rewrite !bind_lift_ret, channel_extinf_of_typed, bind_lift_ret.
  rewrite get_roku_stream_url_of_typed, bind_map_io.
  apply bind_ext_io. intros u. cbn [add_str]. rewrite bind_lift_ret.
  apply IH.
Qed.

Lemma lookup_other_keys (ks : list string) :
  lookup (map (fun k => (k, ONone))
            (filter (fun k => negb (String.eqb k "channels")) ks)) "channels"
  = None.
Proof.
  induction ks as [|k ks IH]; [reflexivity|].
  cbn [filter]. destruct (String.eqb k "channels") eqn:E; [exact IH|].
  cbn [negb map lookup]. now rewrite E.
Qed.

Lemma no_channels_of_document (d : Generator.document) :
  Dynamic.no_channels (of_document d)
  = Ret (Generator.document_falsy d || negb (Generator.has_channels d)).
Proof.
  unfold Dynamic.no_channels, of_document, Generator.document_falsy,
    Generator.has_channels.
  destruct (Generator.channels d) as [c|]; [reflexivity|].
  cbn [field app]. rewrite orb_true_r.
  destruct (truth _); [|reflexivity].
  cbn [negb py_in]. now rewrite lookup_other_keys.
Qed.

(** On a typed environment the generator over JSON is the typed generator:
    same log, same write, same result. *)
Lemma generate_of_typed (e : Generator.env) (sort : option string) :
  Dynamic.generate_roku_playlist (of_env e) sort
  = Generator.generate_roku_playlist e sort.
Proof.
  unfold Dynamic.generate_roku_playlist, Generator.generate_roku_playlist.
  apply bind_ext_io; intros _.
  rewrite fetch_url_of_typed, bind_map_io.
  apply bind_ext_io; intros [|d|s].
  - reflexivity.
  - cbn [of_fetched]. rewrite no_channels_of_document, bind_lift_ret.
    unfold Generator.has_channels, Generator.document_falsy.
    destruct (Generator.channels d) as [c|] eqn:Hc.
    + cbn [orb negb]. cbv zeta.
      replace (get_method (of_document d) "channels" (ODict []))
        with (Ret (of_catalog c))
        by (unfold of_document; rewrite Hc; reflexivity).
      rewrite bind_lift_ret, sort_channel_ids_of_typed.
      cbn [Generator.get].
      apply bind_ext_io; intros ids.
      rewrite build_entries_of_typed.
      apply bind_ext_io; intros lines. reflexivity.
    + now rewrite orb_true_r.
  - cbn [of_fetched]. unfold Dynamic.no_channels.
    destruct s as [|a s]; [reflexivity|].
    cbn [truth negb py_in rbind Effects.truthy orb].
    rewrite bind_lift_ret.
    destruct (contains "channels" (String a s)); reflexivity.
Qed.

End EmbedFacts.

(* ===================================================================== *)
(** * Catalogs of any shape: lines, guards and the order *)
(* ===================================================================== *)

Module Robustness.
Import PyStr Effects PySorted PyObj Embed Lines.
Import PyStrFacts PySortedFacts GeneratorFacts EmbedFacts.

(** ** Lines of a text *)

Lemma count_no_line_feed (s : string) :
  Notions.count_char LF s = 0 -> has_char (Ascii.eqb LF) s = false.
Proof.
  induction s as [|c s IH]; [reflexivity|].
  cbn [Notions.count_char has_char]. unfold Spec.is_char.
  destruct (Ascii.eqb LF c); [discriminate|]. exact IH.
Qed.

Lemma split_lines_line (body rest : string) :
  has_char (Ascii.eqb LF) body = false ->
  split_lines (body ++ String LF rest)
  = (body ++ String LF EmptyString) :: split_lines rest.
Proof.
  induction body as [|c body IH]; intros H.
  - cbn [append split_lines]. now rewrite Ascii.eqb_refl.
  - cbn [has_char] in H. apply orb_false_iff in H as [Hc Hb].
    cbn [append split_lines]. rewrite Ascii.eqb_sym, Hc, (IH Hb).
    reflexivity.
Qed.

Lemma concat_cons (x : string) (l : list string) :
  String.concat "" (x :: l) = x ++ String.concat "" l.
Proof.
  destruct l as [|y l]; [symmetry; apply append_nil_r | reflexivity].
Qed.

(** A text made of lines that end with their only line feed splits back
    into those lines. *)
Lemma split_lines_concat (ls : list string) :
  Forall (fun l => exists body,
              l = body ++ String LF EmptyString
              /\ has_char (Ascii.eqb LF) body = false) ls ->
  split_lines (String.concat "" ls) = ls.
Proof.
  induction 1 as [|l ls (body & -> & Hb) _ IH]; [reflexivity|].
  rewrite concat_cons, append_assoc.
  change (String LF "" ++ String.concat "" ls)
    with (String LF (String.concat "" ls)).
  now rewrite (split_lines_line _ _ Hb), IH.
Qed.

Lemma attr_is_quoted_attr (key value : string) :
  Generator.attr key value = quoted_attr key value.
Proof. reflexivity. Qed.

Lemma extinf_is_metadata_text
    (channel_id tvg_id tvg_chno tvg_name tvg_logo group_title display : string) :
  Spec.extinf_of channel_id tvg_id tvg_chno tvg_name tvg_logo group_title
    display
  = metadata_text channel_id tvg_id tvg_chno tvg_name tvg_logo group_title
      display ++ String LF EmptyString.
Proof.
  unfold Spec.extinf_of, metadata_text. rewrite !attr_is_quoted_attr.
  repeat rewrite append_assoc. reflexivity.
Qed.

Lemma channel_extinf_is_metadata (k : string) (ch : Generator.channel) :
  exists tvg_chno tvg_name tvg_logo group_title display,
    Generator.channel_extinf k ch
    = metadata_text k k tvg_chno tvg_name tvg_logo group_title display
      ++ String LF EmptyString.
Proof.
  do 5 eexists. unfold Generator.channel_extinf, Generator.format_extinf.
  apply extinf_is_metadata_text.
Qed.

Lemma entry_lines_terminated (e : Generator.env) (c : Generator.catalog)
    (ids : list string) :
  (forall k ch, In (k, ch) c ->
     Notions.channel_newline_free k ch = true
     /\ Notions.newline_free (Spec.resolved_url e k) = true) ->
  Forall (fun l => exists body,
              l = body ++ String LF EmptyString
              /\ has_char (Ascii.eqb LF) body = false)
    (flat_map (Spec.entry_lines e c) ids).
Proof.
  intros Hfree. induction ids as [|k ids IH]; [constructor|].
  cbn [flat_map]. apply Forall_app. split; [|exact IH].
  unfold Spec.entry_lines.
  destruct (Generator.getitem c k) as [ch|] eqn:Hch; [|constructor].
  destruct (Hfree k ch (Properties.getitem_In _ _ _ Hch)) as [H1 H2].
  constructor; [|constructor; [|constructor]].
  - destruct (channel_extinf_is_metadata k ch)
      as (v1 & v2 & v3 & v4 & v5 & Heq).
    eexists. split; [exact Heq|].
    apply count_no_line_feed.
    pose proof (Behaviour.newlines_of_extinf k ch H1) as Hn.
    rewrite Heq, Behaviour.count_char_append in Hn.
    change (Notions.count_char Notions.newline_char (String LF ""))
      with 1 in Hn.
    change Notions.newline_char with LF in Hn. lia.
  - eexists. split; [reflexivity|].
    unfold Notions.newline_free in H2. apply negb_true_iff in H2. exact H2.
Qed.

Lemma header_line_is_header_text : Generator.header_line = header_text.
Proof. reflexivity. Qed.

(** ** The document, line by line *)

(** C7, as the specification states it, fails.  The catalog below has one
    channel, whose name holds a line feed: the document written has five
    lines, not three, the metadata line being cut in two and the display
    text as well.  And a catalog whose entry has a number for a name yields
    no document at all: the run raises out of [format_extinf]. *)
Lemma line_feed_breaks_layout :
  (exists doc,
     Spec.file_writes
       (trace (Dynamic.generate_roku_playlist
                 (of_env (Examples.serving (Examples.with_channels broken_name)))
                 None))
     = [("roku_all.m3u", doc)]
     /\ List.length broken_name = 1
     /\ List.length (split_lines doc) = 5
     /\ 5 <> 1 + 2 * 1)
  /\ Dynamic.generate_roku_playlist (serving_json numeric_name) (Some "chno")
     = ([Log INFO "--- Generating Roku playlist ---" None],
        Raise AttributeError).
Proof.
  split; [|reflexivity].
  eexists. split; [reflexivity|]. repeat split. discriminate.
Qed.

(** C7, amended. For every catalog of N channels of the documented shape
    (each entry an object whose name and group entries are strings or null
    and whose chno and logo are scalars), when no channel identifier, no
    field shown and no resolved URL holds a line feed, the document written
    has exactly [1 + 2N] lines, each ended by its line feed: the header line
    (the playlist marker with the EPG reference), then for each channel, in
    the order chosen, a metadata line with the attributes channel-id, tvg-id,
    tvg-chno, tvg-name, tvg-logo and group-title in this order, and the line
    of its URL. *)
Theorem playlist_document_lines
    (e : Generator.env) (sort : option string) (d : Generator.document)
    (c : Generator.catalog) :
  result (Generator.fetch_url e Generator.ROKU_URL true true)
  = Ret (Generator.FJson d) ->
  Generator.channels d = Some c ->
  (forall k ch, In (k, ch) c ->
     Notions.channel_newline_free k ch = true
     /\ Notions.newline_free (Spec.resolved_url e k) = true) ->
  exists ids doc,
    ids = Notions.chosen_order sort c
    /\ Permutation ids (Generator.keys c)
    /\ result (Dynamic.generate_roku_playlist (of_env e) sort) = Ret tt
    /\ Spec.file_writes (trace (Dynamic.generate_roku_playlist (of_env e) sort))
       = [("roku_all.m3u", doc)]
    /\ List.length (split_lines doc) = 1 + 2 * List.length c
    /\ Forall (fun l => exists body,
                   l = body ++ String LF EmptyString
                   /\ has_char (Ascii.eqb LF) body = false)
         (split_lines doc)
    /\ nth_error (split_lines doc) 0 = Some header_text
    /\ (forall i k, nth_error ids i = Some k ->
          (exists tvg_chno tvg_name tvg_logo group_title display,
              nth_error (split_lines doc) (1 + 2 * i)
              = Some (metadata_text k k tvg_chno tvg_name tvg_logo
                        group_title display ++ String LF EmptyString))
          /\ nth_error (split_lines doc) (2 + 2 * i)
             = Some (Spec.resolved_url e k ++ String LF EmptyString)).
Proof.
  intros Hf Hc Hfree. rewrite generate_of_typed.
  destruct (Generator.sort_channel_ids
              (Generator.get sort Generator.default_sort) c)
    as [ts rs] eqn:Hs.
  destruct (sort_channel_ids_perm (Generator.get sort Generator.default_sort) c)
    as (ids & Hids & Hperm & _).
  rewrite Hs in Hids. cbn [result snd] in Hids. subst rs.
  destruct (generate_with_catalog e sort d c ts ids Hf Hc Hs) as (Hr & Hw & _).
  assert (Hin : forall k, In k ids -> In k (Generator.keys c))
    by (intros k Hk; eapply Permutation_in; eauto).
  assert (Hterm : Forall (fun l => exists body,
                             l = body ++ String LF EmptyString
                             /\ has_char (Ascii.eqb LF) body = false)
                    (Spec.playlist_lines e c ids)).
  { unfold Spec.playlist_lines. constructor.
    - exists ("#EXTM3U "
              ++ quoted_attr "url-tvg"
                   "https://github.com/matthuisman/i.mjh.nz/raw/master/Roku/all.xml.gz").
      split; reflexivity.
    - now apply entry_lines_terminated. }
  pose proof (split_lines_concat _ Hterm) as Hsplit.
  exists ids, (String.concat "" (Spec.playlist_lines e c ids)).
  rewrite Hsplit.
  split; [unfold Notions.chosen_order; now rewrite Hs|].
  split; [exact Hperm|]. split; [exact Hr|]. split; [exact Hw|].
  split.
  { unfold Spec.playlist_lines. cbn [List.length].
    rewrite (Properties.entries_length e c ids Hin).
    apply Permutation_length in Hperm. rewrite Hperm.
    unfold Generator.keys. now rewrite length_map. }
  split; [exact Hterm|]. split; [reflexivity|].
  intros i k Hi.
  destruct (Properties.entries_nth e c ids Hin i k Hi) as (ch & Hch & Ha & Hb).
  unfold Spec.playlist_lines. split.
  - destruct (channel_extinf_is_metadata k ch)
      as (v1 & v2 & v3 & v4 & v5 & Heq).
    exists v1, v2, v3, v4, v5. change (1 + 2 * i) with (S (2 * i)).
    cbn [nth_error]. now rewrite Ha, Heq.
  - replace (2 + 2 * i) with (S (2 * i + 1)) by lia.
    cbn [nth_error]. exact Hb.
Qed.

Lemma playlist_document_lines_witness :
  (forall k ch, In (k, ch) Examples.complete_and_bare ->
     Notions.channel_newline_free k ch = true
     /\ Notions.newline_free
          (Spec.resolved_url
             (Examples.serving (Examples.with_channels
                                  Examples.complete_and_bare)) k) = true)
  /\ exists doc,
      Spec.file_writes
        (trace (Dynamic.generate_roku_playlist
                  (of_env (Examples.serving
                             (Examples.with_channels
                                Examples.complete_and_bare))) None))
      = [("roku_all.m3u", doc)]
      /\ List.length (split_lines doc) = 5.
Proof.
  assert (H : forall k ch, In (k, ch) Examples.complete_and_bare ->
     Notions.channel_newline_free k ch = true
     /\ Notions.newline_free
          (Spec.resolved_url
             (Examples.serving (Examples.with_channels
                                  Examples.complete_and_bare)) k) = true).
  { intros k ch [E|[E|[]]]; injection E as <- <-; split; reflexivity. }
  split; [exact H|].
  destruct (playlist_document_lines
              (Examples.serving (Examples.with_channels
                                   Examples.complete_and_bare)) None
              (Generator.mkDocument (Some Examples.complete_and_bare) [])
              Examples.complete_and_bare eq_refl eq_refl H)
    as (ids & doc & _ & _ & _ & Hw & Hl & _).
  exists doc. split; [exact Hw | exact Hl].
Defined.

(** ** The generator over any JSON *)

Lemma dynamic_fetch_url_cases (e : Dynamic.env) (url : string)
    (is_json is_gzipped : bool) :
  (exists data, Dynamic.fetch_url e url is_json is_gzipped = ([], Ret data))
  \/ (exists ex,
        Dynamic.fetch_url e url is_json is_gzipped
        = ([Log ERROR ("Failed to fetch " ++ url ++ ": ") (Some ex)],
           Ret ONone)).
Proof.
  unfold Dynamic.fetch_url.
  destruct (Dynamic.requests_get e url _) as [r|ex];
    [rewrite bind_lift_ret | right; now eexists].
  destruct (Generator.raise_for_status r) as [[]|ex];
    [rewrite bind_lift_ret | right; now eexists].
  destruct is_json; [|left; now eexists].
  destruct (Generator.json r) as [d|ex]; [left | right]; now eexists.
Qed.

Lemma dynamic_fetch_url_writes (e : Dynamic.env) (url : string)
    (is_json is_gzipped : bool) :
  Spec.file_writes (trace (Dynamic.fetch_url e url is_json is_gzipped)) = [].
Proof.
  now destruct (dynamic_fetch_url_cases e url is_json is_gzipped)
    as [[d ->]|[ex ->]].
Qed.

Lemma not_in_list (needle : string) (l : list obj) :
  ~ In (OStr needle) l ->
  existsb (fun y => match y with
                    | OStr s => String.eqb s needle
                    | _ => false
                    end) l = false.
Proof.
  induction l as [|y l IH]; intros H; [reflexivity|].
  cbn [existsb]. rewrite IH by (intros Hin; apply H; now right).
  rewrite orb_false_r. destruct y; try reflexivity.
  apply String.eqb_neq. intros ->. apply H. now left.
Qed.

(** When the guard of line 108 holds the run is the fetch and the error
    line. *)
Lemma dynamic_generate_stops (e : Dynamic.env) (sort : option string)
    (data : obj) :
  result (Dynamic.fetch_url e Generator.ROKU_URL true true) = Ret data ->
  Dynamic.no_channels data = Ret true ->
  Dynamic.generate_roku_playlist e sort
  = ((Log INFO "--- Generating Roku playlist ---" None
      :: trace (Dynamic.fetch_url e Generator.ROKU_URL true true)
      ++ [Log ERROR "Failed to fetch or parse Roku data." None])%list,
     Ret tt).
Proof.
  intros Hf Hn. unfold Dynamic.generate_roku_playlist, emit.
  rewrite bind_ret.
  destruct (Dynamic.fetch_url e Generator.ROKU_URL true true) as [tf rf].
  cbn [trace result fst snd] in Hf |- *. subst rf.
  rewrite bind_ret, Hn, bind_lift_ret. reflexivity.
Qed.

(** When the guard of line 108 raises, so does the run. *)
Lemma dynamic_generate_guard_raises (e : Dynamic.env) (sort : option string)
    (data : obj) (ex : exn) :
  result (Dynamic.fetch_url e Generator.ROKU_URL true true) = Ret data ->
  Dynamic.no_channels data = Raise ex ->
  Dynamic.generate_roku_playlist e sort
  = ((Log INFO "--- Generating Roku playlist ---" None
      :: trace (Dynamic.fetch_url e Generator.ROKU_URL true true))%list,
     Raise ex).
Proof.
  intros Hf Hn. unfold Dynamic.generate_roku_playlist, emit.
  rewrite bind_ret.
  destruct (Dynamic.fetch_url e Generator.ROKU_URL true true) as [tf rf].
  cbn [trace result fst snd] in Hf |- *. subst rf.
  rewrite bind_ret, Hn. cbn. now rewrite app_nil_r.
Qed.

(** ** A catalog that cannot be had *)

(** C8, as the specification states it, fails.  The parsed data
    [{"channels": null}] has no channels mapping, and neither has the parsed
    data [5]: on the first the run logs the ordering warning and raises
    [AttributeError] out of the handler of line 123, on the second the test
    ['channels' in data] of line 108 raises [TypeError].  Neither run logs
    the diagnostic of line 109, and both raise to the caller. *)
Lemma malformed_catalog_raises :
  Dynamic.generate_roku_playlist (serving_json null_channels) None
  = ([Log INFO "--- Generating Roku playlist ---" None;
      Log WARNING "Sorting failed for Roku, using default order. Error: "
        (Some AttributeError)],
     Raise AttributeError)
  /\ Dynamic.generate_roku_playlist (serving_json (OInt 5)) None
     = ([Log INFO "--- Generating Roku playlist ---" None], Raise TypeError).
Proof. split; reflexivity. Qed.

(** C8, amended. If the fetch returns the no-data sentinel, or parsed data
    that is falsy (null, false, zero, an empty text, array or object), or an
    object without the key [channels] (or an array without the element
    ['channels'], or a text in which [channels] does not occur),
    [generate_roku_playlist] logs the diagnostic and returns: nothing is
    written and nothing is raised.  What is under the key [channels] is not
    looked at. *)
Theorem catalog_guard_aborts
    (e : Dynamic.env) (sort : option string) (data : obj) :
  result (Dynamic.fetch_url e Generator.ROKU_URL true true) = Ret data ->
  (truth data = false
   \/ (exists d, data = ODict d /\ lookup d "channels" = None)
   \/ (exists l, data = OList l /\ ~ In (OStr "channels") l)
   \/ (exists s, data = OStr s /\ contains "channels" s = false)) ->
  result (Dynamic.generate_roku_playlist e sort) = Ret tt
  /\ Spec.file_writes (trace (Dynamic.generate_roku_playlist e sort)) = []
  /\ In (Log ERROR "Failed to fetch or parse Roku data." None)
       (trace (Dynamic.generate_roku_playlist e sort)).
Proof.
  intros Hf Hdata.
  assert (Hn : Dynamic.no_channels data = Ret true).
  { unfold Dynamic.no_channels.
    destruct (truth data) eqn:Ht; [|reflexivity]. cbn [negb].
    destruct Hdata as [H | [(d & -> & H) | [(l & -> & H) | (s & -> & H)]]].
    - discriminate.
    - cbn [py_in rbind]. now rewrite H.
    - cbn [py_in rbind]. now rewrite not_in_list.
    - cbn [py_in rbind]. now rewrite H. }
  rewrite (dynamic_generate_stops e sort data Hf Hn).
  cbn [trace result fst snd]. split; [reflexivity|]. split.
  - cbn [Spec.file_writes]. rewrite file_writes_app, dynamic_fetch_url_writes.
    reflexivity.
  - right. apply in_or_app. right. now left.
Qed.

Lemma catalog_guard_aborts_witness :
  result (Dynamic.fetch_url (serving_json no_channels_key)
            Generator.ROKU_URL true true) = Ret no_channels_key
  /\ result (Dynamic.generate_roku_playlist (serving_json no_channels_key)
               None) = Ret tt
  /\ Spec.file_writes
       (trace (Dynamic.generate_roku_playlist (serving_json no_channels_key)
                 None)) = [].
Proof.
  split; [reflexivity|].
  destruct (catalog_guard_aborts (serving_json no_channels_key) None
              no_channels_key eq_refl
              (or_intror (or_introl
                 (ex_intro _ [("other", OInt 1)] (conj eq_refl eq_refl)))))
    as (Hr & Hw & _).
  split; [exact Hr | exact Hw].
Defined.

(** ** An ordering that fails *)

Lemma dynamic_sort_channel_ids_cases (sort : string)
    (c : list (string * obj)) :
  Dynamic.sort_channel_ids sort (ODict c)
  = match Dynamic.sorted_ids sort (ODict c) with
    | Ret ids => ([], Ret ids)
    | Raise ex => ([sort_warning ex], Ret (map fst c))
    end.
Proof.
  unfold Dynamic.sort_channel_ids.
  now destruct (Dynamic.sorted_ids sort (ODict c)).
Qed.

Lemma lookup_truth (d : list (string * obj)) (k : string) (v : obj) :
  lookup d k = Some v -> truth (ODict d) = true.
Proof. now destruct d. Qed.

(** A run whose catalog is a mapping under the key [channels]. *)
Lemma dynamic_generate_with_mapping (e : Dynamic.env) (sort : option string)
    (d c : list (string * obj)) (ts : list event) (ids : list string) :
  result (Dynamic.fetch_url e Generator.ROKU_URL true true) = Ret (ODict d) ->
  lookup d "channels" = Some (ODict c) ->
  Dynamic.sort_channel_ids (Generator.get sort Generator.default_sort)
    (ODict c) = (ts, Ret ids) ->
  Dynamic.generate_roku_playlist e sort
  = ((Log INFO "--- Generating Roku playlist ---" None
      :: trace (Dynamic.fetch_url e Generator.ROKU_URL true true)
      ++ ts ++ trace (build_and_write e (ODict c) ids))%list,
     result (build_and_write e (ODict c) ids)).
Proof.
  intros Hf Hc Hs. unfold Dynamic.generate_roku_playlist, emit.
  rewrite bind_ret.
  destruct (Dynamic.fetch_url e Generator.ROKU_URL true true) as [tf rf].
  cbn [trace result fst snd] in Hf |- *. subst rf.
  rewrite bind_ret. unfold Dynamic.no_channels.
  rewrite (lookup_truth d _ _ Hc). cbn [negb py_in rbind]. rewrite Hc.
  cbn [negb]. rewrite bind_lift_ret. cbn [get_method]. rewrite Hc.
  rewrite bind_lift_ret, Hs, bind_ret. reflexivity.
Qed.

Lemma typed_build_and_write (e : Generator.env) (c : Generator.catalog)
    (ids : list string) :
  (forall k, In k ids -> In k (Generator.keys c)) ->
  result (build_and_write (of_env e) (ODict (of_entries c)) ids) = Ret tt
  /\ Spec.file_writes
       (trace (build_and_write (of_env e) (ODict (of_entries c)) ids))
     = [("roku_all.m3u", String.concat "" (Spec.playlist_lines e c ids))].
Proof.
  intros Hin. unfold build_and_write.
  change (ODict (of_entries c)) with (of_catalog c).
  rewrite build_entries_of_typed.
  destruct (build_entries_ret e c ids [Generator.header_line] Hin)
    as [Hb Hbw].
  destruct (Generator.build_entries e c ids [Generator.header_line])
    as [tb rb].
  cbn [trace result fst snd] in Hb, Hbw. subst rb. rewrite bind_ret.
  cbn [trace result fst snd]. rewrite write_m3u_file_of_typed. split.
  - apply write_m3u_file_ret.
  - rewrite file_writes_app, Hbw. cbn [app].
    apply write_m3u_file_writes.
Qed.

(** C9, as the specification states it, fails.  The catalog
    [{"A": {"name": 123}}] is sorted by name: the key function raises
    [AttributeError] (a number has no [lower]), the warning is logged and the
    order of the catalog is taken; the loop then raises [AttributeError] at
    line 10, a number having no [replace] either, and the build ends there:
    nothing is written. *)
Lemma ordering_failure_then_abort :
  Dynamic.sorted_ids "name" (ODict [("A", ODict [("name", OInt 123)])])
  = Raise AttributeError
  /\ Dynamic.generate_roku_playlist (serving_json numeric_name) (Some "name")
     = ([Log INFO "--- Generating Roku playlist ---" None;
         sort_warning AttributeError],
        Raise AttributeError)
  /\ Spec.file_writes
       (trace (Dynamic.generate_roku_playlist (serving_json numeric_name)
                 (Some "name"))) = [].
Proof. repeat split. Qed.

(** C9, amended. For every catalog that is a mapping, if computing the sort
    order raises, [generate_roku_playlist] logs a warning, falls back to the
    catalog's own iteration order over the same channel identifiers, and goes
    on with the loop and the write for them: the run ends as that loop and
    write do.  When the entries of the catalog and the answers of the
    provider have the documented shape, the build then runs to completion:
    it returns and the whole document, of [1 + 2N] lines, is handed to the
    sink. *)
Theorem ordering_failure_continues
    (e : Dynamic.env) (sort : option string) (d c : list (string * obj))
    (ex : exn) :
  result (Dynamic.fetch_url e Generator.ROKU_URL true true) = Ret (ODict d) ->
  lookup d "channels" = Some (ODict c) ->
  Dynamic.sorted_ids (Generator.get sort Generator.default_sort) (ODict c)
  = Raise ex ->
  Dynamic.sort_channel_ids (Generator.get sort Generator.default_sort)
    (ODict c)
  = ([sort_warning ex], Ret (map fst c))
  /\ In (sort_warning ex) (trace (Dynamic.generate_roku_playlist e sort))
  /\ result (Dynamic.generate_roku_playlist e sort)
     = result (build_and_write e (ODict c) (map fst c))
  /\ Spec.file_writes (trace (Dynamic.generate_roku_playlist e sort))
     = Spec.file_writes (trace (build_and_write e (ODict c) (map fst c)))
  /\ (forall (e0 : Generator.env) (c0 : Generator.catalog),
        e = of_env e0 -> c = of_entries c0 ->
        result (Dynamic.generate_roku_playlist e sort) = Ret tt
        /\ Spec.file_writes (trace (Dynamic.generate_roku_playlist e sort))
           = [("roku_all.m3u",
               String.concat ""
                 (Spec.playlist_lines e0 c0 (Generator.keys c0)))]
        /\ List.length (Spec.playlist_lines e0 c0 (Generator.keys c0))
           = 1 + 2 * List.length c0).
Proof.
  intros Hf Hc Hs.
  assert (Hids : Dynamic.sort_channel_ids
                   (Generator.get sort Generator.default_sort) (ODict c)
                 = ([sort_warning ex], Ret (map fst c))).
  { now rewrite dynamic_sort_channel_ids_cases, Hs. }
  rewrite (dynamic_generate_with_mapping e sort d c _ _ Hf Hc Hids).
  cbn [trace result fst snd].
  assert (Hw : Spec.file_writes
                 (Log INFO "--- Generating Roku playlist ---" None
                  :: trace (Dynamic.fetch_url e Generator.ROKU_URL true true)
                  ++ [sort_warning ex]
                  ++ trace (build_and_write e (ODict c) (map fst c)))%list
               = Spec.file_writes
                   (trace (build_and_write e (ODict c) (map fst c)))).
  { cbn [Spec.file_writes].
    rewrite file_writes_app, dynamic_fetch_url_writes. reflexivity. }
  split; [exact Hids|]. split.
  { right. apply in_or_app. right. now left. }
  split; [reflexivity|]. split; [exact Hw|].
  intros e0 c0 -> ->. rewrite Hw, keys_of_entries.
  destruct (typed_build_and_write e0 c0 (Generator.keys c0) (fun k H => H))
    as [Hr Hbw].
  split; [exact Hr|]. split; [exact Hbw|].
  unfold Spec.playlist_lines. cbn [List.length].
  rewrite (Properties.entries_length e0 c0 (Generator.keys c0) (fun k H => H)).
  unfold Generator.keys. now rewrite length_map.
Qed.

Lemma ordering_failure_continues_witness :
  Dynamic.sorted_ids "chno" (ODict (of_entries Examples.abc_with_none))
  = Raise TypeError
  /\ In (sort_warning TypeError)
       (trace (Dynamic.generate_roku_playlist
                 (of_env (Examples.serving
                            (Examples.with_channels Examples.abc_with_none)))
                 None))
  /\ result (Dynamic.generate_roku_playlist
               (of_env (Examples.serving
                          (Examples.with_channels Examples.abc_with_none)))
               None) = Ret tt
  /\ Spec.file_writes
       (trace (Dynamic.generate_roku_playlist
                 (of_env (Examples.serving
                            (Examples.with_channels Examples.abc_with_none)))
                 None))
     = [("roku_all.m3u",
         String.concat ""
           (Spec.playlist_lines
              (Examples.serving
                 (Examples.with_channels Examples.abc_with_none))
              Examples.abc_with_none ["A"; "B"; "C"]))].
Proof.
  split; [reflexivity|].
  destruct (ordering_failure_continues
              (of_env (Examples.serving
                         (Examples.with_channels Examples.abc_with_none)))
              None
              [("channels", ODict (of_entries Examples.abc_with_none))]
              (of_entries Examples.abc_with_none) TypeError
              eq_refl eq_refl eq_refl)
    as (_ & Hin & _ & _ & Htyped).
  split; [exact Hin|].
  destruct (Htyped _ _ eq_refl eq_refl) as (Hr & Hw & _).
  split; [exact Hr | exact Hw].
Defined.

(** ** Runs that raise, and runs that cannot *)

(** X13. When the catalog document and the answers of the provider have
    the documented shape (the document null or an object whose [channels]
    entry, when there is one, maps identifiers to objects with a name that
    is a text or null, groups that are null or an array of texts and nulls,
    a number and a logo that are scalars; a playback answer that is an
    object with a scalar [url], or no object), [generate_roku_playlist]
    never raises, for any sort mode and whatever fails on the way (the
    transport, the status, the decoding, the ordering, the resolver, the
    disk), and it writes at most one file, [roku_all.m3u].  Outside that
    shape it can raise: with a playback answer [{"url": []}] the run raises
    [TypeError] at line 141 and writes nothing. *)
Theorem documented_shape_never_raises :
  (forall (e : Generator.env) (sort : option string),
      result (Dynamic.generate_roku_playlist (of_env e) sort) = Ret tt
      /\ (Spec.file_writes
            (trace (Dynamic.generate_roku_playlist (of_env e) sort)) = []
          \/ exists doc,
              Spec.file_writes
                (trace (Dynamic.generate_roku_playlist (of_env e) sort))
              = [("roku_all.m3u", doc)]))
  /\ Dynamic.generate_roku_playlist array_url_env None
     = ([Log INFO "--- Generating Roku playlist ---" None], Raise TypeError).
Proof.
  split; [|reflexivity]. intros e sort. rewrite generate_of_typed.
  apply Behaviour.typed_generate_total.
Qed.

(** ** When the ordering fails *)

Lemma lookup_In (c : list (string * obj)) (k : string) (v : obj) :
  lookup c k = Some v -> exists k', In (k', v) c.
Proof.
  induction c as [|[k0 v0] c IH]; [discriminate|]. cbn [lookup].
  destruct (String.eqb k0 k).
  - intros H; injection H as <-. exists k0. now left.
  - intros H. destruct (IH H) as [k' Hk']. exists k'. now right.
Qed.

Lemma lookup_in_keys (c : list (string * obj)) (k : string) (v : obj) :
  lookup c k = Some v -> In k (map fst c).
Proof.
  induction c as [|[k0 v0] c IH]; [discriminate|]. cbn [lookup map fst].
  destruct (String.eqb_spec k0 k) as [->|Hne]; [now left|].
  intros H. right. now apply IH.
Qed.

Lemma keys_lookup (c : list (string * obj)) (k : string) :
  In k (map fst c) -> exists v, lookup c k = Some v.
Proof.
  induction c as [|[k0 v0] c IH]; [easy|]. cbn [lookup map fst].
  destruct (String.eqb_spec k0 k) as [->|Hne]; [now eexists|].
  intros [H|H]; [contradiction | now apply IH].
Qed.

Lemma dynamic_warning_iff (sort : string) (c : list (string * obj)) :
  (exists ex,
     Dynamic.sort_channel_ids sort (ODict c)
     = ([sort_warning ex], Ret (map fst c)))
  <-> exists ex, Dynamic.sorted_ids sort (ODict c) = Raise ex.
Proof.
  rewrite dynamic_sort_channel_ids_cases. split; intros [ex H].
  - destruct (Dynamic.sorted_ids sort (ODict c)); [discriminate|now eexists].
  - rewrite H. now eexists.
Qed.

(** X19. In channel-number mode the order falls back to the order of the
    catalog, with the warning, whenever some entry of the catalog is not an
    object or carries a [chno] that is null, an array, an object or a text
    that is not a decimal number; and the sort succeeds, without a warning
    and on the same identifiers, when every entry is an object whose [chno]
    is absent, an integer or a boolean. *)
Theorem chno_warning_causes (c : list (string * obj)) :
  (forall k entry,
      lookup c k = Some entry ->
      (is_dict entry = false
       \/ exists fields,
           entry = ODict fields
           /\ (lookup fields "chno" = Some ONone
               \/ (exists l, lookup fields "chno" = Some (OList l))
               \/ (exists m, lookup fields "chno" = Some (ODict m))
               \/ (exists s, lookup fields "chno" = Some (OStr s)
                             /\ int_of_str s = None))) ->
      exists ex,
        Dynamic.sort_channel_ids "chno" (ODict c)
        = ([sort_warning ex], Ret (map fst c)))
  /\ ((forall k entry,
         In (k, entry) c ->
         exists fields,
           entry = ODict fields
           /\ (lookup fields "chno" = None
               \/ (exists z, lookup fields "chno" = Some (OInt z))
               \/ (exists b, lookup fields "chno" = Some (OBool b)))) ->
      exists ids,
        Dynamic.sort_channel_ids "chno" (ODict c) = ([], Ret ids)
        /\ Permutation ids (map fst c)).
Proof.
  split.
  - intros k entry Hk Hbad. apply dynamic_warning_iff.
    unfold Dynamic.sorted_ids. cbn [keys_method rbind String.eqb Ascii.eqb].
    simpl String.eqb. apply Behaviour.sorted_raises_iff.
    assert (Hr : exists ex, Dynamic.chno_key (ODict c) k = Raise ex).
    { unfold Dynamic.chno_key, Dynamic.entry, getitem. rewrite Hk.
      cbn [rbind].
      destruct Hbad as [Hd | (fields & -> & Hf)].
      - destruct entry; try discriminate; now eexists.
      - cbn [get_method rbind].
        destruct Hf as [-> | [(l & ->) | [(m & ->) | (s & -> & Hs)]]];
          cbn [py_int]; try rewrite Hs; now eexists. }
    destruct Hr as [ex Hr]. exists k, ex. split; [|exact Hr].
    eapply lookup_in_keys; eauto.
  - intros Hall.
    destruct (sorted_total Z.leb (Dynamic.chno_key (ODict c)) (map fst c))
      as [ids Hids].
    { intros k Hk. destruct (keys_lookup c k Hk) as [entry He].
      destruct (lookup_In c k entry He) as [k' Hin].
      destruct (Hall k' entry Hin) as (fields & -> & Hf).
      unfold Dynamic.chno_key, Dynamic.entry, getitem. rewrite He.
      cbn [rbind get_method].
      destruct Hf as [-> | [(z & ->) | (b & ->)]]; cbn [py_int];
        now eexists. }
    exists ids. rewrite dynamic_sort_channel_ids_cases.
    unfold Dynamic.sorted_ids. cbn [keys_method rbind]. simpl String.eqb.
    rewrite Hids. split; [reflexivity|].
    now apply (sorted_ret Z.leb Z_leb_total Z_leb_trans) in Hids.
Qed.

Lemma chno_warning_causes_witness :
  (exists ex,
      Dynamic.sort_channel_ids "chno" (ODict array_number)
      = ([sort_warning ex], Ret ["A"; "B"]))
  /\ exists ids,
      Dynamic.sort_channel_ids "chno" (ODict plain_numbers) = ([], Ret ids)
      /\ Permutation ids ["A"; "B"; "C"].
Proof.
  split.
  - apply (proj1 (chno_warning_causes array_number) "B"
             (ODict [("chno", OList [])]) eq_refl).
    right. exists [("chno", OList [])]. split; [reflexivity|].
    right. left. now exists [].
  - apply (proj2 (chno_warning_causes plain_numbers)).
    intros k entry [E|[E|[E|[]]]]; injection E as <- <-; eexists;
      (split; [reflexivity|]).
    + right. left. now eexists.
    + now left.
    + right. right. now eexists.
Defined.

(** X20. In name mode (any mode other than ['chno']) the order falls back
    to the order of the catalog, with the warning, exactly when some entry
    of the catalog is not an object or has a [name] that is not a text
    (null, a number, a boolean, an array, an object); the exception reported
    is then [AttributeError].  An entry without the key never causes it. *)
Theorem name_warning_iff_not_text (sort : string) (c : list (string * obj)) :
  sort <> "chno" ->
  ((exists ex,
       Dynamic.sort_channel_ids sort (ODict c)
       = ([sort_warning ex], Ret (map fst c)))
   <-> exists k entry,
        lookup c k = Some entry
        /\ (is_dict entry = false
            \/ exists fields v,
                entry = ODict fields
                /\ lookup fields "name" = Some v /\ is_str v = false))
  /\ (forall ex,
        Dynamic.sort_channel_ids sort (ODict c)
        = ([sort_warning ex], Ret (map fst c)) ->
        ex = AttributeError).
Proof.
  intros Hne. apply String.eqb_neq in Hne.
  assert (Hkey : forall k ex,
             In k (map fst c) ->
             Dynamic.name_key (ODict c) k = Raise ex ->
             ex = AttributeError
             /\ exists entry,
                 lookup c k = Some entry
                 /\ (is_dict entry = false
                     \/ exists fields v,
                         entry = ODict fields
                         /\ lookup fields "name" = Some v
                         /\ is_str v = false)).
  { intros k ex Hk Hr. destruct (keys_lookup c k Hk) as [entry He].
    unfold Dynamic.name_key, Dynamic.entry, getitem in Hr. rewrite He in Hr.
    cbn [rbind] in Hr.
    destruct entry as [| | | | |l|fields];
      try (cbn in Hr; injection Hr as <-; split; [reflexivity|];
           eexists; split; [exact He | now left]).
    cbn [get_method rbind] in Hr.
    destruct (lookup fields "name") as [v|] eqn:Hv; [|discriminate].
    destruct v; cbn in Hr; try discriminate; injection Hr as <-;
      (split; [reflexivity|]); eexists; (split; [exact He|]); right;
      do 2 eexists; (split; [reflexivity|]); (split; [exact Hv|]);
      reflexivity. }
  split.
  - rewrite dynamic_warning_iff. unfold Dynamic.sorted_ids.
    cbn [keys_method rbind]. rewrite Hne.
    rewrite Behaviour.sorted_raises_iff. split.
    + intros (k & ex & Hk & Hr).
      destruct (Hkey k ex Hk Hr) as (_ & entry & He & Hbad).
      now exists k, entry.
    + intros (k & entry & He & Hbad). exists k, AttributeError.
      split; [eapply lookup_in_keys; eauto|].
      unfold Dynamic.name_key, Dynamic.entry, getitem. rewrite He.
      cbn [rbind].
      destruct Hbad as [Hd | (fields & v & -> & Hv & Hs)].
      * now destruct entry.
      * cbn [get_method rbind]. rewrite Hv. now destruct v.
  - intros ex Hs. rewrite dynamic_sort_channel_ids_cases in Hs.
    destruct (Dynamic.sorted_ids sort (ODict c)) as [ids|ex'] eqn:E;
      [discriminate|].
    injection Hs as <-. unfold Dynamic.sorted_ids in E.
    cbn [keys_method rbind] in E. rewrite Hne in E.
    destruct (sorted_raise _ _ _ _ E) as (k & Hk & Hr).
    now destruct (Hkey k ex' Hk Hr).
Qed.

Lemma name_warning_iff_not_text_witness :
  "name" <> "chno"
  /\ exists ex,
      Dynamic.sort_channel_ids "name"
        (ODict [("A", ODict [("name", OInt 123)])])
      = ([sort_warning ex], Ret ["A"]).
Proof.
  assert (H : "name" <> "chno") by discriminate.
  split; [exact H|].
  apply (proj2 (proj1 (name_warning_iff_not_text "name"
                         [("A", ODict [("name", OInt 123)])] H))).
  exists "A", (ODict [("name", OInt 123)]). split; [reflexivity|].
  right. exists [("name", OInt 123)], (OInt 123). now repeat split.
Defined.

End Robustness.
